(** * SQL chat bot: the question-to-SQL pipeline of [bot_core_logic.py]

    A shallow embedding of [SQLChatBot] (validators, completion clean-up,
    executor row cap, Slack formatter, orchestrator and schema refresh)
    together with the properties its specification states about it.

    Python [str] is modelled as the list of its code points.  [len],
    slices, [in] and [startswith] work on code points; [str.upper],
    [str.lower] and the white space of [str.strip] and [str.split] follow
    the tables of Unicode 14.0, the version of CPython 3.11. *)

From Stdlib Require Import Ascii String DecimalString ZArith.
From Stdlib Require Import Arith Bool Lia PeanoNat List Setoid.
Import ListNotations.

Local Open Scope list_scope.
Local Open Scope bool_scope.

(* ===================================================================== *)
(** ** Python string primitives *)
(* ===================================================================== *)

(** The case mappings ([c.upper()], [c.lower()], for every code point
    they change), the white space ([c.isspace()]) and the two properties
    the final-sigma rule of [str.lower] reads (case-ignorable, and cased
    among the others) of Unicode 14.0. *)
Module Unicode.

Definition upper_table : list (N * list N) :=
  [
   (97, [65]); (98, [66]); (99, [67]); (100, [68]); (101, [69]); (102, [70]); (103, [71]);
   (104, [72]); (105, [73]); (106, [74]); (107, [75]); (108, [76]); (109, [77]);
   (110, [78]); (111, [79]); (112, [80]); (113, [81]); (114, [82]); (115, [83]);
   (116, [84]); (117, [85]); (118, [86]); (119, [87]); (120, [88]); (121, [89]);
   (122, [90]); (181, [924]); (223, [83; 83]); (224, [192]); (225, [193]); (226, [194]);
   (227, [195]); (228, [196]); (229, [197]); (230, [198]); (231, [199]); (232, [200]);
   (233, [201]); (234, [202]); (235, [203]); (236, [204]); (237, [205]); (238, [206]);
   (239, [207]); (240, [208]); (241, [209]); (242, [210]); (243, [211]); (244, [212]);
   (245, [213]); (246, [214]); (248, [216]); (249, [217]); (250, [218]); (251, [219]);
   (252, [220]); (253, [221]); (254, [222]); (255, [376]); (257, [256]); (259, [258]);
   (261, [260]); (263, [262]); (265, [264]); (267, [266]); (269, [268]); (271, [270]);
   (273, [272]); (275, [274]); (277, [276]); (279, [278]); (281, [280]); (283, [282]);
   (285, [284]); (287, [286]); (289, [288]); (291, [290]); (293, [292]); (295, [294]);
   (297, [296]); (299, [298]); (301, [300]); (303, [302]); (305, [73]); (307, [306]);
   (309, [308]); (311, [310]); (314, [313]); (316, [315]); (318, [317]); (320, [319]);
   (322, [321]); (324, [323]); (326, [325]); (328, [327]); (329, [700; 78]); (331, [330]);
   (333, [332]); (335, [334]); (337, [336]); (339, [338]); (341, [340]); (343, [342]);
   (345, [344]); (347, [346]); (349, [348]); (351, [350]); (353, [352]); (355, [354]);
   (357, [356]); (359, [358]); (361, [360]); (363, [362]); (365, [364]); (367, [366]);
   (369, [368]); (371, [370]); (373, [372]); (375, [374]); (378, [377]); (380, [379]);
   (382, [381]); (383, [83]); (384, [579]); (387, [386]); (389, [388]); (392, [391]);
   (396, [395]); (402, [401]); (405, [502]); (409, [408]); (410, [573]); (414, [544]);
   (417, [416]); (419, [418]); (421, [420]); (424, [423]); (429, [428]); (432, [431]);
   (436, [435]); (438, [437]); (441, [440]); (445, [444]); (447, [503]); (453, [452]);
   (454, [452]); (456, [455]); (457, [455]); (459, [458]); (460, [458]); (462, [461]);
   (464, [463]); (466, [465]); (468, [467]); (470, [469]); (472, [471]); (474, [473]);
   (476, [475]); (477, [398]); (479, [478]); (481, [480]); (483, [482]); (485, [484]);
   (487, [486]); (489, [488]); (491, [490]); (493, [492]); (495, [494]); (496, [74; 780]);
   (498, [497]); (499, [497]); (501, [500]); (505, [504]); (507, [506]); (509, [508]);
   (511, [510]); (513, [512]); (515, [514]); (517, [516]); (519, [518]); (521, [520]);
   (523, [522]); (525, [524]); (527, [526]); (529, [528]); (531, [530]); (533, [532]);
   (535, [534]); (537, [536]); (539, [538]); (541, [540]); (543, [542]); (547, [546]);
   (549, [548]); (551, [550]); (553, [552]); (555, [554]); (557, [556]); (559, [558]);
   (561, [560]); (563, [562]); (572, [571]); (575, [11390]); (576, [11391]); (578, [577]);
   (583, [582]); (585, [584]); (587, [586]); (589, [588]); (591, [590]); (592, [11375]);
   (593, [11373]); (594, [11376]); (595, [385]); (596, [390]); (598, [393]); (599, [394]);
   (601, [399]); (603, [400]); (604, [42923]); (608, [403]); (609, [42924]); (611, [404]);
   (613, [42893]); (614, [42922]); (616, [407]); (617, [406]); (618, [42926]);
   (619, [11362]); (620, [42925]); (623, [412]); (625, [11374]); (626, [413]);
   (629, [415]); (637, [11364]); (640, [422]); (642, [42949]); (643, [425]);
   (647, [42929]); (648, [430]); (649, [580]); (650, [433]); (651, [434]); (652, [581]);
   (658, [439]); (669, [42930]); (670, [42928]); (837, [921]); (881, [880]); (883, [882]);
   (887, [886]); (891, [1021]); (892, [1022]); (893, [1023]); (912, [921; 776; 769]);
   (940, [902]); (941, [904]); (942, [905]); (943, [906]); (944, [933; 776; 769]);
   (945, [913]); (946, [914]); (947, [915]); (948, [916]); (949, [917]); (950, [918]);
   (951, [919]); (952, [920]); (953, [921]); (954, [922]); (955, [923]); (956, [924]);
   (957, [925]); (958, [926]); (959, [927]); (960, [928]); (961, [929]); (962, [931]);
   (963, [931]); (964, [932]); (965, [933]); (966, [934]); (967, [935]); (968, [936]);
   (969, [937]); (970, [938]); (971, [939]); (972, [908]); (973, [910]); (974, [911]);
   (976, [914]); (977, [920]); (981, [934]); (982, [928]); (983, [975]); (985, [984]);
   (987, [986]); (989, [988]); (991, [990]); (993, [992]); (995, [994]); (997, [996]);
   (999, [998]); (1001, [1000]); (1003, [1002]); (1005, [1004]); (1007, [1006]);
   (1008, [922]); (1009, [929]); (1010, [1017]); (1011, [895]); (1013, [917]);
   (1016, [1015]); (1019, [1018]); (1072, [1040]); (1073, [1041]); (1074, [1042]);
   (1075, [1043]); (1076, [1044]); (1077, [1045]); (1078, [1046]); (1079, [1047]);
   (1080, [1048]); (1081, [1049]); (1082, [1050]); (1083, [1051]); (1084, [1052]);
   (1085, [1053]); (1086, [1054]); (1087, [1055]); (1088, [1056]); (1089, [1057]);
   (1090, [1058]); (1091, [1059]); (1092, [1060]); (1093, [1061]); (1094, [1062]);
   (1095, [1063]); (1096, [1064]); (1097, [1065]); (1098, [1066]); (1099, [1067]);
   (1100, [1068]); (1101, [1069]); (1102, [1070]); (1103, [1071]); (1104, [1024]);
   (1105, [1025]); (1106, [1026]); (1107, [1027]); (1108, [1028]); (1109, [1029]);
   (1110, [1030]); (1111, [1031]); (1112, [1032]); (1113, [1033]); (1114, [1034]);
   (1115, [1035]); (1116, [1036]); (1117, [1037]); (1118, [1038]); (1119, [1039]);
   (1121, [1120]); (1123, [1122]); (1125, [1124]); (1127, [1126]); (1129, [1128]);
   (1131, [1130]); (1133, [1132]); (1135, [1134]); (1137, [1136]); (1139, [1138]);
   (1141, [1140]); (1143, [1142]); (1145, [1144]); (1147, [1146]); (1149, [1148]);
   (1151, [1150]); (1153, [1152]); (1163, [1162]); (1165, [1164]); (1167, [1166]);
   (1169, [1168]); (1171, [1170]); (1173, [1172]); (1175, [1174]); (1177, [1176]);
   (1179, [1178]); (1181, [1180]); (1183, [1182]); (1185, [1184]); (1187, [1186]);
   (1189, [1188]); (1191, [1190]); (1193, [1192]); (1195, [1194]); (1197, [1196]);
   (1199, [1198]); (1201, [1200]); (1203, [1202]); (1205, [1204]); (1207, [1206]);
   (1209, [1208]); (1211, [1210]); (1213, [1212]); (1215, [1214]); (1218, [1217]);
   (1220, [1219]); (1222, [1221]); (1224, [1223]); (1226, [1225]); (1228, [1227]);
   (1230, [1229]); (1231, [1216]); (1233, [1232]); (1235, [1234]); (1237, [1236]);
   (1239, [1238]); (1241, [1240]); (1243, [1242]); (1245, [1244]); (1247, [1246]);
   (1249, [1248]); (1251, [1250]); (1253, [1252]); (1255, [1254]); (1257, [1256]);
   (1259, [1258]); (1261, [1260]); (1263, [1262]); (1265, [1264]); (1267, [1266]);
   (1269, [1268]); (1271, [1270]); (1273, [1272]); (1275, [1274]); (1277, [1276]);
   (1279, [1278]); (1281, [1280]); (1283, [1282]); (1285, [1284]); (1287, [1286]);
   (1289, [1288]); (1291, [1290]); (1293, [1292]); (1295, [1294]); (1297, [1296]);
   (1299, [1298]); (1301, [1300]); (1303, [1302]); (1305, [1304]); (1307, [1306]);
   (1309, [1308]); (1311, [1310]); (1313, [1312]); (1315, [1314]); (1317, [1316]);
   (1319, [1318]); (1321, [1320]); (1323, [1322]); (1325, [1324]); (1327, [1326]);
   (1377, [1329]); (1378, [1330]); (1379, [1331]); (1380, [1332]); (1381, [1333]);
   (1382, [1334]); (1383, [1335]); (1384, [1336]); (1385, [1337]); (1386, [1338]);
   (1387, [1339]); (1388, [1340]); (1389, [1341]); (1390, [1342]); (1391, [1343]);
   (1392, [1344]); (1393, [1345]); (1394, [1346]); (1395, [1347]); (1396, [1348]);
   (1397, [1349]); (1398, [1350]); (1399, [1351]); (1400, [1352]); (1401, [1353]);
   (1402, [1354]); (1403, [1355]); (1404, [1356]); (1405, [1357]); (1406, [1358]);
   (1407, [1359]); (1408, [1360]); (1409, [1361]); (1410, [1362]); (1411, [1363]);
   (1412, [1364]); (1413, [1365]); (1414, [1366]); (1415, [1333; 1362]); (4304, [7312]);
   (4305, [7313]); (4306, [7314]); (4307, [7315]); (4308, [7316]); (4309, [7317]);
   (4310, [7318]); (4311, [7319]); (4312, [7320]); (4313, [7321]); (4314, [7322]);
   (4315, [7323]); (4316, [7324]); (4317, [7325]); (4318, [7326]); (4319, [7327]);
   (4320, [7328]); (4321, [7329]); (4322, [7330]); (4323, [7331]); (4324, [7332]);
   (4325, [7333]); (4326, [7334]); (4327, [7335]); (4328, [7336]); (4329, [7337]);
   (4330, [7338]); (4331, [7339]); (4332, [7340]); (4333, [7341]); (4334, [7342]);
   (4335, [7343]); (4336, [7344]); (4337, [7345]); (4338, [7346]); (4339, [7347]);
   (4340, [7348]); (4341, [7349]); (4342, [7350]); (4343, [7351]); (4344, [7352]);
   (4345, [7353]); (4346, [7354]); (4349, [7357]); (4350, [7358]); (4351, [7359]);
   (5112, [5104]); (5113, [5105]); (5114, [5106]); (5115, [5107]); (5116, [5108]);
   (5117, [5109]); (7296, [1042]); (7297, [1044]); (7298, [1054]); (7299, [1057]);
   (7300, [1058]); (7301, [1058]); (7302, [1066]); (7303, [1122]); (7304, [42570]);
   (7545, [42877]); (7549, [11363]); (7566, [42950]); (7681, [7680]); (7683, [7682]);
   (7685, [7684]); (7687, [7686]); (7689, [7688]); (7691, [7690]); (7693, [7692]);
   (7695, [7694]); (7697, [7696]); (7699, [7698]); (7701, [7700]); (7703, [7702]);
   (7705, [7704]); (7707, [7706]); (7709, [7708]); (7711, [7710]); (7713, [7712]);
   (7715, [7714]); (7717, [7716]); (7719, [7718]); (7721, [7720]); (7723, [7722]);
   (7725, [7724]); (7727, [7726]); (7729, [7728]); (7731, [7730]); (7733, [7732]);
   (7735, [7734]); (7737, [7736]); (7739, [7738]); (7741, [7740]); (7743, [7742]);
   (7745, [7744]); (7747, [7746]); (7749, [7748]); (7751, [7750]); (7753, [7752]);
   (7755, [7754]); (7757, [7756]); (7759, [7758]); (7761, [7760]); (7763, [7762]);
   (7765, [7764]); (7767, [7766]); (7769, [7768]); (7771, [7770]); (7773, [7772]);
   (7775, [7774]); (7777, [7776]); (7779, [7778]); (7781, [7780]); (7783, [7782]);
   (7785, [7784]); (7787, [7786]); (7789, [7788]); (7791, [7790]); (7793, [7792]);
   (7795, [7794]); (7797, [7796]); (7799, [7798]); (7801, [7800]); (7803, [7802]);
   (7805, [7804]); (7807, [7806]); (7809, [7808]); (7811, [7810]); (7813, [7812]);
   (7815, [7814]); (7817, [7816]); (7819, [7818]); (7821, [7820]); (7823, [7822]);
   (7825, [7824]); (7827, [7826]); (7829, [7828]); (7830, [72; 817]); (7831, [84; 776]);
   (7832, [87; 778]); (7833, [89; 778]); (7834, [65; 702]); (7835, [7776]); (7841, [7840]);
   (7843, [7842]); (7845, [7844]); (7847, [7846]); (7849, [7848]); (7851, [7850]);
   (7853, [7852]); (7855, [7854]); (7857, [7856]); (7859, [7858]); (7861, [7860]);
   (7863, [7862]); (7865, [7864]); (7867, [7866]); (7869, [7868]); (7871, [7870]);
   (7873, [7872]); (7875, [7874]); (7877, [7876]); (7879, [7878]); (7881, [7880]);
   (7883, [7882]); (7885, [7884]); (7887, [7886]); (7889, [7888]); (7891, [7890]);
   (7893, [7892]); (7895, [7894]); (7897, [7896]); (7899, [7898]); (7901, [7900]);
   (7903, [7902]); (7905, [7904]); (7907, [7906]); (7909, [7908]); (7911, [7910]);
   (7913, [7912]); (7915, [7914]); (7917, [7916]); (7919, [7918]); (7921, [7920]);
   (7923, [7922]); (7925, [7924]); (7927, [7926]); (7929, [7928]); (7931, [7930]);
   (7933, [7932]); (7935, [7934]); (7936, [7944]); (7937, [7945]); (7938, [7946]);
   (7939, [7947]); (7940, [7948]); (7941, [7949]); (7942, [7950]); (7943, [7951]);
   (7952, [7960]); (7953, [7961]); (7954, [7962]); (7955, [7963]); (7956, [7964]);
   (7957, [7965]); (7968, [7976]); (7969, [7977]); (7970, [7978]); (7971, [7979]);
   (7972, [7980]); (7973, [7981]); (7974, [7982]); (7975, [7983]); (7984, [7992]);
   (7985, [7993]); (7986, [7994]); (7987, [7995]); (7988, [7996]); (7989, [7997]);
   (7990, [7998]); (7991, [7999]); (8000, [8008]); (8001, [8009]); (8002, [8010]);
   (8003, [8011]); (8004, [8012]); (8005, [8013]); (8016, [933; 787]); (8017, [8025]);
   (8018, [933; 787; 768]); (8019, [8027]); (8020, [933; 787; 769]); (8021, [8029]);
   (8022, [933; 787; 834]); (8023, [8031]); (8032, [8040]); (8033, [8041]); (8034, [8042]);
   (8035, [8043]); (8036, [8044]); (8037, [8045]); (8038, [8046]); (8039, [8047]);
   (8048, [8122]); (8049, [8123]); (8050, [8136]); (8051, [8137]); (8052, [8138]);
   (8053, [8139]); (8054, [8154]); (8055, [8155]); (8056, [8184]); (8057, [8185]);
   (8058, [8170]); (8059, [8171]); (8060, [8186]); (8061, [8187]); (8064, [7944; 921]);
   (8065, [7945; 921]); (8066, [7946; 921]); (8067, [7947; 921]); (8068, [7948; 921]);
   (8069, [7949; 921]); (8070, [7950; 921]); (8071, [7951; 921]); (8072, [7944; 921]);
   (8073, [7945; 921]); (8074, [7946; 921]); (8075, [7947; 921]); (8076, [7948; 921]);
   (8077, [7949; 921]); (8078, [7950; 921]); (8079, [7951; 921]); (8080, [7976; 921]);
   (8081, [7977; 921]); (8082, [7978; 921]); (8083, [7979; 921]); (8084, [7980; 921]);
   (8085, [7981; 921]); (8086, [7982; 921]); (8087, [7983; 921]); (8088, [7976; 921]);
   (8089, [7977; 921]); (8090, [7978; 921]); (8091, [7979; 921]); (8092, [7980; 921]);
   (8093, [7981; 921]); (8094, [7982; 921]); (8095, [7983; 921]); (8096, [8040; 921]);
   (8097, [8041; 921]); (8098, [8042; 921]); (8099, [8043; 921]); (8100, [8044; 921]);
   (8101, [8045; 921]); (8102, [8046; 921]); (8103, [8047; 921]); (8104, [8040; 921]);
   (8105, [8041; 921]); (8106, [8042; 921]); (8107, [8043; 921]); (8108, [8044; 921]);
   (8109, [8045; 921]); (8110, [8046; 921]); (8111, [8047; 921]); (8112, [8120]);
   (8113, [8121]); (8114, [8122; 921]); (8115, [913; 921]); (8116, [902; 921]);
   (8118, [913; 834]); (8119, [913; 834; 921]); (8124, [913; 921]); (8126, [921]);
   (8130, [8138; 921]); (8131, [919; 921]); (8132, [905; 921]); (8134, [919; 834]);
   (8135, [919; 834; 921]); (8140, [919; 921]); (8144, [8152]); (8145, [8153]);
   (8146, [921; 776; 768]); (8147, [921; 776; 769]); (8150, [921; 834]);
   (8151, [921; 776; 834]); (8160, [8168]); (8161, [8169]); (8162, [933; 776; 768]);
   (8163, [933; 776; 769]); (8164, [929; 787]); (8165, [8172]); (8166, [933; 834]);
   (8167, [933; 776; 834]); (8178, [8186; 921]); (8179, [937; 921]); (8180, [911; 921]);
   (8182, [937; 834]); (8183, [937; 834; 921]); (8188, [937; 921]); (8526, [8498]);
   (8560, [8544]); (8561, [8545]); (8562, [8546]); (8563, [8547]); (8564, [8548]);
   (8565, [8549]); (8566, [8550]); (8567, [8551]); (8568, [8552]); (8569, [8553]);
   (8570, [8554]); (8571, [8555]); (8572, [8556]); (8573, [8557]); (8574, [8558]);
   (8575, [8559]); (8580, [8579]); (9424, [9398]); (9425, [9399]); (9426, [9400]);
   (9427, [9401]); (9428, [9402]); (9429, [9403]); (9430, [9404]); (9431, [9405]);
   (9432, [9406]); (9433, [9407]); (9434, [9408]); (9435, [9409]); (9436, [9410]);
   (9437, [9411]); (9438, [9412]); (9439, [9413]); (9440, [9414]); (9441, [9415]);
   (9442, [9416]); (9443, [9417]); (9444, [9418]); (9445, [9419]); (9446, [9420]);
   (9447, [9421]); (9448, [9422]); (9449, [9423]); (11312, [11264]); (11313, [11265]);
   (11314, [11266]); (11315, [11267]); (11316, [11268]); (11317, [11269]);
   (11318, [11270]); (11319, [11271]); (11320, [11272]); (11321, [11273]);
   (11322, [11274]); (11323, [11275]); (11324, [11276]); (11325, [11277]);
   (11326, [11278]); (11327, [11279]); (11328, [11280]); (11329, [11281]);
   (11330, [11282]); (11331, [11283]); (11332, [11284]); (11333, [11285]);
   (11334, [11286]); (11335, [11287]); (11336, [11288]); (11337, [11289]);
   (11338, [11290]); (11339, [11291]); (11340, [11292]); (11341, [11293]);
   (11342, [11294]); (11343, [11295]); (11344, [11296]); (11345, [11297]);
   (11346, [11298]); (11347, [11299]); (11348, [11300]); (11349, [11301]);
   (11350, [11302]); (11351, [11303]); (11352, [11304]); (11353, [11305]);
   (11354, [11306]); (11355, [11307]); (11356, [11308]); (11357, [11309]);
   (11358, [11310]); (11359, [11311]); (11361, [11360]); (11365, [570]); (11366, [574]);
   (11368, [11367]); (11370, [11369]); (11372, [11371]); (11379, [11378]);
   (11382, [11381]); (11393, [11392]); (11395, [11394]); (11397, [11396]);
   (11399, [11398]); (11401, [11400]); (11403, [11402]); (11405, [11404]);
   (11407, [11406]); (11409, [11408]); (11411, [11410]); (11413, [11412]);
   (11415, [11414]); (11417, [11416]); (11419, [11418]); (11421, [11420]);
   (11423, [11422]); (11425, [11424]); (11427, [11426]); (11429, [11428]);
   (11431, [11430]); (11433, [11432]); (11435, [11434]); (11437, [11436]);
   (11439, [11438]); (11441, [11440]); (11443, [11442]); (11445, [11444]);
   (11447, [11446]); (11449, [11448]); (11451, [11450]); (11453, [11452]);
   (11455, [11454]); (11457, [11456]); (11459, [11458]); (11461, [11460]);
   (11463, [11462]); (11465, [11464]); (11467, [11466]); (11469, [11468]);
   (11471, [11470]); (11473, [11472]); (11475, [11474]); (11477, [11476]);
   (11479, [11478]); (11481, [11480]); (11483, [11482]); (11485, [11484]);
   (11487, [11486]); (11489, [11488]); (11491, [11490]); (11500, [11499]);
   (11502, [11501]); (11507, [11506]); (11520, [4256]); (11521, [4257]); (11522, [4258]);
   (11523, [4259]); (11524, [4260]); (11525, [4261]); (11526, [4262]); (11527, [4263]);
   (11528, [4264]); (11529, [4265]); (11530, [4266]); (11531, [4267]); (11532, [4268]);
   (11533, [4269]); (11534, [4270]); (11535, [4271]); (11536, [4272]); (11537, [4273]);
   (11538, [4274]); (11539, [4275]); (11540, [4276]); (11541, [4277]); (11542, [4278]);
   (11543, [4279]); (11544, [4280]); (11545, [4281]); (11546, [4282]); (11547, [4283]);
   (11548, [4284]); (11549, [4285]); (11550, [4286]); (11551, [4287]); (11552, [4288]);
   (11553, [4289]); (11554, [4290]); (11555, [4291]); (11556, [4292]); (11557, [4293]);
   (11559, [4295]); (11565, [4301]); (42561, [42560]); (42563, [42562]); (42565, [42564]);
   (42567, [42566]); (42569, [42568]); (42571, [42570]); (42573, [42572]);
   (42575, [42574]); (42577, [42576]); (42579, [42578]); (42581, [42580]);
   (42583, [42582]); (42585, [42584]); (42587, [42586]); (42589, [42588]);
   (42591, [42590]); (42593, [42592]); (42595, [42594]); (42597, [42596]);
   (42599, [42598]); (42601, [42600]); (42603, [42602]); (42605, [42604]);
   (42625, [42624]); (42627, [42626]); (42629, [42628]); (42631, [42630]);
   (42633, [42632]); (42635, [42634]); (42637, [42636]); (42639, [42638]);
   (42641, [42640]); (42643, [42642]); (42645, [42644]); (42647, [42646]);
   (42649, [42648]); (42651, [42650]); (42787, [42786]); (42789, [42788]);
   (42791, [42790]); (42793, [42792]); (42795, [42794]); (42797, [42796]);
   (42799, [42798]); (42803, [42802]); (42805, [42804]); (42807, [42806]);
   (42809, [42808]); (42811, [42810]); (42813, [42812]); (42815, [42814]);
   (42817, [42816]); (42819, [42818]); (42821, [42820]); (42823, [42822]);
   (42825, [42824]); (42827, [42826]); (42829, [42828]); (42831, [42830]);
   (42833, [42832]); (42835, [42834]); (42837, [42836]); (42839, [42838]);
   (42841, [42840]); (42843, [42842]); (42845, [42844]); (42847, [42846]);
   (42849, [42848]); (42851, [42850]); (42853, [42852]); (42855, [42854]);
   (42857, [42856]); (42859, [42858]); (42861, [42860]); (42863, [42862]);
   (42874, [42873]); (42876, [42875]); (42879, [42878]); (42881, [42880]);
   (42883, [42882]); (42885, [42884]); (42887, [42886]); (42892, [42891]);
   (42897, [42896]); (42899, [42898]); (42900, [42948]); (42903, [42902]);
   (42905, [42904]); (42907, [42906]); (42909, [42908]); (42911, [42910]);
   (42913, [42912]); (42915, [42914]); (42917, [42916]); (42919, [42918]);
   (42921, [42920]); (42933, [42932]); (42935, [42934]); (42937, [42936]);
   (42939, [42938]); (42941, [42940]); (42943, [42942]); (42945, [42944]);
   (42947, [42946]); (42952, [42951]); (42954, [42953]); (42961, [42960]);
   (42967, [42966]); (42969, [42968]); (42998, [42997]); (43859, [42931]); (43888, [5024]);
   (43889, [5025]); (43890, [5026]); (43891, [5027]); (43892, [5028]); (43893, [5029]);
   (43894, [5030]); (43895, [5031]); (43896, [5032]); (43897, [5033]); (43898, [5034]);
   (43899, [5035]); (43900, [5036]); (43901, [5037]); (43902, [5038]); (43903, [5039]);
   (43904, [5040]); (43905, [5041]); (43906, [5042]); (43907, [5043]); (43908, [5044]);
   (43909, [5045]); (43910, [5046]); (43911, [5047]); (43912, [5048]); (43913, [5049]);
   (43914, [5050]); (43915, [5051]); (43916, [5052]); (43917, [5053]); (43918, [5054]);
   (43919, [5055]); (43920, [5056]); (43921, [5057]); (43922, [5058]); (43923, [5059]);
   (43924, [5060]); (43925, [5061]); (43926, [5062]); (43927, [5063]); (43928, [5064]);
   (43929, [5065]); (43930, [5066]); (43931, [5067]); (43932, [5068]); (43933, [5069]);
   (43934, [5070]); (43935, [5071]); (43936, [5072]); (43937, [5073]); (43938, [5074]);
   (43939, [5075]); (43940, [5076]); (43941, [5077]); (43942, [5078]); (43943, [5079]);
   (43944, [5080]); (43945, [5081]); (43946, [5082]); (43947, [5083]); (43948, [5084]);
   (43949, [5085]); (43950, [5086]); (43951, [5087]); (43952, [5088]); (43953, [5089]);
   (43954, [5090]); (43955, [5091]); (43956, [5092]); (43957, [5093]); (43958, [5094]);
   (43959, [5095]); (43960, [5096]); (43961, [5097]); (43962, [5098]); (43963, [5099]);
   (43964, [5100]); (43965, [5101]); (43966, [5102]); (43967, [5103]); (64256, [70; 70]);
   (64257, [70; 73]); (64258, [70; 76]); (64259, [70; 70; 73]); (64260, [70; 70; 76]);
   (64261, [83; 84]); (64262, [83; 84]); (64275, [1348; 1350]); (64276, [1348; 1333]);
   (64277, [1348; 1339]); (64278, [1358; 1350]); (64279, [1348; 1341]); (65345, [65313]);
   (65346, [65314]); (65347, [65315]); (65348, [65316]); (65349, [65317]);
   (65350, [65318]); (65351, [65319]); (65352, [65320]); (65353, [65321]);
   (65354, [65322]); (65355, [65323]); (65356, [65324]); (65357, [65325]);
   (65358, [65326]); (65359, [65327]); (65360, [65328]); (65361, [65329]);
   (65362, [65330]); (65363, [65331]); (65364, [65332]); (65365, [65333]);
   (65366, [65334]); (65367, [65335]); (65368, [65336]); (65369, [65337]);
   (65370, [65338]); (66600, [66560]); (66601, [66561]); (66602, [66562]);
   (66603, [66563]); (66604, [66564]); (66605, [66565]); (66606, [66566]);
   (66607, [66567]); (66608, [66568]); (66609, [66569]); (66610, [66570]);
   (66611, [66571]); (66612, [66572]); (66613, [66573]); (66614, [66574]);
   (66615, [66575]); (66616, [66576]); (66617, [66577]); (66618, [66578]);
   (66619, [66579]); (66620, [66580]); (66621, [66581]); (66622, [66582]);
   (66623, [66583]); (66624, [66584]); (66625, [66585]); (66626, [66586]);
   (66627, [66587]); (66628, [66588]); (66629, [66589]); (66630, [66590]);
   (66631, [66591]); (66632, [66592]); (66633, [66593]); (66634, [66594]);
   (66635, [66595]); (66636, [66596]); (66637, [66597]); (66638, [66598]);
   (66639, [66599]); (66776, [66736]); (66777, [66737]); (66778, [66738]);
   (66779, [66739]); (66780, [66740]); (66781, [66741]); (66782, [66742]);
   (66783, [66743]); (66784, [66744]); (66785, [66745]); (66786, [66746]);
   (66787, [66747]); (66788, [66748]); (66789, [66749]); (66790, [66750]);
   (66791, [66751]); (66792, [66752]); (66793, [66753]); (66794, [66754]);
   (66795, [66755]); (66796, [66756]); (66797, [66757]); (66798, [66758]);
   (66799, [66759]); (66800, [66760]); (66801, [66761]); (66802, [66762]);
   (66803, [66763]); (66804, [66764]); (66805, [66765]); (66806, [66766]);
   (66807, [66767]); (66808, [66768]); (66809, [66769]); (66810, [66770]);
   (66811, [66771]); (66967, [66928]); (66968, [66929]); (66969, [66930]);
   (66970, [66931]); (66971, [66932]); (66972, [66933]); (66973, [66934]);
   (66974, [66935]); (66975, [66936]); (66976, [66937]); (66977, [66938]);
   (66979, [66940]); (66980, [66941]); (66981, [66942]); (66982, [66943]);
   (66983, [66944]); (66984, [66945]); (66985, [66946]); (66986, [66947]);
   (66987, [66948]); (66988, [66949]); (66989, [66950]); (66990, [66951]);
   (66991, [66952]); (66992, [66953]); (66993, [66954]); (66995, [66956]);
   (66996, [66957]); (66997, [66958]); (66998, [66959]); (66999, [66960]);
   (67000, [66961]); (67001, [66962]); (67003, [66964]); (67004, [66965]);
   (68800, [68736]); (68801, [68737]); (68802, [68738]); (68803, [68739]);
   (68804, [68740]); (68805, [68741]); (68806, [68742]); (68807, [68743]);
   (68808, [68744]); (68809, [68745]); (68810, [68746]); (68811, [68747]);
   (68812, [68748]); (68813, [68749]); (68814, [68750]); (68815, [68751]);
   (68816, [68752]); (68817, [68753]); (68818, [68754]); (68819, [68755]);
   (68820, [68756]); (68821, [68757]); (68822, [68758]); (68823, [68759]);
   (68824, [68760]); (68825, [68761]); (68826, [68762]); (68827, [68763]);
   (68828, [68764]); (68829, [68765]); (68830, [68766]); (68831, [68767]);
   (68832, [68768]); (68833, [68769]); (68834, [68770]); (68835, [68771]);
   (68836, [68772]); (68837, [68773]); (68838, [68774]); (68839, [68775]);
   (68840, [68776]); (68841, [68777]); (68842, [68778]); (68843, [68779]);
   (68844, [68780]); (68845, [68781]); (68846, [68782]); (68847, [68783]);
   (68848, [68784]); (68849, [68785]); (68850, [68786]); (71872, [71840]);
   (71873, [71841]); (71874, [71842]); (71875, [71843]); (71876, [71844]);
   (71877, [71845]); (71878, [71846]); (71879, [71847]); (71880, [71848]);
   (71881, [71849]); (71882, [71850]); (71883, [71851]); (71884, [71852]);
   (71885, [71853]); (71886, [71854]); (71887, [71855]); (71888, [71856]);
   (71889, [71857]); (71890, [71858]); (71891, [71859]); (71892, [71860]);
   (71893, [71861]); (71894, [71862]); (71895, [71863]); (71896, [71864]);
   (71897, [71865]); (71898, [71866]); (71899, [71867]); (71900, [71868]);
   (71901, [71869]); (71902, [71870]); (71903, [71871]); (93792, [93760]);
   (93793, [93761]); (93794, [93762]); (93795, [93763]); (93796, [93764]);
   (93797, [93765]); (93798, [93766]); (93799, [93767]); (93800, [93768]);
   (93801, [93769]); (93802, [93770]); (93803, [93771]); (93804, [93772]);
   (93805, [93773]); (93806, [93774]); (93807, [93775]); (93808, [93776]);
   (93809, [93777]); (93810, [93778]); (93811, [93779]); (93812, [93780]);
   (93813, [93781]); (93814, [93782]); (93815, [93783]); (93816, [93784]);
   (93817, [93785]); (93818, [93786]); (93819, [93787]); (93820, [93788]);
   (93821, [93789]); (93822, [93790]); (93823, [93791]); (125218, [125184]);
   (125219, [125185]); (125220, [125186]); (125221, [125187]); (125222, [125188]);
   (125223, [125189]); (125224, [125190]); (125225, [125191]); (125226, [125192]);
   (125227, [125193]); (125228, [125194]); (125229, [125195]); (125230, [125196]);
   (125231, [125197]); (125232, [125198]); (125233, [125199]); (125234, [125200]);
   (125235, [125201]); (125236, [125202]); (125237, [125203]); (125238, [125204]);
   (125239, [125205]); (125240, [125206]); (125241, [125207]); (125242, [125208]);
   (125243, [125209]); (125244, [125210]); (125245, [125211]); (125246, [125212]);
   (125247, [125213]); (125248, [125214]); (125249, [125215]); (125250, [125216]);
   (125251, [125217])
  ]%N.

Definition lower_table : list (N * list N) :=
  [
   (65, [97]); (66, [98]); (67, [99]); (68, [100]); (69, [101]); (70, [102]); (71, [103]);
   (72, [104]); (73, [105]); (74, [106]); (75, [107]); (76, [108]); (77, [109]);
   (78, [110]); (79, [111]); (80, [112]); (81, [113]); (82, [114]); (83, [115]);
   (84, [116]); (85, [117]); (86, [118]); (87, [119]); (88, [120]); (89, [121]);
   (90, [122]); (192, [224]); (193, [225]); (194, [226]); (195, [227]); (196, [228]);
   (197, [229]); (198, [230]); (199, [231]); (200, [232]); (201, [233]); (202, [234]);
   (203, [235]); (204, [236]); (205, [237]); (206, [238]); (207, [239]); (208, [240]);
   (209, [241]); (210, [242]); (211, [243]); (212, [244]); (213, [245]); (214, [246]);
   (216, [248]); (217, [249]); (218, [250]); (219, [251]); (220, [252]); (221, [253]);
   (222, [254]); (256, [257]); (258, [259]); (260, [261]); (262, [263]); (264, [265]);
   (266, [267]); (268, [269]); (270, [271]); (272, [273]); (274, [275]); (276, [277]);
   (278, [279]); (280, [281]); (282, [283]); (284, [285]); (286, [287]); (288, [289]);
   (290, [291]); (292, [293]); (294, [295]); (296, [297]); (298, [299]); (300, [301]);
   (302, [303]); (304, [105; 775]); (306, [307]); (308, [309]); (310, [311]); (313, [314]);
   (315, [316]); (317, [318]); (319, [320]); (321, [322]); (323, [324]); (325, [326]);
   (327, [328]); (330, [331]); (332, [333]); (334, [335]); (336, [337]); (338, [339]);
   (340, [341]); (342, [343]); (344, [345]); (346, [347]); (348, [349]); (350, [351]);
   (352, [353]); (354, [355]); (356, [357]); (358, [359]); (360, [361]); (362, [363]);
   (364, [365]); (366, [367]); (368, [369]); (370, [371]); (372, [373]); (374, [375]);
   (376, [255]); (377, [378]); (379, [380]); (381, [382]); (385, [595]); (386, [387]);
   (388, [389]); (390, [596]); (391, [392]); (393, [598]); (394, [599]); (395, [396]);
   (398, [477]); (399, [601]); (400, [603]); (401, [402]); (403, [608]); (404, [611]);
   (406, [617]); (407, [616]); (408, [409]); (412, [623]); (413, [626]); (415, [629]);
   (416, [417]); (418, [419]); (420, [421]); (422, [640]); (423, [424]); (425, [643]);
   (428, [429]); (430, [648]); (431, [432]); (433, [650]); (434, [651]); (435, [436]);
   (437, [438]); (439, [658]); (440, [441]); (444, [445]); (452, [454]); (453, [454]);
   (455, [457]); (456, [457]); (458, [460]); (459, [460]); (461, [462]); (463, [464]);
   (465, [466]); (467, [468]); (469, [470]); (471, [472]); (473, [474]); (475, [476]);
   (478, [479]); (480, [481]); (482, [483]); (484, [485]); (486, [487]); (488, [489]);
   (490, [491]); (492, [493]); (494, [495]); (497, [499]); (498, [499]); (500, [501]);
   (502, [405]); (503, [447]); (504, [505]); (506, [507]); (508, [509]); (510, [511]);
   (512, [513]); (514, [515]); (516, [517]); (518, [519]); (520, [521]); (522, [523]);
   (524, [525]); (526, [527]); (528, [529]); (530, [531]); (532, [533]); (534, [535]);
   (536, [537]); (538, [539]); (540, [541]); (542, [543]); (544, [414]); (546, [547]);
   (548, [549]); (550, [551]); (552, [553]); (554, [555]); (556, [557]); (558, [559]);
   (560, [561]); (562, [563]); (570, [11365]); (571, [572]); (573, [410]); (574, [11366]);
   (577, [578]); (579, [384]); (580, [649]); (581, [652]); (582, [583]); (584, [585]);
   (586, [587]); (588, [589]); (590, [591]); (880, [881]); (882, [883]); (886, [887]);
   (895, [1011]); (902, [940]); (904, [941]); (905, [942]); (906, [943]); (908, [972]);
   (910, [973]); (911, [974]); (913, [945]); (914, [946]); (915, [947]); (916, [948]);
   (917, [949]); (918, [950]); (919, [951]); (920, [952]); (921, [953]); (922, [954]);
   (923, [955]); (924, [956]); (925, [957]); (926, [958]); (927, [959]); (928, [960]);
   (929, [961]); (931, [963]); (932, [964]); (933, [965]); (934, [966]); (935, [967]);
   (936, [968]); (937, [969]); (938, [970]); (939, [971]); (975, [983]); (984, [985]);
   (986, [987]); (988, [989]); (990, [991]); (992, [993]); (994, [995]); (996, [997]);
   (998, [999]); (1000, [1001]); (1002, [1003]); (1004, [1005]); (1006, [1007]);
   (1012, [952]); (1015, [1016]); (1017, [1010]); (1018, [1019]); (1021, [891]);
   (1022, [892]); (1023, [893]); (1024, [1104]); (1025, [1105]); (1026, [1106]);
   (1027, [1107]); (1028, [1108]); (1029, [1109]); (1030, [1110]); (1031, [1111]);
   (1032, [1112]); (1033, [1113]); (1034, [1114]); (1035, [1115]); (1036, [1116]);
   (1037, [1117]); (1038, [1118]); (1039, [1119]); (1040, [1072]); (1041, [1073]);
   (1042, [1074]); (1043, [1075]); (1044, [1076]); (1045, [1077]); (1046, [1078]);
   (1047, [1079]); (1048, [1080]); (1049, [1081]); (1050, [1082]); (1051, [1083]);
   (1052, [1084]); (1053, [1085]); (1054, [1086]); (1055, [1087]); (1056, [1088]);
   (1057, [1089]); (1058, [1090]); (1059, [1091]); (1060, [1092]); (1061, [1093]);
   (1062, [1094]); (1063, [1095]); (1064, [1096]); (1065, [1097]); (1066, [1098]);
   (1067, [1099]); (1068, [1100]); (1069, [1101]); (1070, [1102]); (1071, [1103]);
   (1120, [1121]); (1122, [1123]); (1124, [1125]); (1126, [1127]); (1128, [1129]);
   (1130, [1131]); (1132, [1133]); (1134, [1135]); (1136, [1137]); (1138, [1139]);
   (1140, [1141]); (1142, [1143]); (1144, [1145]); (1146, [1147]); (1148, [1149]);
   (1150, [1151]); (1152, [1153]); (1162, [1163]); (1164, [1165]); (1166, [1167]);
   (1168, [1169]); (1170, [1171]); (1172, [1173]); (1174, [1175]); (1176, [1177]);
   (1178, [1179]); (1180, [1181]); (1182, [1183]); (1184, [1185]); (1186, [1187]);
   (1188, [1189]); (1190, [1191]); (1192, [1193]); (1194, [1195]); (1196, [1197]);
   (1198, [1199]); (1200, [1201]); (1202, [1203]); (1204, [1205]); (1206, [1207]);
   (1208, [1209]); (1210, [1211]); (1212, [1213]); (1214, [1215]); (1216, [1231]);
   (1217, [1218]); (1219, [1220]); (1221, [1222]); (1223, [1224]); (1225, [1226]);
   (1227, [1228]); (1229, [1230]); (1232, [1233]); (1234, [1235]); (1236, [1237]);
   (1238, [1239]); (1240, [1241]); (1242, [1243]); (1244, [1245]); (1246, [1247]);
   (1248, [1249]); (1250, [1251]); (1252, [1253]); (1254, [1255]); (1256, [1257]);
   (1258, [1259]); (1260, [1261]); (1262, [1263]); (1264, [1265]); (1266, [1267]);
   (1268, [1269]); (1270, [1271]); (1272, [1273]); (1274, [1275]); (1276, [1277]);
   (1278, [1279]); (1280, [1281]); (1282, [1283]); (1284, [1285]); (1286, [1287]);
   (1288, [1289]); (1290, [1291]); (1292, [1293]); (1294, [1295]); (1296, [1297]);
   (1298, [1299]); (1300, [1301]); (1302, [1303]); (1304, [1305]); (1306, [1307]);
   (1308, [1309]); (1310, [1311]); (1312, [1313]); (1314, [1315]); (1316, [1317]);
   (1318, [1319]); (1320, [1321]); (1322, [1323]); (1324, [1325]); (1326, [1327]);
   (1329, [1377]); (1330, [1378]); (1331, [1379]); (1332, [1380]); (1333, [1381]);
   (1334, [1382]); (1335, [1383]); (1336, [1384]); (1337, [1385]); (1338, [1386]);
   (1339, [1387]); (1340, [1388]); (1341, [1389]); (1342, [1390]); (1343, [1391]);
   (1344, [1392]); (1345, [1393]); (1346, [1394]); (1347, [1395]); (1348, [1396]);
   (1349, [1397]); (1350, [1398]); (1351, [1399]); (1352, [1400]); (1353, [1401]);
   (1354, [1402]); (1355, [1403]); (1356, [1404]); (1357, [1405]); (1358, [1406]);
   (1359, [1407]); (1360, [1408]); (1361, [1409]); (1362, [1410]); (1363, [1411]);
   (1364, [1412]); (1365, [1413]); (1366, [1414]); (4256, [11520]); (4257, [11521]);
   (4258, [11522]); (4259, [11523]); (4260, [11524]); (4261, [11525]); (4262, [11526]);
   (4263, [11527]); (4264, [11528]); (4265, [11529]); (4266, [11530]); (4267, [11531]);
   (4268, [11532]); (4269, [11533]); (4270, [11534]); (4271, [11535]); (4272, [11536]);
   (4273, [11537]); (4274, [11538]); (4275, [11539]); (4276, [11540]); (4277, [11541]);
   (4278, [11542]); (4279, [11543]); (4280, [11544]); (4281, [11545]); (4282, [11546]);
   (4283, [11547]); (4284, [11548]); (4285, [11549]); (4286, [11550]); (4287, [11551]);
   (4288, [11552]); (4289, [11553]); (4290, [11554]); (4291, [11555]); (4292, [11556]);
   (4293, [11557]); (4295, [11559]); (4301, [11565]); (5024, [43888]); (5025, [43889]);
   (5026, [43890]); (5027, [43891]); (5028, [43892]); (5029, [43893]); (5030, [43894]);
   (5031, [43895]); (5032, [43896]); (5033, [43897]); (5034, [43898]); (5035, [43899]);
   (5036, [43900]); (5037, [43901]); (5038, [43902]); (5039, [43903]); (5040, [43904]);
   (5041, [43905]); (5042, [43906]); (5043, [43907]); (5044, [43908]); (5045, [43909]);
   (5046, [43910]); (5047, [43911]); (5048, [43912]); (5049, [43913]); (5050, [43914]);
   (5051, [43915]); (5052, [43916]); (5053, [43917]); (5054, [43918]); (5055, [43919]);
   (5056, [43920]); (5057, [43921]); (5058, [43922]); (5059, [43923]); (5060, [43924]);
   (5061, [43925]); (5062, [43926]); (5063, [43927]); (5064, [43928]); (5065, [43929]);
   (5066, [43930]); (5067, [43931]); (5068, [43932]); (5069, [43933]); (5070, [43934]);
   (5071, [43935]); (5072, [43936]); (5073, [43937]); (5074, [43938]); (5075, [43939]);
   (5076, [43940]); (5077, [43941]); (5078, [43942]); (5079, [43943]); (5080, [43944]);
   (5081, [43945]); (5082, [43946]); (5083, [43947]); (5084, [43948]); (5085, [43949]);
   (5086, [43950]); (5087, [43951]); (5088, [43952]); (5089, [43953]); (5090, [43954]);
   (5091, [43955]); (5092, [43956]); (5093, [43957]); (5094, [43958]); (5095, [43959]);
   (5096, [43960]); (5097, [43961]); (5098, [43962]); (5099, [43963]); (5100, [43964]);
   (5101, [43965]); (5102, [43966]); (5103, [43967]); (5104, [5112]); (5105, [5113]);
   (5106, [5114]); (5107, [5115]); (5108, [5116]); (5109, [5117]); (7312, [4304]);
   (7313, [4305]); (7314, [4306]); (7315, [4307]); (7316, [4308]); (7317, [4309]);
   (7318, [4310]); (7319, [4311]); (7320, [4312]); (7321, [4313]); (7322, [4314]);
   (7323, [4315]); (7324, [4316]); (7325, [4317]); (7326, [4318]); (7327, [4319]);
   (7328, [4320]); (7329, [4321]); (7330, [4322]); (7331, [4323]); (7332, [4324]);
   (7333, [4325]); (7334, [4326]); (7335, [4327]); (7336, [4328]); (7337, [4329]);
   (7338, [4330]); (7339, [4331]); (7340, [4332]); (7341, [4333]); (7342, [4334]);
   (7343, [4335]); (7344, [4336]); (7345, [4337]); (7346, [4338]); (7347, [4339]);
   (7348, [4340]); (7349, [4341]); (7350, [4342]); (7351, [4343]); (7352, [4344]);
   (7353, [4345]); (7354, [4346]); (7357, [4349]); (7358, [4350]); (7359, [4351]);
   (7680, [7681]); (7682, [7683]); (7684, [7685]); (7686, [7687]); (7688, [7689]);
   (7690, [7691]); (7692, [7693]); (7694, [7695]); (7696, [7697]); (7698, [7699]);
   (7700, [7701]); (7702, [7703]); (7704, [7705]); (7706, [7707]); (7708, [7709]);
   (7710, [7711]); (7712, [7713]); (7714, [7715]); (7716, [7717]); (7718, [7719]);
   (7720, [7721]); (7722, [7723]); (7724, [7725]); (7726, [7727]); (7728, [7729]);
   (7730, [7731]); (7732, [7733]); (7734, [7735]); (7736, [7737]); (7738, [7739]);
   (7740, [7741]); (7742, [7743]); (7744, [7745]); (7746, [7747]); (7748, [7749]);
   (7750, [7751]); (7752, [7753]); (7754, [7755]); (7756, [7757]); (7758, [7759]);
   (7760, [7761]); (7762, [7763]); (7764, [7765]); (7766, [7767]); (7768, [7769]);
   (7770, [7771]); (7772, [7773]); (7774, [7775]); (7776, [7777]); (7778, [7779]);
   (7780, [7781]); (7782, [7783]); (7784, [7785]); (7786, [7787]); (7788, [7789]);
   (7790, [7791]); (7792, [7793]); (7794, [7795]); (7796, [7797]); (7798, [7799]);
   (7800, [7801]); (7802, [7803]); (7804, [7805]); (7806, [7807]); (7808, [7809]);
   (7810, [7811]); (7812, [7813]); (7814, [7815]); (7816, [7817]); (7818, [7819]);
   (7820, [7821]); (7822, [7823]); (7824, [7825]); (7826, [7827]); (7828, [7829]);
   (7838, [223]); (7840, [7841]); (7842, [7843]); (7844, [7845]); (7846, [7847]);
   (7848, [7849]); (7850, [7851]); (7852, [7853]); (7854, [7855]); (7856, [7857]);
   (7858, [7859]); (7860, [7861]); (7862, [7863]); (7864, [7865]); (7866, [7867]);
   (7868, [7869]); (7870, [7871]); (7872, [7873]); (7874, [7875]); (7876, [7877]);
   (7878, [7879]); (7880, [7881]); (7882, [7883]); (7884, [7885]); (7886, [7887]);
   (7888, [7889]); (7890, [7891]); (7892, [7893]); (7894, [7895]); (7896, [7897]);
   (7898, [7899]); (7900, [7901]); (7902, [7903]); (7904, [7905]); (7906, [7907]);
   (7908, [7909]); (7910, [7911]); (7912, [7913]); (7914, [7915]); (7916, [7917]);
   (7918, [7919]); (7920, [7921]); (7922, [7923]); (7924, [7925]); (7926, [7927]);
   (7928, [7929]); (7930, [7931]); (7932, [7933]); (7934, [7935]); (7944, [7936]);
   (7945, [7937]); (7946, [7938]); (7947, [7939]); (7948, [7940]); (7949, [7941]);
   (7950, [7942]); (7951, [7943]); (7960, [7952]); (7961, [7953]); (7962, [7954]);
   (7963, [7955]); (7964, [7956]); (7965, [7957]); (7976, [7968]); (7977, [7969]);
   (7978, [7970]); (7979, [7971]); (7980, [7972]); (7981, [7973]); (7982, [7974]);
   (7983, [7975]); (7992, [7984]); (7993, [7985]); (7994, [7986]); (7995, [7987]);
   (7996, [7988]); (7997, [7989]); (7998, [7990]); (7999, [7991]); (8008, [8000]);
   (8009, [8001]); (8010, [8002]); (8011, [8003]); (8012, [8004]); (8013, [8005]);
   (8025, [8017]); (8027, [8019]); (8029, [8021]); (8031, [8023]); (8040, [8032]);
   (8041, [8033]); (8042, [8034]); (8043, [8035]); (8044, [8036]); (8045, [8037]);
   (8046, [8038]); (8047, [8039]); (8072, [8064]); (8073, [8065]); (8074, [8066]);
   (8075, [8067]); (8076, [8068]); (8077, [8069]); (8078, [8070]); (8079, [8071]);
   (8088, [8080]); (8089, [8081]); (8090, [8082]); (8091, [8083]); (8092, [8084]);
   (8093, [8085]); (8094, [8086]); (8095, [8087]); (8104, [8096]); (8105, [8097]);
   (8106, [8098]); (8107, [8099]); (8108, [8100]); (8109, [8101]); (8110, [8102]);
   (8111, [8103]); (8120, [8112]); (8121, [8113]); (8122, [8048]); (8123, [8049]);
   (8124, [8115]); (8136, [8050]); (8137, [8051]); (8138, [8052]); (8139, [8053]);
   (8140, [8131]); (8152, [8144]); (8153, [8145]); (8154, [8054]); (8155, [8055]);
   (8168, [8160]); (8169, [8161]); (8170, [8058]); (8171, [8059]); (8172, [8165]);
   (8184, [8056]); (8185, [8057]); (8186, [8060]); (8187, [8061]); (8188, [8179]);
   (8486, [969]); (8490, [107]); (8491, [229]); (8498, [8526]); (8544, [8560]);
   (8545, [8561]); (8546, [8562]); (8547, [8563]); (8548, [8564]); (8549, [8565]);
   (8550, [8566]); (8551, [8567]); (8552, [8568]); (8553, [8569]); (8554, [8570]);
   (8555, [8571]); (8556, [8572]); (8557, [8573]); (8558, [8574]); (8559, [8575]);
   (8579, [8580]); (9398, [9424]); (9399, [9425]); (9400, [9426]); (9401, [9427]);
   (9402, [9428]); (9403, [9429]); (9404, [9430]); (9405, [9431]); (9406, [9432]);
   (9407, [9433]); (9408, [9434]); (9409, [9435]); (9410, [9436]); (9411, [9437]);
   (9412, [9438]); (9413, [9439]); (9414, [9440]); (9415, [9441]); (9416, [9442]);
   (9417, [9443]); (9418, [9444]); (9419, [9445]); (9420, [9446]); (9421, [9447]);
   (9422, [9448]); (9423, [9449]); (11264, [11312]); (11265, [11313]); (11266, [11314]);
   (11267, [11315]); (11268, [11316]); (11269, [11317]); (11270, [11318]);
   (11271, [11319]); (11272, [11320]); (11273, [11321]); (11274, [11322]);
   (11275, [11323]); (11276, [11324]); (11277, [11325]); (11278, [11326]);
   (11279, [11327]); (11280, [11328]); (11281, [11329]); (11282, [11330]);
   (11283, [11331]); (11284, [11332]); (11285, [11333]); (11286, [11334]);
   (11287, [11335]); (11288, [11336]); (11289, [11337]); (11290, [11338]);
   (11291, [11339]); (11292, [11340]); (11293, [11341]); (11294, [11342]);
   (11295, [11343]); (11296, [11344]); (11297, [11345]); (11298, [11346]);
   (11299, [11347]); (11300, [11348]); (11301, [11349]); (11302, [11350]);
   (11303, [11351]); (11304, [11352]); (11305, [11353]); (11306, [11354]);
   (11307, [11355]); (11308, [11356]); (11309, [11357]); (11310, [11358]);
   (11311, [11359]); (11360, [11361]); (11362, [619]); (11363, [7549]); (11364, [637]);
   (11367, [11368]); (11369, [11370]); (11371, [11372]); (11373, [593]); (11374, [625]);
   (11375, [592]); (11376, [594]); (11378, [11379]); (11381, [11382]); (11390, [575]);
   (11391, [576]); (11392, [11393]); (11394, [11395]); (11396, [11397]); (11398, [11399]);
   (11400, [11401]); (11402, [11403]); (11404, [11405]); (11406, [11407]);
   (11408, [11409]); (11410, [11411]); (11412, [11413]); (11414, [11415]);
   (11416, [11417]); (11418, [11419]); (11420, [11421]); (11422, [11423]);
   (11424, [11425]); (11426, [11427]); (11428, [11429]); (11430, [11431]);
   (11432, [11433]); (11434, [11435]); (11436, [11437]); (11438, [11439]);
   (11440, [11441]); (11442, [11443]); (11444, [11445]); (11446, [11447]);
   (11448, [11449]); (11450, [11451]); (11452, [11453]); (11454, [11455]);
   (11456, [11457]); (11458, [11459]); (11460, [11461]); (11462, [11463]);
   (11464, [11465]); (11466, [11467]); (11468, [11469]); (11470, [11471]);
   (11472, [11473]); (11474, [11475]); (11476, [11477]); (11478, [11479]);
   (11480, [11481]); (11482, [11483]); (11484, [11485]); (11486, [11487]);
   (11488, [11489]); (11490, [11491]); (11499, [11500]); (11501, [11502]);
   (11506, [11507]); (42560, [42561]); (42562, [42563]); (42564, [42565]);
   (42566, [42567]); (42568, [42569]); (42570, [42571]); (42572, [42573]);
   (42574, [42575]); (42576, [42577]); (42578, [42579]); (42580, [42581]);
   (42582, [42583]); (42584, [42585]); (42586, [42587]); (42588, [42589]);
   (42590, [42591]); (42592, [42593]); (42594, [42595]); (42596, [42597]);
   (42598, [42599]); (42600, [42601]); (42602, [42603]); (42604, [42605]);
   (42624, [42625]); (42626, [42627]); (42628, [42629]); (42630, [42631]);
   (42632, [42633]); (42634, [42635]); (42636, [42637]); (42638, [42639]);
   (42640, [42641]); (42642, [42643]); (42644, [42645]); (42646, [42647]);
   (42648, [42649]); (42650, [42651]); (42786, [42787]); (42788, [42789]);
   (42790, [42791]); (42792, [42793]); (42794, [42795]); (42796, [42797]);
   (42798, [42799]); (42802, [42803]); (42804, [42805]); (42806, [42807]);
   (42808, [42809]); (42810, [42811]); (42812, [42813]); (42814, [42815]);
   (42816, [42817]); (42818, [42819]); (42820, [42821]); (42822, [42823]);
   (42824, [42825]); (42826, [42827]); (42828, [42829]); (42830, [42831]);
   (42832, [42833]); (42834, [42835]); (42836, [42837]); (42838, [42839]);
   (42840, [42841]); (42842, [42843]); (42844, [42845]); (42846, [42847]);
   (42848, [42849]); (42850, [42851]); (42852, [42853]); (42854, [42855]);
   (42856, [42857]); (42858, [42859]); (42860, [42861]); (42862, [42863]);
   (42873, [42874]); (42875, [42876]); (42877, [7545]); (42878, [42879]); (42880, [42881]);
   (42882, [42883]); (42884, [42885]); (42886, [42887]); (42891, [42892]); (42893, [613]);
   (42896, [42897]); (42898, [42899]); (42902, [42903]); (42904, [42905]);
   (42906, [42907]); (42908, [42909]); (42910, [42911]); (42912, [42913]);
   (42914, [42915]); (42916, [42917]); (42918, [42919]); (42920, [42921]); (42922, [614]);
   (42923, [604]); (42924, [609]); (42925, [620]); (42926, [618]); (42928, [670]);
   (42929, [647]); (42930, [669]); (42931, [43859]); (42932, [42933]); (42934, [42935]);
   (42936, [42937]); (42938, [42939]); (42940, [42941]); (42942, [42943]);
   (42944, [42945]); (42946, [42947]); (42948, [42900]); (42949, [642]); (42950, [7566]);
   (42951, [42952]); (42953, [42954]); (42960, [42961]); (42966, [42967]);
   (42968, [42969]); (42997, [42998]); (65313, [65345]); (65314, [65346]);
   (65315, [65347]); (65316, [65348]); (65317, [65349]); (65318, [65350]);
   (65319, [65351]); (65320, [65352]); (65321, [65353]); (65322, [65354]);
   (65323, [65355]); (65324, [65356]); (65325, [65357]); (65326, [65358]);
   (65327, [65359]); (65328, [65360]); (65329, [65361]); (65330, [65362]);
   (65331, [65363]); (65332, [65364]); (65333, [65365]); (65334, [65366]);
   (65335, [65367]); (65336, [65368]); (65337, [65369]); (65338, [65370]);
   (66560, [66600]); (66561, [66601]); (66562, [66602]); (66563, [66603]);
   (66564, [66604]); (66565, [66605]); (66566, [66606]); (66567, [66607]);
   (66568, [66608]); (66569, [66609]); (66570, [66610]); (66571, [66611]);
   (66572, [66612]); (66573, [66613]); (66574, [66614]); (66575, [66615]);
   (66576, [66616]); (66577, [66617]); (66578, [66618]); (66579, [66619]);
   (66580, [66620]); (66581, [66621]); (66582, [66622]); (66583, [66623]);
   (66584, [66624]); (66585, [66625]); (66586, [66626]); (66587, [66627]);
   (66588, [66628]); (66589, [66629]); (66590, [66630]); (66591, [66631]);
   (66592, [66632]); (66593, [66633]); (66594, [66634]); (66595, [66635]);
   (66596, [66636]); (66597, [66637]); (66598, [66638]); (66599, [66639]);
   (66736, [66776]); (66737, [66777]); (66738, [66778]); (66739, [66779]);
   (66740, [66780]); (66741, [66781]); (66742, [66782]); (66743, [66783]);
   (66744, [66784]); (66745, [66785]); (66746, [66786]); (66747, [66787]);
   (66748, [66788]); (66749, [66789]); (66750, [66790]); (66751, [66791]);
   (66752, [66792]); (66753, [66793]); (66754, [66794]); (66755, [66795]);
   (66756, [66796]); (66757, [66797]); (66758, [66798]); (66759, [66799]);
   (66760, [66800]); (66761, [66801]); (66762, [66802]); (66763, [66803]);
   (66764, [66804]); (66765, [66805]); (66766, [66806]); (66767, [66807]);
   (66768, [66808]); (66769, [66809]); (66770, [66810]); (66771, [66811]);
   (66928, [66967]); (66929, [66968]); (66930, [66969]); (66931, [66970]);
   (66932, [66971]); (66933, [66972]); (66934, [66973]); (66935, [66974]);
   (66936, [66975]); (66937, [66976]); (66938, [66977]); (66940, [66979]);
   (66941, [66980]); (66942, [66981]); (66943, [66982]); (66944, [66983]);
   (66945, [66984]); (66946, [66985]); (66947, [66986]); (66948, [66987]);
   (66949, [66988]); (66950, [66989]); (66951, [66990]); (66952, [66991]);
   (66953, [66992]); (66954, [66993]); (66956, [66995]); (66957, [66996]);
   (66958, [66997]); (66959, [66998]); (66960, [66999]); (66961, [67000]);
   (66962, [67001]); (66964, [67003]); (66965, [67004]); (68736, [68800]);
   (68737, [68801]); (68738, [68802]); (68739, [68803]); (68740, [68804]);
   (68741, [68805]); (68742, [68806]); (68743, [68807]); (68744, [68808]);
   (68745, [68809]); (68746, [68810]); (68747, [68811]); (68748, [68812]);
   (68749, [68813]); (68750, [68814]); (68751, [68815]); (68752, [68816]);
   (68753, [68817]); (68754, [68818]); (68755, [68819]); (68756, [68820]);
   (68757, [68821]); (68758, [68822]); (68759, [68823]); (68760, [68824]);
   (68761, [68825]); (68762, [68826]); (68763, [68827]); (68764, [68828]);
   (68765, [68829]); (68766, [68830]); (68767, [68831]); (68768, [68832]);
   (68769, [68833]); (68770, [68834]); (68771, [68835]); (68772, [68836]);
   (68773, [68837]); (68774, [68838]); (68775, [68839]); (68776, [68840]);
   (68777, [68841]); (68778, [68842]); (68779, [68843]); (68780, [68844]);
   (68781, [68845]); (68782, [68846]); (68783, [68847]); (68784, [68848]);
   (68785, [68849]); (68786, [68850]); (71840, [71872]); (71841, [71873]);
   (71842, [71874]); (71843, [71875]); (71844, [71876]); (71845, [71877]);
   (71846, [71878]); (71847, [71879]); (71848, [71880]); (71849, [71881]);
   (71850, [71882]); (71851, [71883]); (71852, [71884]); (71853, [71885]);
   (71854, [71886]); (71855, [71887]); (71856, [71888]); (71857, [71889]);
   (71858, [71890]); (71859, [71891]); (71860, [71892]); (71861, [71893]);
   (71862, [71894]); (71863, [71895]); (71864, [71896]); (71865, [71897]);
   (71866, [71898]); (71867, [71899]); (71868, [71900]); (71869, [71901]);
   (71870, [71902]); (71871, [71903]); (93760, [93792]); (93761, [93793]);
   (93762, [93794]); (93763, [93795]); (93764, [93796]); (93765, [93797]);
   (93766, [93798]); (93767, [93799]); (93768, [93800]); (93769, [93801]);
   (93770, [93802]); (93771, [93803]); (93772, [93804]); (93773, [93805]);
   (93774, [93806]); (93775, [93807]); (93776, [93808]); (93777, [93809]);
   (93778, [93810]); (93779, [93811]); (93780, [93812]); (93781, [93813]);
   (93782, [93814]); (93783, [93815]); (93784, [93816]); (93785, [93817]);
   (93786, [93818]); (93787, [93819]); (93788, [93820]); (93789, [93821]);
   (93790, [93822]); (93791, [93823]); (125184, [125218]); (125185, [125219]);
   (125186, [125220]); (125187, [125221]); (125188, [125222]); (125189, [125223]);
   (125190, [125224]); (125191, [125225]); (125192, [125226]); (125193, [125227]);
   (125194, [125228]); (125195, [125229]); (125196, [125230]); (125197, [125231]);
   (125198, [125232]); (125199, [125233]); (125200, [125234]); (125201, [125235]);
   (125202, [125236]); (125203, [125237]); (125204, [125238]); (125205, [125239]);
   (125206, [125240]); (125207, [125241]); (125208, [125242]); (125209, [125243]);
   (125210, [125244]); (125211, [125245]); (125212, [125246]); (125213, [125247]);
   (125214, [125248]); (125215, [125249]); (125216, [125250]); (125217, [125251])
  ]%N.

Definition space_ranges : list (N * N) :=
  [
   (9, 13); (28, 32); (133, 133); (160, 160); (5760, 5760); (8192, 8202); (8232, 8233);
   (8239, 8239); (8287, 8287); (12288, 12288)
  ]%N.

Definition case_ignorable_ranges : list (N * N) :=
  [
   (39, 39); (46, 46); (58, 58); (94, 94); (96, 96); (168, 168); (173, 173); (175, 175);
   (180, 180); (183, 184); (688, 879); (884, 885); (890, 890); (900, 901); (903, 903);
   (1155, 1161); (1369, 1369); (1375, 1375); (1425, 1469); (1471, 1471); (1473, 1474);
   (1476, 1477); (1479, 1479); (1524, 1524); (1536, 1541); (1552, 1562); (1564, 1564);
   (1600, 1600); (1611, 1631); (1648, 1648); (1750, 1757); (1759, 1768); (1770, 1773);
   (1807, 1807); (1809, 1809); (1840, 1866); (1958, 1968); (2027, 2037); (2042, 2042);
   (2045, 2045); (2070, 2093); (2137, 2139); (2184, 2184); (2192, 2193); (2200, 2207);
   (2249, 2306); (2362, 2362); (2364, 2364); (2369, 2376); (2381, 2381); (2385, 2391);
   (2402, 2403); (2417, 2417); (2433, 2433); (2492, 2492); (2497, 2500); (2509, 2509);
   (2530, 2531); (2558, 2558); (2561, 2562); (2620, 2620); (2625, 2626); (2631, 2632);
   (2635, 2637); (2641, 2641); (2672, 2673); (2677, 2677); (2689, 2690); (2748, 2748);
   (2753, 2757); (2759, 2760); (2765, 2765); (2786, 2787); (2810, 2815); (2817, 2817);
   (2876, 2876); (2879, 2879); (2881, 2884); (2893, 2893); (2901, 2902); (2914, 2915);
   (2946, 2946); (3008, 3008); (3021, 3021); (3072, 3072); (3076, 3076); (3132, 3132);
   (3134, 3136); (3142, 3144); (3146, 3149); (3157, 3158); (3170, 3171); (3201, 3201);
   (3260, 3260); (3263, 3263); (3270, 3270); (3276, 3277); (3298, 3299); (3328, 3329);
   (3387, 3388); (3393, 3396); (3405, 3405); (3426, 3427); (3457, 3457); (3530, 3530);
   (3538, 3540); (3542, 3542); (3633, 3633); (3636, 3642); (3654, 3662); (3761, 3761);
   (3764, 3772); (3782, 3782); (3784, 3789); (3864, 3865); (3893, 3893); (3895, 3895);
   (3897, 3897); (3953, 3966); (3968, 3972); (3974, 3975); (3981, 3991); (3993, 4028);
   (4038, 4038); (4141, 4144); (4146, 4151); (4153, 4154); (4157, 4158); (4184, 4185);
   (4190, 4192); (4209, 4212); (4226, 4226); (4229, 4230); (4237, 4237); (4253, 4253);
   (4348, 4348); (4957, 4959); (5906, 5908); (5938, 5939); (5970, 5971); (6002, 6003);
   (6068, 6069); (6071, 6077); (6086, 6086); (6089, 6099); (6103, 6103); (6109, 6109);
   (6155, 6159); (6211, 6211); (6277, 6278); (6313, 6313); (6432, 6434); (6439, 6440);
   (6450, 6450); (6457, 6459); (6679, 6680); (6683, 6683); (6742, 6742); (6744, 6750);
   (6752, 6752); (6754, 6754); (6757, 6764); (6771, 6780); (6783, 6783); (6823, 6823);
   (6832, 6862); (6912, 6915); (6964, 6964); (6966, 6970); (6972, 6972); (6978, 6978);
   (7019, 7027); (7040, 7041); (7074, 7077); (7080, 7081); (7083, 7085); (7142, 7142);
   (7144, 7145); (7149, 7149); (7151, 7153); (7212, 7219); (7222, 7223); (7288, 7293);
   (7376, 7378); (7380, 7392); (7394, 7400); (7405, 7405); (7412, 7412); (7416, 7417);
   (7468, 7530); (7544, 7544); (7579, 7679); (8125, 8125); (8127, 8129); (8141, 8143);
   (8157, 8159); (8173, 8175); (8189, 8190); (8203, 8207); (8216, 8217); (8228, 8228);
   (8231, 8231); (8234, 8238); (8288, 8292); (8294, 8303); (8305, 8305); (8319, 8319);
   (8336, 8348); (8400, 8432); (11388, 11389); (11503, 11505); (11631, 11631);
   (11647, 11647); (11744, 11775); (11823, 11823); (12293, 12293); (12330, 12333);
   (12337, 12341); (12347, 12347); (12441, 12446); (12540, 12542); (40981, 40981);
   (42232, 42237); (42508, 42508); (42607, 42610); (42612, 42621); (42623, 42623);
   (42652, 42655); (42736, 42737); (42752, 42785); (42864, 42864); (42888, 42890);
   (42994, 42996); (43000, 43001); (43010, 43010); (43014, 43014); (43019, 43019);
   (43045, 43046); (43052, 43052); (43204, 43205); (43232, 43249); (43263, 43263);
   (43302, 43309); (43335, 43345); (43392, 43394); (43443, 43443); (43446, 43449);
   (43452, 43453); (43471, 43471); (43493, 43494); (43561, 43566); (43569, 43570);
   (43573, 43574); (43587, 43587); (43596, 43596); (43632, 43632); (43644, 43644);
   (43696, 43696); (43698, 43700); (43703, 43704); (43710, 43711); (43713, 43713);
   (43741, 43741); (43756, 43757); (43763, 43764); (43766, 43766); (43867, 43871);
   (43881, 43883); (44005, 44005); (44008, 44008); (44013, 44013); (64286, 64286);
   (64434, 64450); (65024, 65039); (65043, 65043); (65056, 65071); (65106, 65106);
   (65109, 65109); (65279, 65279); (65287, 65287); (65294, 65294); (65306, 65306);
   (65342, 65342); (65344, 65344); (65392, 65392); (65438, 65439); (65507, 65507);
   (65529, 65531); (66045, 66045); (66272, 66272); (66422, 66426); (67456, 67461);
   (67463, 67504); (67506, 67514); (68097, 68099); (68101, 68102); (68108, 68111);
   (68152, 68154); (68159, 68159); (68325, 68326); (68900, 68903); (69291, 69292);
   (69446, 69456); (69506, 69509); (69633, 69633); (69688, 69702); (69744, 69744);
   (69747, 69748); (69759, 69761); (69811, 69814); (69817, 69818); (69821, 69821);
   (69826, 69826); (69837, 69837); (69888, 69890); (69927, 69931); (69933, 69940);
   (70003, 70003); (70016, 70017); (70070, 70078); (70089, 70092); (70095, 70095);
   (70191, 70193); (70196, 70196); (70198, 70199); (70206, 70206); (70367, 70367);
   (70371, 70378); (70400, 70401); (70459, 70460); (70464, 70464); (70502, 70508);
   (70512, 70516); (70712, 70719); (70722, 70724); (70726, 70726); (70750, 70750);
   (70835, 70840); (70842, 70842); (70847, 70848); (70850, 70851); (71090, 71093);
   (71100, 71101); (71103, 71104); (71132, 71133); (71219, 71226); (71229, 71229);
   (71231, 71232); (71339, 71339); (71341, 71341); (71344, 71349); (71351, 71351);
   (71453, 71455); (71458, 71461); (71463, 71467); (71727, 71735); (71737, 71738);
   (71995, 71996); (71998, 71998); (72003, 72003); (72148, 72151); (72154, 72155);
   (72160, 72160); (72193, 72202); (72243, 72248); (72251, 72254); (72263, 72263);
   (72273, 72278); (72281, 72283); (72330, 72342); (72344, 72345); (72752, 72758);
   (72760, 72765); (72767, 72767); (72850, 72871); (72874, 72880); (72882, 72883);
   (72885, 72886); (73009, 73014); (73018, 73018); (73020, 73021); (73023, 73029);
   (73031, 73031); (73104, 73105); (73109, 73109); (73111, 73111); (73459, 73460);
   (78896, 78904); (92912, 92916); (92976, 92982); (92992, 92995); (94031, 94031);
   (94095, 94111); (94176, 94177); (94179, 94180); (110576, 110579); (110581, 110587);
   (110589, 110590); (113821, 113822); (113824, 113827); (118528, 118573);
   (118576, 118598); (119143, 119145); (119155, 119170); (119173, 119179);
   (119210, 119213); (119362, 119364); (121344, 121398); (121403, 121452);
   (121461, 121461); (121476, 121476); (121499, 121503); (121505, 121519);
   (122880, 122886); (122888, 122904); (122907, 122913); (122915, 122916);
   (122918, 122922); (123184, 123197); (123566, 123566); (123628, 123631);
   (125136, 125142); (125252, 125259); (127995, 127999); (917505, 917505);
   (917536, 917631); (917760, 917999)
  ]%N.

Definition cased_ranges : list (N * N) :=
  [
   (65, 90); (97, 122); (170, 170); (181, 181); (186, 186); (192, 214); (216, 246);
   (248, 442); (444, 447); (452, 659); (661, 687); (880, 883); (886, 887); (891, 893);
   (895, 895); (902, 902); (904, 906); (908, 908); (910, 929); (931, 1013); (1015, 1153);
   (1162, 1327); (1329, 1366); (1376, 1416); (4256, 4293); (4295, 4295); (4301, 4301);
   (4304, 4346); (4349, 4351); (5024, 5109); (5112, 5117); (7296, 7304); (7312, 7354);
   (7357, 7359); (7424, 7467); (7531, 7543); (7545, 7578); (7680, 7957); (7960, 7965);
   (7968, 8005); (8008, 8013); (8016, 8023); (8025, 8025); (8027, 8027); (8029, 8029);
   (8031, 8061); (8064, 8116); (8118, 8124); (8126, 8126); (8130, 8132); (8134, 8140);
   (8144, 8147); (8150, 8155); (8160, 8172); (8178, 8180); (8182, 8188); (8450, 8450);
   (8455, 8455); (8458, 8467); (8469, 8469); (8473, 8477); (8484, 8484); (8486, 8486);
   (8488, 8488); (8490, 8493); (8495, 8500); (8505, 8505); (8508, 8511); (8517, 8521);
   (8526, 8526); (8544, 8575); (8579, 8580); (9398, 9449); (11264, 11387); (11390, 11492);
   (11499, 11502); (11506, 11507); (11520, 11557); (11559, 11559); (11565, 11565);
   (42560, 42605); (42624, 42651); (42786, 42863); (42865, 42887); (42891, 42894);
   (42896, 42954); (42960, 42961); (42963, 42963); (42965, 42969); (42997, 42998);
   (43002, 43002); (43824, 43866); (43872, 43880); (43888, 43967); (64256, 64262);
   (64275, 64279); (65313, 65338); (65345, 65370); (66560, 66639); (66736, 66771);
   (66776, 66811); (66928, 66938); (66940, 66954); (66956, 66962); (66964, 66965);
   (66967, 66977); (66979, 66993); (66995, 67001); (67003, 67004); (68736, 68786);
   (68800, 68850); (71840, 71903); (93760, 93823); (119808, 119892); (119894, 119964);
   (119966, 119967); (119970, 119970); (119973, 119974); (119977, 119980);
   (119982, 119993); (119995, 119995); (119997, 120003); (120005, 120069);
   (120071, 120074); (120077, 120084); (120086, 120092); (120094, 120121);
   (120123, 120126); (120128, 120132); (120134, 120134); (120138, 120144);
   (120146, 120485); (120488, 120512); (120514, 120538); (120540, 120570);
   (120572, 120596); (120598, 120628); (120630, 120654); (120656, 120686);
   (120688, 120712); (120714, 120744); (120746, 120770); (120772, 120779);
   (122624, 122633); (122635, 122654); (125184, 125251); (127280, 127305);
   (127312, 127337); (127344, 127369)
  ]%N.

(** Lookup in a mapping table. *)
Fixpoint assoc (c : N) (table : list (N * list N)) : option (list N) :=
  match table with
  | [] => None
  | (k, v) :: rest => if N.eqb k c then Some v else assoc c rest
  end.

(** Membership in a list of inclusive ranges. *)
Definition in_ranges (c : N) (ranges : list (N * N)) : bool :=
  existsb (fun r => N.leb (fst r) c && N.leb c (snd r)) ranges.

End Unicode.

Module PyStr.

(** A string is the list of its code points. *)
Definition str := list N.

(** Decoding of UTF-8: [pending] continuation bytes are still to be
    read into [acc]. *)
Fixpoint utf8_decode (pending : nat) (acc : N) (bytes : list N) : list N :=
  match bytes with
  | [] => []
  | b :: bytes' =>
      match pending with
      | S k =>
          let acc' := N.lor (N.shiftl acc 6) (N.land b 63) in
          match k with
          | O => acc' :: utf8_decode 0 0%N bytes'
          | S _ => utf8_decode k acc' bytes'
          end
      | O =>
          if (b <? 128)%N then b :: utf8_decode 0 0%N bytes'
          else if (b <? 224)%N then utf8_decode 1 (N.land b 31) bytes'
          else if (b <? 240)%N then utf8_decode 2 (N.land b 15) bytes'
          else utf8_decode 3 (N.land b 7) bytes'
      end
  end.

(** String literals of the source, written in UTF-8. *)
Definition lit (s : string) : str :=
  utf8_decode 0 0%N (map N_of_ascii (list_ascii_of_string s)).

(** [c.upper()]: one code point may become several. *)
Definition upper_char (c : N) : list N :=
  match Unicode.assoc c Unicode.upper_table with
  | Some u => u
  | None => [c]
  end.

(** [s.upper()] *)
Definition upper (s : str) : str := flat_map upper_char s.

(** [c.isspace()] *)
Definition isspace (c : N) : bool := Unicode.in_ranges c Unicode.space_ranges.

(** [s.lstrip()] *)
Fixpoint lstrip (s : str) : str :=
  match s with
  | [] => []
  | c :: s' => if isspace c then lstrip s' else s
  end.

(** [s.rstrip()]: a character stays when something after it stays or
    when it is not white space. *)
Fixpoint rstrip (s : str) : str :=
  match s with
  | [] => []
  | c :: s' =>
      match rstrip s' with
      | [] => if isspace c then [] else [c]
      | r => c :: r
      end
  end.

(** [s.strip()] *)
Definition strip (s : str) : str := rstrip (lstrip s).

(** [s.startswith(p)] *)
Fixpoint startswith (p s : str) : bool :=
  match p, s with
  | [], _ => true
  | _ :: _, [] => false
  | a :: p', b :: s' => N.eqb a b && startswith p' s'
  end.

(** [k in s] on strings: [k] occurs in [s] at some position. *)
Fixpoint str_in (k s : str) : bool :=
  startswith k s ||
  match s with
  | [] => false
  | _ :: s' => str_in k s'
  end.

(** The fields of [s] between white-space characters, empty ones
    included: the words of [s] before the empty ones are dropped. *)
Fixpoint fields (s : str) : list str :=
  match s with
  | [] => [[]]
  | c :: s' =>
      if isspace c then [] :: fields s'
      else match fields s' with
           | w :: ws => (c :: w) :: ws
           | [] => [[c]]
           end
  end.

Definition nonempty (w : str) : bool :=
  match w with [] => false | _ :: _ => true end.

(** [s.split()] with no argument: the maximal runs of non-space
    characters, so no empty string in the result. *)
Definition split (s : str) : list str := filter nonempty (fields s).

(** [sep.join(parts)] *)
Fixpoint join (sep : str) (parts : list str) : str :=
  match parts with
  | [] => []
  | [p] => p
  | p :: rest => p ++ sep ++ join sep rest
  end.

(** [s * n] *)
Fixpoint repeat_str (s : str) (n : nat) : str :=
  match n with
  | O => []
  | S k => s ++ repeat_str s k
  end.

(** [str(n)] for a non-negative [int]. *)
Definition str_of_nat (n : nat) : str :=
  lit (NilZero.string_of_uint (Nat.to_uint n)).

(** [str(z)] for an [int]. *)
Definition str_of_Z (z : Z) : str :=
  lit (NilZero.string_of_int (Z.to_int z)).

(** [s[:n]] *)
Definition clip (n : nat) (s : str) : str := firstn n s.

(** Words as [split] produces them. *)
Definition spacefree (w : str) : Prop := Forall (fun c => isspace c = false) w.
Definition word (w : str) : Prop := w <> [] /\ spacefree w.

(** Declarative counterparts used in the statements. *)
Definition Prefix (p s : str) : Prop := exists rest, s = p ++ rest.
Definition Substring (k s : str) : Prop := exists pre post, s = pre ++ k ++ post.

End PyStr.
Import PyStr.

(* ===================================================================== *)
(** ** Safety validators *)
(* ===================================================================== *)

(** [self.forbidden_keywords], set once in [__init__]. *)
Definition forbidden_keywords : list str :=
  map lit ["DROP"; "DELETE"; "INSERT"; "UPDATE"; "ALTER"; "CREATE"; "TRUNCATE"]%string.

(** [dangerous_functions] of [_validate_sql]. *)
Definition dangerous_functions : list str :=
  map lit ["XP_CMDSHELL"; "OPENROWSET"; "OPENDATASOURCE"; "EXEC"; "EXECUTE"]%string.

(** [forbidden_in_question] of [_is_valid_question]. *)
Definition forbidden_in_question : list str :=
  map lit ["DROP"; "DELETE"; "INSERT"; "UPDATE"; "ALTER"; "CREATE"]%string.

(** The loop [for w in words: if w in text: return False], as the
    answer to "did the loop hit its [return]?". *)
Fixpoint hits_any (words : list str) (text : str) : bool :=
  match words with
  | [] => false
  | w :: ws => if str_in w text then true else hits_any ws text
  end.

(** [SQLChatBot._validate_sql] *)
Definition _validate_sql (sql_query : str) : bool :=
  let sql_upper := upper sql_query in
  if negb (startswith (lit "SELECT") (strip sql_upper)) then false
  else if hits_any forbidden_keywords sql_upper then false
  else if hits_any dangerous_functions sql_upper then false
  else true.

(** [SQLChatBot._is_valid_question] *)
Definition _is_valid_question (question : str) : bool :=
  let question_upper := upper question in
  if hits_any forbidden_in_question question_upper then false
  else if length (strip question) <? 5 then false
  else true.

(* ===================================================================== *)
(** ** Completion clean-up: [re.sub] and [_clean_sql_response] *)
(* ===================================================================== *)

Module Re.

(** The line feed, the only character [.] refuses and the only place
    where [$] matches inside the text under [re.MULTILINE]. *)
Definition LF : N := 10%N.

(** A pattern is given by its matcher: [m s] is the length of the match
    that starts at the first character of [s], if there is one.  The
    three patterns of the source never match the empty string. *)
Definition matcher := str -> option nat.

(** [re.sub(pattern, '', s)]: scan from the left, delete every match, and
    resume right after it.  [skip] counts the characters of the current
    match that are still to be dropped. *)
Fixpoint sub_empty (m : matcher) (skip : nat) (s : str) : str :=
  match s with
  | [] => []
  | c :: s' =>
      match skip with
      | S k => sub_empty m k s'
      | O =>
          match m s with
          | Some (S k) => sub_empty m k s'
          | _ => c :: sub_empty m 0 s'
          end
      end
  end.

(** A literal followed by an optional line feed: [r'<p>\n?'] (greedy). *)
Definition literal_opt_lf (p : str) : matcher := fun s =>
  if startswith p s
  then Some (length p + (if startswith [LF] (skipn (length p) s) then 1 else 0))
  else None.

(** Number of characters [.*] takes: up to the next line feed. *)
Fixpoint dot_star (s : str) : nat :=
  match s with
  | [] => 0
  | c :: s' => if N.eqb c LF then 0 else S (dot_star s')
  end.

(** [r'--.*$'] under [re.MULTILINE]. *)
Definition line_comment : matcher := fun s =>
  if startswith (lit "--") s then Some (2 + dot_star (skipn 2 s)) else None.

(** The characters the patterns are made of, and the fence pattern
    [r'```\n?'] written with them. *)
Definition BACKTICK : N := 96%N.
Definition DASH : N := 45%N.

Definition fence : matcher := literal_opt_lf (repeat BACKTICK 3).

(** Length of the run of [c] that starts [s]. *)
Fixpoint run (c : N) (s : str) : nat :=
  match s with
  | [] => 0
  | x :: s' => if N.eqb c x then S (run c s') else 0
  end.

(** No suffix of [s] is matched by [m]. *)
Fixpoint no_match (m : matcher) (s : str) : Prop :=
  match s with
  | [] => True
  | _ :: s' => m s = None /\ no_match m s'
  end.

End Re.
Import Re.

(** [SQLChatBot._clean_sql_response] *)
Definition _clean_sql_response (sql_query : str) : str :=
  let sql_query := sub_empty (literal_opt_lf (lit "```sql")) 0 sql_query in
  let sql_query := sub_empty (literal_opt_lf (lit "```")) 0 sql_query in
  let sql_query := sub_empty line_comment 0 sql_query in
  let sql_query := join (lit " ") (split sql_query) in
  strip sql_query.

(** "Already clean" inputs of the idempotence property. *)
Definition single_line (s : str) : Prop := ~ In LF s.
Definition fence_free (s : str) : Prop := ~ Substring (lit "```") s.
Definition comment_free (s : str) : Prop := ~ Substring (lit "--") s.
Definition select_statement (s : str) : Prop := Prefix (lit "SELECT") (upper s).

(* ===================================================================== *)
(** ** Exceptions, the bot's state and its effects *)
(* ===================================================================== *)

(** An exception is represented by its message, [str(e)]. *)
Definition exn := str.

Inductive outcome (A : Type) : Type :=
| Return (a : A)
| Raise (e : exn).
Arguments Return {A} a.
Arguments Raise {A} e.

(** Query results: [df.to_dict('records')] is a list of [dict]s that keep
    the column order.  [VObj] stands for any other object (float,
    Decimal, datetime, ...) through its [str()] rendering.  An SQL NULL
    arrives as [None] in a column of strings or objects, as the float
    [nan] in a numeric column and as [NaT] in a column of dates. *)
Inductive value : Type :=
| VNone
| VInt (z : Z)
| VStr (s : str)
| VObj (shown : str).

Definition row := list (str * value).

(** The audit entry built by [_log_interaction]. *)
Record InteractionLogRecord := {
  timestamp : str;
  user_id : option str;
  question : str;
  sql_query : str;
  result_count : nat
}.

Inductive level := ERROR | WARNING | INFO.

(** What a run leaves behind, in order: logger calls and calls to the
    outside world. *)
Inductive event : Type :=
| Log (l : level) (msg : str)
| Interaction (entry : InteractionLogRecord)
| Completion (schema_prompt user_question : str)
| ReadSql (sql : str)
| Introspect.

(** The introspected schema of [schema_discovery.py], reduced to the
    fields [generate_schema_prompt] reads. *)
Record column := {
  col_name : str;
  data_type : str;
  is_nullable : bool;
  is_primary_key : bool;
  description : option str
}.

Record relationship := {
  parent_table : str;
  parent_column : str;
  referenced_table : str;
  referenced_column : str
}.

Record view := { view_schema : str; view_name : str }.

Record schema := {
  tables : list (str * list column);
  relationships : list relationship;
  views : list view
}.

(** The collaborators: the database behind [pyodbc]/[pandas], the
    completion service and the clock.  The two f-string prompts of
    [_generate_sql_query] are determined by the schema prompt and the
    question, which is what the completion oracle receives. *)
Record World := {
  introspect : outcome schema;
  chat_completion : str -> str -> outcome str;
  read_sql : str -> outcome (list row);
  utcnow_isoformat : str
}.

(** The mutable part of a [SQLChatBot] and the trace of the run. *)
Record state := {
  schema_prompt : str;
  trace : list event
}.

(** State and exceptions; the state survives a [raise], as the log
    lines written before an exception do. *)
Definition M (A : Type) : Type := state -> outcome A * state.

Definition ret {A} (a : A) : M A := fun st => (Return a, st).

Definition bind {A B} (m : M A) (f : A -> M B) : M B := fun st =>
  match m st with
  | (Return a, st') => f a st'
  | (Raise e, st') => (Raise e, st')
  end.

Definition raise {A} (e : exn) : M A := fun st => (Raise e, st).

Definition lift {A} (o : outcome A) : M A := fun st => (o, st).

(** [try: body except Exception as e: handler] *)
Definition try_except {A} (body : M A) (handler : exn -> M A) : M A := fun st =>
  match body st with
  | (Return a, st') => (Return a, st')
  | (Raise e, st') => handler e st'
  end.

Definition emit (ev : event) : M unit := fun st =>
  (Return tt, {| schema_prompt := schema_prompt st; trace := trace st ++ [ev] |}).

Definition get_schema_prompt : M str := fun st => (Return (schema_prompt st), st).

Definition set_schema_prompt (p : str) : M unit := fun st =>
  (Return tt, {| schema_prompt := p; trace := trace st |}).

Declare Scope bot_scope.
Delimit Scope bot_scope with bot.
Notation "x <- m ;; k" := (bind m (fun x => k))
  (at level 61, m at next level, right associativity) : bot_scope.
Notation "m ;;; k" := (bind m (fun _ => k))
  (at level 61, right associativity) : bot_scope.
Local Open Scope bot_scope.

(* ===================================================================== *)
(** ** Schema context: [generate_schema_prompt], [_load_schema],
       [refresh_schema] *)
(* ===================================================================== *)

Definition render_column (c : column) : str :=
  let pk_marker := if is_primary_key c then lit "✓" else [] in
  let nullable := if is_nullable c then lit "Sí" else lit "No" in
  let desc := match description c with Some d => d | None => [] end in
  lit "| " ++ col_name c ++ lit " | " ++ data_type c ++ lit " | " ++ nullable
    ++ lit " | " ++ pk_marker ++ lit " | " ++ desc ++ lit " |" ++ [LF].

Definition render_table (t : str * list column) : str :=
  [LF] ++ lit "### " ++ fst t ++ [LF]
    ++ lit "| Columna | Tipo | Nullable | PK | Descripción |" ++ [LF]
    ++ lit "|---------|------|----------|----|--------------|" ++ [LF]
    ++ concat (map render_column (snd t)).

Definition render_relationship (r : relationship) : str :=
  lit "- " ++ parent_table r ++ lit "." ++ parent_column r ++ lit " → "
    ++ referenced_table r ++ lit "." ++ referenced_column r ++ [LF].

Definition render_view (v : view) : str :=
  lit "- " ++ view_schema v ++ lit "." ++ view_name v ++ [LF].

(** [SchemaDiscoveryService.generate_schema_prompt] *)
Definition generate_schema_prompt (sch : schema) : str :=
  lit "# Base de Datos - Esquema Completo" ++ [LF; LF]
    ++ lit "## Tablas y Columnas:" ++ [LF]
    ++ concat (map render_table (tables sch))
    ++ [LF] ++ lit "## Relaciones (Foreign Keys):" ++ [LF]
    ++ concat (map render_relationship (relationships sch))
    ++ [LF] ++ lit "## Vistas Disponibles:" ++ [LF]
    ++ concat (map render_view (views sch)).

(** The lines of a text, counted by the line feeds that end them. *)
Definition line_count (s : str) : nat := count_occ N.eq_dec s LF.

(** A schema whose names, types and descriptions hold no line feed. *)
Definition column_single_line (c : column) : Prop :=
  single_line (col_name c) /\ single_line (data_type c) /\
  match description c with Some d => single_line d | None => True end.

Definition relationship_single_line (r : relationship) : Prop :=
  single_line (parent_table r) /\ single_line (parent_column r) /\
  single_line (referenced_table r) /\ single_line (referenced_column r).

Definition schema_single_line (sch : schema) : Prop :=
  Forall (fun t => single_line (fst t) /\ Forall column_single_line (snd t))
    (tables sch) /\
  Forall relationship_single_line (relationships sch) /\
  Forall (fun v => single_line (view_schema v) /\ single_line (view_name v))
    (views sch).

(** A schema for the examples: two tables, one foreign key, one view. *)
Definition shop_schema : schema :=
  {| tables :=
       [(lit "dbo.Customers",
         [{| col_name := lit "id"; data_type := lit "int"; is_nullable := false;
             is_primary_key := true; description := Some (lit "Clave del cliente") |};
          {| col_name := lit "name"; data_type := lit "nvarchar"; is_nullable := true;
             is_primary_key := false; description := None |}]);
        (lit "dbo.Orders",
         [{| col_name := lit "customer_id"; data_type := lit "int";
             is_nullable := false; is_primary_key := false; description := None |}])];
     relationships :=
       [{| parent_table := lit "Orders"; parent_column := lit "customer_id";
           referenced_table := lit "Customers"; referenced_column := lit "id" |}];
     views := [{| view_schema := lit "dbo"; view_name := lit "OpenOrders" |}] |}.

(** [SchemaDiscoveryService.get_complete_schema] *)
Definition get_complete_schema (W : World) : M schema :=
  try_except
    (emit Introspect ;;; lift (introspect W))
    (fun e => emit (Log ERROR (lit "Error getting schema: " ++ e)) ;;; raise e).

(** [SQLChatBot._load_schema] *)
Definition _load_schema (W : World) : M str :=
  try_except
    (sch <- get_complete_schema W ;;
     ret (generate_schema_prompt sch))
    (fun e => emit (Log ERROR (lit "Error loading schema: " ++ e)) ;;; ret []).

(** [SQLChatBot.refresh_schema] *)
Definition refresh_schema (W : World) : M bool :=
  try_except
    (p <- _load_schema W ;;
     set_schema_prompt p ;;;
     emit (Log INFO (lit "Schema refreshed successfully")) ;;;
     ret true)
    (fun e => emit (Log ERROR (lit "Error refreshing schema: " ++ e)) ;;; ret false).

(* ===================================================================== *)
(** ** Query synthesis and execution *)
(* ===================================================================== *)

(** [SQLChatBot._generate_sql_query] *)
Definition _generate_sql_query (W : World) (user_question : str) : M (option str) :=
  try_except
    (ctx <- get_schema_prompt ;;
     emit (Completion ctx user_question) ;;;
     content <- lift (chat_completion W ctx user_question) ;;
     let sql_query := strip content in
     let sql_query := _clean_sql_response sql_query in
     emit (Log INFO (lit "Generated SQL: " ++ sql_query)) ;;;
     ret (Some sql_query))
    (fun e => emit (Log ERROR (lit "Error generating SQL: " ++ e)) ;;; ret None).

(** The row cap of [_execute_query]. *)
Definition MAX_ROWS : nat := 100.

(** [SQLChatBot._execute_query] *)
Definition _execute_query (W : World) (sql_query : str) : M (list row) :=
  try_except
    (emit (ReadSql sql_query) ;;;
     results <- lift (read_sql W sql_query) ;;
     if MAX_ROWS <? length results
     then emit (Log WARNING (lit "Results truncated to 100 rows")) ;;;
          ret (firstn MAX_ROWS results)
     else ret results)
    (fun e => emit (Log ERROR (lit "Error executing query: " ++ e)) ;;; raise e).

(* ===================================================================== *)
(** ** Response formatter *)
(* ===================================================================== *)

(** [a == b] on strings. *)
Fixpoint str_eqb (a b : str) : bool :=
  match a, b with
  | [], [] => true
  | x :: a', y :: b' => N.eqb x y && str_eqb a' b'
  | _, _ => false
  end.

(** [str(KeyError(k))] for a plain key. *)
Definition KeyError (k : str) : exn := lit "'" ++ k ++ lit "'".

(** [row[col]] *)
Fixpoint getitem (r : row) (col : str) : outcome value :=
  match r with
  | [] => Raise (KeyError col)
  | (k, v) :: r' => if str_eqb k col then Return v else getitem r' col
  end.

(** [list(row.keys())] *)
Definition keys (r : row) : list str := map fst r.

(** [str(v)] *)
Definition py_str (v : value) : str :=
  match v with
  | VNone => lit "None"
  | VInt z => str_of_Z z
  | VStr s => s
  | VObj shown => shown
  end.


(** [str(row[col]) if row[col] is not None else 'NULL'] *)
Definition digest_value (v : value) : str :=
  match v with
  | VNone => lit "NULL"
  | _ => py_str v
  end.

(** [str(row[col])[:15] if row[col] is not None else 'NULL'] *)
Definition table_cell (v : value) : str :=
  match v with
  | VNone => lit "NULL"
  | _ => clip 15 (py_str v)
  end.

(** Inner loop of the digest: [for col in columns[:5]: response += ...] *)
Fixpoint digest_cols (r : row) (cols : list str) (response : str) : outcome str :=
  match cols with
  | [] => Return response
  | col :: cols' =>
      match getitem r col with
      | Raise e => Raise e
      | Return v =>
          digest_cols r cols'
            (response ++ lit "  " ++ col ++ lit ": " ++ digest_value v ++ [LF])
      end
  end.

(** Outer loop of the digest: [for i, row in enumerate(results[:3])] *)
Fixpoint digest_rows (rows : list row) (i : nat) (cols : list str)
    (response : str) : outcome str :=
  match rows with
  | [] => Return response
  | r :: rows' =>
      match digest_cols r cols
              (response ++ lit "Registro " ++ str_of_nat (i + 1) ++ lit ":" ++ [LF]) with
      | Raise e => Raise e
      | Return response => digest_rows rows' (S i) cols (response ++ [LF])
      end
  end.

(** The comprehension [[... row[col] ... for col in columns]] *)
Fixpoint cells (r : row) (cols : list str) : outcome (list str) :=
  match cols with
  | [] => Return []
  | col :: cols' =>
      match getitem r col with
      | Raise e => Raise e
      | Return v =>
          match cells r cols' with
          | Raise e => Raise e
          | Return cs => Return (table_cell v :: cs)
          end
      end
  end.

(** [for row in results[:10]: response += row_str + "\n"] *)
Fixpoint table_rows (rows : list row) (cols : list str) (response : str)
    : outcome str :=
  match rows with
  | [] => Return response
  | r :: rows' =>
      match cells r cols with
      | Raise e => Raise e
      | Return cs => table_rows rows' cols (response ++ join (lit " | ") cs ++ [LF])
      end
  end.

(** [SQLChatBot._create_slack_table] *)
Definition _create_slack_table (results : list row) (question : str) : outcome str :=
  match results with
  | [] => Return (lit "No hay datos para mostrar.")
  | first_row :: _ =>
      let response := lit "*Resultados para: " ++ question ++ lit "*" ++ [LF; LF] in
      let columns := keys first_row in
      let body :=
        if 5 <? length columns then
          let response :=
            response ++ lit "```" ++ [LF] ++ lit "Encontré "
              ++ str_of_nat (length results) ++ lit " resultados con "
              ++ str_of_nat (length columns) ++ lit " columnas." ++ [LF] in
          let response :=
            response ++ lit "Primeras columnas: "
              ++ join (lit ", ") (firstn 5 columns) ++ [LF] in
          let response :=
            response ++ lit "Muestra de los primeros 3 registros:" ++ [LF; LF] in
          match digest_rows (firstn 3 results) 0 (firstn 5 columns) response with
          | Raise e => Raise e
          | Return response => Return (response ++ lit "```")
          end
        else
          let response := response ++ lit "```" ++ [LF] in
          let header := join (lit " | ") (map (clip 15) columns) in
          let response := response ++ header ++ [LF] in
          let response := response ++ repeat_str (lit "-") (length header) ++ [LF] in
          match table_rows (firstn 10 results) columns response with
          | Raise e => Raise e
          | Return response =>
              let response :=
                if 10 <? length results
                then response ++ lit "... y " ++ str_of_nat (length results - 10)
                       ++ lit " registros más" ++ [LF]
                else response in
              Return (response ++ lit "```")
          end
      in
      match body with
      | Raise e => Raise e
      | Return response =>
          Return (response ++ [LF] ++ lit "*Total de registros: "
                    ++ str_of_nat (length results) ++ lit "*")
      end
  end.

(** The dict returned by [_format_response]. *)
Module Response.
Record t := { text : str; sql_query : str; row_count : nat }.
End Response.

(** [SQLChatBot._format_response] *)
Definition _format_response (results : list row) (original_question : str)
    (sql_query : str) : outcome Response.t :=
  match results with
  | [] =>
      Return {| Response.text := lit "No encontré resultados para tu consulta.";
                Response.sql_query := sql_query;
                Response.row_count := 0 |}
  | _ :: _ =>
      match _create_slack_table results original_question with
      | Raise e => Raise e
      | Return table =>
          Return {| Response.text := table;
                    Response.sql_query := sql_query;
                    Response.row_count := length results |}
      end
  end.


(** [enumerate(l, start)] *)
Fixpoint enumerate {A} (start : nat) (l : list A) : list (nat * A) :=
  match l with
  | [] => []
  | x :: l' => (start, x) :: enumerate (S start) l'
  end.

(** Declarative renderings, for the statements about the formatter. *)
Definition lookup (r : row) (col : str) : value :=
  match getitem r col with
  | Return v => v
  | Raise _ => VNone
  end.

Definition title_block (question : str) : str :=
  lit "*Resultados para: " ++ question ++ lit "*" ++ [LF; LF].

Definition total_line (n : nat) : str :=
  [LF] ++ lit "*Total de registros: " ++ str_of_nat n ++ lit "*".

Definition digest_record (cols : list str) (ir : nat * row) : str :=
  lit "Registro " ++ str_of_nat (fst ir + 1) ++ lit ":" ++ [LF]
    ++ concat (map (fun col => lit "  " ++ col ++ lit ": "
                                 ++ digest_value (lookup (snd ir) col) ++ [LF]) cols)
    ++ [LF].

Definition digest_render (results : list row) (columns : list str) : str :=
  lit "```" ++ [LF] ++ lit "Encontré " ++ str_of_nat (length results)
    ++ lit " resultados con " ++ str_of_nat (length columns) ++ lit " columnas." ++ [LF]
    ++ lit "Primeras columnas: " ++ join (lit ", ") (firstn 5 columns) ++ [LF]
    ++ lit "Muestra de los primeros 3 registros:" ++ [LF; LF]
    ++ concat (map (digest_record (firstn 5 columns))
                 (enumerate 0 (firstn 3 results)))
    ++ lit "```".

Definition table_header (columns : list str) : str :=
  join (lit " | ") (map (clip 15) columns).

Definition table_line (columns : list str) (r : row) : str :=
  join (lit " | ") (map (fun col => table_cell (lookup r col)) columns) ++ [LF].

Definition more_note (n : nat) : str :=
  if 10 <? n then lit "... y " ++ str_of_nat (n - 10) ++ lit " registros más" ++ [LF]
  else [].

Definition table_render (results : list row) (columns : list str) : str :=
  lit "```" ++ [LF]
    ++ table_header columns ++ [LF]
    ++ repeat_str (lit "-") (length (table_header columns)) ++ [LF]
    ++ concat (map (table_line columns) (firstn 10 results))
    ++ more_note (length results)
    ++ lit "```".

(* ===================================================================== *)
(** ** Pipeline orchestrator *)
(* ===================================================================== *)

(** The dict returned by [process_user_question]. *)
Record envelope := {
  success : bool;
  error : option str;
  data : option Response.t
}.

Definition failure (msg : str) : envelope :=
  {| success := false; error := Some msg; data := None |}.

(** [SQLChatBot._log_interaction]: the entry goes to the logger as
    [logger.info("User interaction: " + json.dumps(log_entry))]. *)
Definition _log_interaction (W : World) (user_id : option str) (question : str)
    (sql_query : str) (result_count : nat) : M unit :=
  let log_entry :=
    {| timestamp := utcnow_isoformat W;
       user_id := user_id;
       question := question;
       sql_query := sql_query;
       result_count := result_count |} in
  emit (Interaction log_entry).

(** [SQLChatBot.process_user_question] *)
Definition process_user_question (W : World) (user_question : str)
    (user_id : option str) : M envelope :=
  try_except
    (if negb (_is_valid_question user_question)
     then ret (failure (lit "Pregunta no válida o contiene palabras prohibidas"))
     else
       sql_query <- _generate_sql_query W user_question ;;
       match sql_query with
       | None | Some [] =>
           ret (failure (lit "No pude generar una consulta SQL para tu pregunta"))
       | Some sql_query =>
           if negb (_validate_sql sql_query)
           then ret (failure (lit "La consulta generada no es segura"))
           else
             results <- _execute_query W sql_query ;;
             formatted_response <-
               lift (_format_response results user_question sql_query) ;;
             _log_interaction W user_id user_question sql_query
               (match results with [] => 0 | _ :: _ => length results end) ;;;
             ret {| success := true; error := None;
                    data := Some formatted_response |}
       end)
    (fun e =>
       emit (Log ERROR (lit "Error processing question: " ++ e)) ;;;
       ret (failure (lit "Error interno: " ++ e))).

Definition is_interaction (ev : event) : bool :=
  match ev with Interaction _ => true | _ => false end.

Definition is_completion (ev : event) : bool :=
  match ev with Completion _ _ => true | _ => false end.

Definition is_read_sql (ev : event) : bool :=
  match ev with ReadSql _ => true | _ => false end.

Definition count (p : event -> bool) (evs : list event) : nat :=
  length (filter p evs).

(** The rows [_execute_query] returns for a raw result, and what it logs
    on the way. *)
Definition capped (raw : list row) : list row :=
  if MAX_ROWS <? length raw then firstn MAX_ROWS raw else raw.

Definition cap_events (raw : list row) : list event :=
  if MAX_ROWS <? length raw
  then [Log WARNING (lit "Results truncated to 100 rows")]
  else [].

(** The exits of [process_user_question], each with the envelope it
    returns and the events it appends to the trace. *)
Inductive exit_path (W : World) (q : str) (uid : option str) (st : state)
    : envelope -> list event -> Prop :=
| ExitInvalidQuestion :
    _is_valid_question q = false ->
    exit_path W q uid st
      (failure (lit "Pregunta no válida o contiene palabras prohibidas")) []
| ExitSynthesisError e :
    _is_valid_question q = true ->
    chat_completion W (schema_prompt st) q = Raise e ->
    exit_path W q uid st
      (failure (lit "No pude generar una consulta SQL para tu pregunta"))
      [Completion (schema_prompt st) q;
       Log ERROR (lit "Error generating SQL: " ++ e)]
| ExitEmptyCompletion content :
    _is_valid_question q = true ->
    chat_completion W (schema_prompt st) q = Return content ->
    _clean_sql_response (strip content) = [] ->
    exit_path W q uid st
      (failure (lit "No pude generar una consulta SQL para tu pregunta"))
      [Completion (schema_prompt st) q;
       Log INFO (lit "Generated SQL: ")]
| ExitRejectedSql content sql :
    _is_valid_question q = true ->
    chat_completion W (schema_prompt st) q = Return content ->
    _clean_sql_response (strip content) = sql ->
    sql <> [] ->
    _validate_sql sql = false ->
    exit_path W q uid st
      (failure (lit "La consulta generada no es segura"))
      [Completion (schema_prompt st) q;
       Log INFO (lit "Generated SQL: " ++ sql)]
| ExitExecutionError content sql e :
    _is_valid_question q = true ->
    chat_completion W (schema_prompt st) q = Return content ->
    _clean_sql_response (strip content) = sql ->
    sql <> [] ->
    _validate_sql sql = true ->
    read_sql W sql = Raise e ->
    exit_path W q uid st
      (failure (lit "Error interno: " ++ e))
      [Completion (schema_prompt st) q;
       Log INFO (lit "Generated SQL: " ++ sql);
       ReadSql sql;
       Log ERROR (lit "Error executing query: " ++ e);
       Log ERROR (lit "Error processing question: " ++ e)]
| ExitFormatError content sql raw e :
    _is_valid_question q = true ->
    chat_completion W (schema_prompt st) q = Return content ->
    _clean_sql_response (strip content) = sql ->
    sql <> [] ->
    _validate_sql sql = true ->
    read_sql W sql = Return raw ->
    _format_response (capped raw) q sql = Raise e ->
    exit_path W q uid st
      (failure (lit "Error interno: " ++ e))
      ([Completion (schema_prompt st) q;
        Log INFO (lit "Generated SQL: " ++ sql);
        ReadSql sql]
       ++ cap_events raw
       ++ [Log ERROR (lit "Error processing question: " ++ e)])
| ExitSuccess content sql raw formatted :
    _is_valid_question q = true ->
    chat_completion W (schema_prompt st) q = Return content ->
    _clean_sql_response (strip content) = sql ->
    sql <> [] ->
    _validate_sql sql = true ->
    read_sql W sql = Return raw ->
    _format_response (capped raw) q sql = Return formatted ->
    exit_path W q uid st
      {| success := true; error := None; data := Some formatted |}
      ([Completion (schema_prompt st) q;
        Log INFO (lit "Generated SQL: " ++ sql);
        ReadSql sql]
       ++ cap_events raw
       ++ [Interaction {| timestamp := utcnow_isoformat W;
                          user_id := uid;
                          question := q;
                          sql_query := sql;
                          result_count := length (capped raw) |}]).

(** The reading of "no raw driver internals reach the user": the
    message of the envelope does not contain the text of the exception
    the executor raised. *)
Definition hides_cause (cause : exn) (env : envelope) : Prop :=
  forall msg, error env = Some msg -> ~ Substring cause msg.

(** Concrete collaborators and states for the examples: a completion
    service that answers the end-to-end scenario of the specification, a
    database that refuses the login, and a database with [n] customers. *)
Definition customers_completion : str -> str -> outcome str :=
  fun _ _ => Return (lit "SELECT * FROM Customers -- all").

Definition login_failed : exn := lit "[28000] Login failed for user 'sa'".

Definition world_db_down : World :=
  {| introspect := Raise login_failed;
     chat_completion := customers_completion;
     read_sql := fun _ => Raise login_failed;
     utcnow_isoformat := lit "2024-05-01T10:00:00" |}.


Definition customer (i : nat) : row :=
  [(lit "id", VInt (Z.of_nat i)); (lit "name", VStr (lit "Ada")); (lit "city", VNone)].


Definition world_customers (n : nat) : World :=
  {| introspect := Return {| tables := []; relationships := []; views := [] |};
     chat_completion := customers_completion;
     read_sql := fun _ => Return (map customer (seq 1 n));
     utcnow_isoformat := lit "2024-05-01T10:00:00" |}.

Definition fresh_bot : state :=
  {| schema_prompt := lit "# Base de Datos - Esquema Completo"; trace := [] |}.

(* ===================================================================== *)
(** ** Further definitions: what the formatter reads *)
(* ===================================================================== *)

(** [col in row] *)
Definition has_key (r : row) (col : str) : bool := existsb (str_eqb col) (keys r).

(** Every column of [cols] is a key of [r]. *)
Definition has_columns (cols : list str) (r : row) : bool :=
  forallb (has_key r) cols.

(** The rows and columns [_create_slack_table] looks up: the first 3
    rows over the first 5 columns in the digest, the first 10 rows over
    all columns in the table. *)
Definition displayed_ok (results : list row) : bool :=
  match results with
  | [] => true
  | first_row :: _ =>
      let columns := keys first_row in
      if 5 <? length columns
      then forallb (has_columns (firstn 5 columns)) (firstn 3 results)
      else forallb (has_columns columns) (firstn 10 results)
  end.

(* ===================================================================== *)
(** ** Further code: [SchemaDiscoveryService._get_tables_info] *)
(* ===================================================================== *)

(** One row of the [INFORMATION_SCHEMA] query, as [cursor.fetchall()]
    returns it: [row[0]] to [row[11]]. *)
Record columns_row := {
  TABLE_SCHEMA : str;
  TABLE_NAME : str;
  TABLE_TYPE : str;
  COLUMN_NAME : str;
  DATA_TYPE : str;
  IS_NULLABLE : str;
  COLUMN_DEFAULT : option str;
  CHARACTER_MAXIMUM_LENGTH : option Z;
  NUMERIC_PRECISION : option Z;
  NUMERIC_SCALE : option Z;
  IS_PRIMARY_KEY : Z;
  COLUMN_DESCRIPTION : option str
}.

(** The [column_info] dict. *)
Module ColumnInfo.
Record t := {
  name : str;
  data_type : str;
  is_nullable : bool;
  default_value : option str;
  max_length : option Z;
  precision : option Z;
  scale : option Z;
  is_primary_key : bool;
  description : option str
}.
End ColumnInfo.

(** The dict stored under a table key. *)
Module TableInfo.
Record t := {
  schema : str;
  name : str;
  type : str;
  columns : list ColumnInfo.t
}.
End TableInfo.

(** The [tables] dict: keys in insertion order, each key once. *)
Definition tables_dict := list (str * TableInfo.t).

(** [key in tables] *)
Definition dict_has (tables : tables_dict) (key : str) : bool :=
  existsb (fun kv => str_eqb (fst kv) key) tables.

(** [tables[key]] *)
Fixpoint dict_get (tables : tables_dict) (key : str) : option TableInfo.t :=
  match tables with
  | [] => None
  | (k, t) :: rest => if str_eqb k key then Some t else dict_get rest key
  end.

(** [tables[key]['columns'].append(c)] *)
Fixpoint dict_append_column (tables : tables_dict) (key : str) (c : ColumnInfo.t)
    : tables_dict :=
  match tables with
  | [] => []
  | (k, t) :: rest =>
      if str_eqb k key
      then (k, {| TableInfo.schema := TableInfo.schema t;
                  TableInfo.name := TableInfo.name t;
                  TableInfo.type := TableInfo.type t;
                  TableInfo.columns := TableInfo.columns t ++ [c] |}) :: rest
      else (k, t) :: dict_append_column rest key c
  end.

(** [f"{schema_name}.{table_name}"] *)
Definition table_key (row : columns_row) : str :=
  TABLE_SCHEMA row ++ lit "." ++ TABLE_NAME row.

(** The [column_info] built from a row. *)
Definition column_info (row : columns_row) : ColumnInfo.t :=
  {| ColumnInfo.name := COLUMN_NAME row;
     ColumnInfo.data_type := DATA_TYPE row;
     ColumnInfo.is_nullable := str_eqb (IS_NULLABLE row) (lit "YES");
     ColumnInfo.default_value := COLUMN_DEFAULT row;
     ColumnInfo.max_length := CHARACTER_MAXIMUM_LENGTH row;
     ColumnInfo.precision := NUMERIC_PRECISION row;
     ColumnInfo.scale := NUMERIC_SCALE row;
     ColumnInfo.is_primary_key := negb (Z.eqb (IS_PRIMARY_KEY row) 0);
     ColumnInfo.description := COLUMN_DESCRIPTION row |}.

(** The loop [for row in results] of [_get_tables_info], from the dict
    built so far. *)
Fixpoint tables_loop (results : list columns_row) (tables : tables_dict)
    : tables_dict :=
  match results with
  | [] => tables
  | row :: results' =>
      let key := table_key row in
      let tables :=
        if negb (dict_has tables key)
        then tables ++ [(key, {| TableInfo.schema := TABLE_SCHEMA row;
                                 TableInfo.name := TABLE_NAME row;
                                 TableInfo.type := TABLE_TYPE row;
                                 TableInfo.columns := [] |})]
        else tables in
      tables_loop results' (dict_append_column tables key (column_info row))
  end.

(** [SchemaDiscoveryService._get_tables_info], on the rows the cursor
    fetched. *)
Definition _get_tables_info (results : list columns_row) : tables_dict :=
  tables_loop results [].

(** A table entry with more columns. *)
Definition add_columns (t : TableInfo.t) (cs : list ColumnInfo.t) : TableInfo.t :=
  {| TableInfo.schema := TableInfo.schema t;
     TableInfo.name := TableInfo.name t;
     TableInfo.type := TableInfo.type t;
     TableInfo.columns := TableInfo.columns t ++ cs |}.

(** The rows of one table, and the number of columns of a dict. *)
Definition rows_of (key : str) (results : list columns_row) : list columns_row :=
  filter (fun row => str_eqb (table_key row) key) results.

Definition column_count (tables : tables_dict) : nat :=
  list_sum (map (fun kv => length (TableInfo.columns (snd kv))) tables).

(** The keys of [keys] in order of first appearance. *)
Fixpoint first_seen (seen : list str) (keys : list str) : list str :=
  match keys with
  | [] => []
  | k :: keys' =>
      if existsb (fun s => str_eqb s k) seen then first_seen seen keys'
      else k :: first_seen (seen ++ [k]) keys'
  end.

(** [get_schema_for_openai] of [schema_discovery.py]: the same two calls
    as [_load_schema], without its [try]. *)
Definition get_schema_for_openai (W : World) : M str :=
  sch <- get_complete_schema W ;;
  ret (generate_schema_prompt sch).

(* ===================================================================== *)
(** ** Further code: [SQLChatBot.__init__] and [process_slack_message] *)
(* ===================================================================== *)

(** [openai.AzureOpenAI(api_key=..., api_version=..., azure_endpoint=...)]:
    the constructor of the client library gives a client or raises (it
    refuses credentials it cannot use).  It is a collaborator like those
    of [World], met only where a bot is built. *)
Definition client_constructor := str -> str -> str -> outcome unit.

(** [SQLChatBot.__init__]: the client is built first, from the key and
    the endpoint; the connection string, the logger and the schema
    service are stored; then comes the first load of the schema.  The two
    keyword lists set last are the constants [forbidden_keywords] and
    [allowed_operations] of the source. *)
Definition SQLChatBot__init__ (AzureOpenAI : client_constructor) (W : World)
    (openai_api_key openai_endpoint connection_string : str) : M unit :=
  lift (AzureOpenAI openai_api_key (lit "2024-02-15-preview") openai_endpoint) ;;;
  p <- _load_schema W ;;
  set_schema_prompt p.

(** [os.environ] and [os.environ[name]]. *)
Definition environ := str -> option str.

Definition environ_getitem (env : environ) (name : str) : M str :=
  match env name with
  | Some v => ret v
  | None => raise (KeyError name)
  end.

(** Two constructors for the examples: one that takes any credentials,
    and one that refuses an empty key. *)
Definition accepts_credentials : client_constructor := fun _ _ _ => Return tt.

Definition missing_credentials : exn := lit "Missing credentials".

Definition refuses_credentials : client_constructor := fun api_key _ _ =>
  match api_key with
  | [] => Raise missing_credentials
  | _ :: _ => Return tt
  end.

(** The variables [process_slack_message] reads, in the order read. *)
Definition required_variables : list str :=
  [lit "OPENAI_API_KEY"; lit "OPENAI_ENDPOINT"; lit "DATABASE_CONNECTION_STRING"].

(** [process_slack_message]: a bot is built for the message, from the
    environment, and asked the question.  The collaborators of [W]
    stand for what the connection string reaches. *)
Definition process_slack_message (AzureOpenAI : client_constructor) (W : World)
    (env : environ) (message_text user_id : str) : M envelope :=
  openai_key <- environ_getitem env (lit "OPENAI_API_KEY") ;;
  openai_endpoint <- environ_getitem env (lit "OPENAI_ENDPOINT") ;;
  db_connection <- environ_getitem env (lit "DATABASE_CONNECTION_STRING") ;;
  SQLChatBot__init__ AzureOpenAI W openai_key openai_endpoint db_connection ;;;
  process_user_question W message_text (Some user_id).

(* ===================================================================== *)
(** ** Further code: the message handler of [azure_bot_integration.py] *)
(* ===================================================================== *)

(** [c.lower()] for a code point other than the capital sigma. *)
Definition lower_char (c : N) : list N :=
  match Unicode.assoc c Unicode.lower_table with
  | Some l => l
  | None => [c]
  end.

(** The first code point of [s] that is not case-ignorable is cased. *)
Fixpoint cased_first (s : str) : bool :=
  match s with
  | [] => false
  | c :: s' =>
      if Unicode.in_ranges c Unicode.case_ignorable_ranges then cased_first s'
      else Unicode.in_ranges c Unicode.cased_ranges
  end.

(** The capital sigma is in final position when it follows a cased
    letter and does not precede one, case-ignorable code points skipped
    on both sides; [before] is the text before it, last code point
    first. *)
Definition final_sigma (before after : str) : bool :=
  cased_first before && negb (cased_first after).

(** [s.lower()], from the text already read. *)
Fixpoint lower_from (before : str) (s : str) : str :=
  match s with
  | [] => []
  | c :: s' =>
      (if N.eqb c 931
       then [if final_sigma before s' then 962%N else 963%N]
       else lower_char c)
        ++ lower_from (c :: before) s'
  end.

Definition lower (s : str) : str := lower_from [] s.

(** The three fixed texts of the handler (welcome, help, examples) are
    represented by their names, every other text by its characters. *)
Inductive canned := WelcomeText | HelpText | ExamplesText.

(** What [turn_context.send_activity] is given. *)
Inductive activity : Type :=
| Message (body : str)
| Canned (c : canned)
| TypingIndicator.

(** [conversation_state.save_changes] and [user_state.save_changes]. *)
Inductive saved_state := ConversationSaved | UserSaved.

(** The incoming activity, as far as the handler reads it. *)
Record incoming := {
  activity_text : option str;
  from_property_id : str
}.

(** The channel decides whether an activity is delivered, given what was
    delivered before. *)
Record Channel := {
  send_activity : list activity -> activity -> outcome unit
}.

Definition reliable (C : Channel) : Prop :=
  forall sent a, send_activity C sent a = Return tt.

(** The handler's world: its SQL bot, what was delivered, the handler's
    own log and the state saves. *)
Record chat := {
  bot : state;
  outbox : list activity;
  handler_log : list (level * str);
  saves : list saved_state
}.

Definition T (A : Type) : Type := chat -> outcome A * chat.

Definition tret {A} (a : A) : T A := fun ch => (Return a, ch).

Definition tbind {A B} (m : T A) (f : A -> T B) : T B := fun ch =>
  match m ch with
  | (Return a, ch') => f a ch'
  | (Raise e, ch') => (Raise e, ch')
  end.

Definition traise {A} (e : exn) : T A := fun ch => (Raise e, ch).

Definition ttry {A} (body : T A) (handler : exn -> T A) : T A := fun ch =>
  match body ch with
  | (Return a, ch') => (Return a, ch')
  | (Raise e, ch') => handler e ch'
  end.

(** A call into the SQL bot. *)
Definition call_bot {A} (m : M A) : T A := fun ch =>
  let (r, st') := m (bot ch) in
  (r, {| bot := st'; outbox := outbox ch;
         handler_log := handler_log ch; saves := saves ch |}).

(** [await turn_context.send_activity(a)] *)
Definition send (C : Channel) (a : activity) : T unit := fun ch =>
  match send_activity C (outbox ch) a with
  | Return _ =>
      (Return tt, {| bot := bot ch; outbox := outbox ch ++ [a];
                     handler_log := handler_log ch; saves := saves ch |})
  | Raise e => (Raise e, ch)
  end.

Definition handler_logger (l : level) (msg : str) : T unit := fun ch =>
  (Return tt, {| bot := bot ch; outbox := outbox ch;
                 handler_log := handler_log ch ++ [(l, msg)]; saves := saves ch |}).

Definition save_changes (which : saved_state) : T unit := fun ch =>
  (Return tt, {| bot := bot ch; outbox := outbox ch;
                 handler_log := handler_log ch; saves := saves ch ++ [which] |}).

Declare Scope chat_scope.
Delimit Scope chat_scope with chat.
Notation "x <~ m ;; k" := (tbind m (fun x => k))
  (at level 61, m at next level, right associativity) : chat_scope.
Notation "m ;;~ k" := (tbind m (fun _ => k))
  (at level 61, right associativity) : chat_scope.
Local Open Scope chat_scope.

(** [SQLQueryBot._send_error_response] *)
Definition error_text (error_message : str) : str :=
  lit "❌ **Error:** " ++ error_message ++ [LF; LF]
    ++ lit "💡 **Sugerencias:**" ++ [LF]
    ++ lit "• Verifica que tu pregunta sea clara" ++ [LF]
    ++ lit "• Intenta reformular la consulta" ++ [LF]
    ++ lit "• Usa `/examples` para ver ejemplos" ++ [LF]
    ++ lit "• Usa `/help` para ver comandos disponibles".

Definition _send_error_response (C : Channel) (error_message : str) : T unit :=
  send C (Message (error_text error_message)).

(** [f"{error}"] for the [error] of an envelope. *)
Definition format_error (error : option str) : str :=
  match error with
  | Some msg => msg
  | None => lit "None"
  end.

(** The SQL shown in the details message:
    [sql[:100]] followed by ['...'] when [len(sql) > 100]. *)
Definition sql_preview (sql : str) : str :=
  clip 100 sql ++ (if 100 <? length sql then lit "..." else []).

Definition info_text (response_data : Response.t) : str :=
  lit "📊 **Detalles de la consulta:**" ++ [LF]
    ++ lit "• Registros encontrados: "
    ++ str_of_nat (Response.row_count response_data) ++ [LF]
    ++ lit "• SQL generado: `" ++ sql_preview (Response.sql_query response_data)
    ++ lit "`".

(** [SQLQueryBot._send_sql_response]; [response_data] is [result['data']],
    and subscripting [None] raises a [TypeError]. *)
Definition _send_sql_response (C : Channel) (response_data : option Response.t)
    : T unit :=
  ttry
    (match response_data with
     | None => traise (lit "'NoneType' object is not subscriptable")
     | Some response_data =>
         send C (Message (Response.text response_data)) ;;~
         send C (Message (info_text response_data))
     end)
    (fun e =>
       handler_logger ERROR (lit "Error sending SQL response: " ++ e) ;;~
       send C (Message (lit "Error al formatear la respuesta."))).

Definition refresh_started : str :=
  lit "🔄 Actualizando esquema de la base de datos...".
Definition refresh_succeeded : str :=
  lit "✅ Esquema actualizado correctamente. Ahora puedo usar cualquier tabla nueva que hayas agregado.".
Definition refresh_failed : str :=
  lit "❌ Error al actualizar el esquema. Por favor intenta más tarde.".
Definition refresh_raised : str :=
  lit "❌ Error al actualizar el esquema. Revisa los logs para más detalles.".

(** [SQLQueryBot._refresh_schema] *)
Definition _refresh_schema (C : Channel) (W : World) : T unit :=
  send C (Message refresh_started) ;;~
  message <~
    ttry
      (success <~ call_bot (refresh_schema W) ;;
       tret (if success : bool then refresh_succeeded else refresh_failed))
      (fun e =>
         handler_logger ERROR (lit "Error refreshing schema: " ++ e) ;;~
         tret refresh_raised) ;;
  send C (Message message).

Definition generic_error : str :=
  lit "Lo siento, ocurrió un error procesando tu mensaje.".

(** Which branch of [on_message_activity] a stripped message takes. *)
Inductive command := Help | Refresh | Examples | Question.

Definition dispatch (user_message : str) : command :=
  if startswith (lit "/help") (lower user_message) then Help
  else if startswith (lit "/refresh") (lower user_message) then Refresh
  else if startswith (lit "/examples") (lower user_message) then Examples
  else Question.

(** [SQLQueryBot.on_message_activity].  The [try] block answers whether
    it left through one of its [return]s, which skip the two saves. *)
Definition on_message_activity (C : Channel) (W : World) (act : incoming) : T unit :=
  returned <~
    ttry
      (user_message <~
         match activity_text act with
         | Some text => tret (strip text)
         | None => traise (lit "'NoneType' object has no attribute 'strip'")
         end ;;
       let user_id := from_property_id act in
       handler_logger INFO
         (lit "Received message from " ++ user_id ++ lit ": " ++ user_message) ;;~
       match dispatch user_message with
       | Help => send C (Canned HelpText) ;;~ tret true
       | Refresh => _refresh_schema C W ;;~ tret true
       | Examples => send C (Canned ExamplesText) ;;~ tret true
       | Question =>
           send C TypingIndicator ;;~
           result <~ call_bot (process_user_question W user_message (Some user_id)) ;;
           (if success result
            then _send_sql_response C (data result)
            else _send_error_response C (format_error (error result))) ;;~
           tret false
       end)
      (fun e =>
         handler_logger ERROR (lit "Error in on_message_activity: " ++ e) ;;~
         _send_error_response C generic_error ;;~
         tret false) ;;
  if returned : bool then tret tt
  else save_changes ConversationSaved ;;~ save_changes UserSaved.

(** The line the handler logs for an incoming text. *)
Definition received (act : incoming) (text : str) : level * str :=
  (INFO, lit "Received message from " ++ from_property_id act ++ lit ": " ++ strip text).

(** What the user is sent for an envelope. *)
Definition replies (env : envelope) : list activity :=
  if success env
  then match data env with
       | Some payload => [Message (Response.text payload); Message (info_text payload)]
       | None => [Message (lit "Error al formatear la respuesta.")]
       end
  else [Message (error_text (format_error (error env)))].

(** [SQLQueryBot.on_members_added_activity]: [members_added] by their
    ids, [recipient] the id of the bot. *)
Fixpoint on_members_added_activity (C : Channel) (members_added : list str)
    (recipient : str) : T unit :=
  match members_added with
  | [] => tret tt
  | member :: rest =>
      (if negb (str_eqb member recipient)
       then send C (Canned WelcomeText)
       else tret tt) ;;~
      on_members_added_activity C rest recipient
  end.

(* ===================================================================== *)
(** * Properties *)
(* ===================================================================== *)

(** ** Strings *)

Lemma Return_inj {A} (a b : A) : Return a = Return b -> a = b.
Proof. intros H. now injection H. Qed.

Lemma startswith_Prefix p s : startswith p s = true <-> Prefix p s.
Proof.
  revert s; induction p as [|a p IH]; intros s; simpl.
  - split; [intros _; exists s; reflexivity | trivial].
  - destruct s as [|b s].
    + split; [discriminate | intros [r Hr]; discriminate].
    + rewrite andb_true_iff, N.eqb_eq, IH. split.
      * intros [-> [r ->]]. exists r. reflexivity.
      * intros [r Hr]. simpl in Hr. injection Hr as -> ->.
        split; [reflexivity | exists r; reflexivity].
Qed.

Lemma str_in_Substring k s : str_in k s = true <-> Substring k s.
Proof.
  induction s as [|c s IH].
  - simpl. rewrite orb_false_r, startswith_Prefix. split.
    + intros [r Hr]. exists [], r. exact Hr.
    + intros [pre [post H]]. symmetry in H.
      apply app_eq_nil in H as [-> H]. apply app_eq_nil in H as [-> ->].
      exists []. reflexivity.
  - cbn [str_in]. rewrite orb_true_iff, startswith_Prefix, IH. split.
    + intros [[r Hr] | [pre [post H]]].
      * exists [], r. exact Hr.
      * exists (c :: pre), post. simpl. now rewrite H.
    + intros [pre [post H]]. destruct pre as [|d pre].
      * left. exists post. exact H.
      * right. simpl in H. injection H as _ H. exists pre, post. exact H.
Qed.

Lemma hits_any_spec words text :
  hits_any words text = true <-> exists w, In w words /\ Substring w text.
Proof.
  induction words as [|w ws IH]; simpl.
  - split; [discriminate | intros [w [[] _]]].
  - destruct (str_in w text) eqn:E.
    + split; [intros _ | trivial]. exists w. split; [now left |].
      now apply str_in_Substring.
    + rewrite IH. split.
      * intros [x [Hx Hs]]. exists x. split; [now right | exact Hs].
      * intros [x [[<- | Hx] Hs]].
        -- apply str_in_Substring in Hs. congruence.
        -- exists x. now split.
Qed.

Lemma hits_any_none words text :
  hits_any words text = false <-> forall w, In w words -> ~ Substring w text.
Proof.
  rewrite <- not_true_iff_false, hits_any_spec. split.
  - intros H w Hw Hs. apply H. now exists w.
  - intros H [w [Hw Hs]]. exact (H w Hw Hs).
Qed.

(** ** C1, C6: the validators *)

(** C1. [_validate_sql] accepts a candidate exactly when the trimmed,
    uppercased text starts with SELECT and no forbidden keyword and no
    dangerous function occurs anywhere in the uppercased text; the three
    literal examples of the specification evaluate as stated. *)
Theorem validate_sql_spec :
  (forall sql : str,
      _validate_sql sql = true <->
      (Prefix (lit "SELECT") (strip (upper sql)) /\
       (forall k, In k forbidden_keywords -> ~ Substring k (upper sql)) /\
       (forall f, In f dangerous_functions -> ~ Substring f (upper sql)))) /\
  _validate_sql (lit "select * from t; DROP TABLE t") = false /\
  _validate_sql (lit "Update Foo Set x=1") = false /\
  _validate_sql (lit "SELECT * FROM Foo") = true.
Proof.
  split; [| split; [| split]; vm_compute; reflexivity].
  intros sql. unfold _validate_sql.
  rewrite <- startswith_Prefix, <- !hits_any_none.
  destruct (startswith (lit "SELECT") (strip (upper sql))); cbn [negb];
    [| intuition congruence].
  destruct (hits_any forbidden_keywords (upper sql));
    [intuition congruence |].
  destruct (hits_any dangerous_functions (upper sql));
    intuition congruence.
Qed.

Lemma validate_sql_spec_witness :
  _validate_sql (lit "SELECT * FROM Foo") = true /\
  Prefix (lit "SELECT") (strip (upper (lit "SELECT * FROM Foo"))) /\
  (forall k, In k forbidden_keywords ->
             ~ Substring k (upper (lit "SELECT * FROM Foo"))).
Proof.
  assert (E : _validate_sql (lit "SELECT * FROM Foo") = true)
    by (vm_compute; reflexivity).
  split; [exact E |].
  destruct (proj1 (proj1 validate_sql_spec (lit "SELECT * FROM Foo")) E)
    as (P & K & _).
  split; assumption.
Defined.

(** C6. [_is_valid_question] rejects a question exactly when its trimmed
    length is below 5 or its uppercased text contains one of DROP, DELETE,
    INSERT, UPDATE, ALTER, CREATE; the match is case-insensitive and fires
    inside longer identifiers such as UPDATED_AT. *)
Theorem is_valid_question_spec :
  (forall q : str,
      _is_valid_question q = false <->
      (length (strip q) < 5 \/
       exists k, In k forbidden_in_question /\ Substring k (upper q))) /\
  (forall q : str,
      ~ (length (strip q) < 5 \/
         exists k, In k forbidden_in_question /\ Substring k (upper q)) ->
      _is_valid_question q = true) /\
  _is_valid_question (lit "show the updated_at column") = false /\
  _is_valid_question (lit "show all customers") = true.
Proof.
  assert (H : forall q : str,
      _is_valid_question q = false <->
      (length (strip q) < 5 \/
       exists k, In k forbidden_in_question /\ Substring k (upper q))).
  { intros q. unfold _is_valid_question. rewrite <- hits_any_spec.
    destruct (hits_any forbidden_in_question (upper q)); [intuition |].
    destruct (Nat.ltb_spec (length (strip q)) 5).
    - intuition.
    - split; [discriminate | intros [L | L]; [lia | discriminate]]. }
  split; [exact H |]. split.
  - intros q Hn. destruct (_is_valid_question q) eqn:E; [reflexivity |].
    exfalso. apply Hn, H, E.
  - split; vm_compute; reflexivity.
Qed.

Lemma is_valid_question_spec_witness :
  length (strip (lit " hola ")) < 5 /\
  _is_valid_question (lit " hola ") = false.
Proof.
  assert (L : length (strip (lit " hola ")) < 5) by (vm_compute; lia).
  split; [exact L |].
  apply (proj2 (proj1 is_valid_question_spec (lit " hola "))). now left.
Defined.

(** The validators on text beyond ASCII.  [str.upper] maps the dotless
    i to I and the long s to S, so a keyword written with them is found
    and a statement that starts with one passes the prefix test; the
    no-break space is white space for [str.strip]; and the length of a
    question is counted in characters, accented or not. *)
Lemma validate_sql_beyond_ascii :
  _validate_sql (lit "SELECT 1; ınsert into t values (1)") = false /\
  _validate_sql (lit "ſelect 1") = true /\
  _validate_sql (160%N :: lit "SELECT 1") = true /\
  upper (lit "ınsert ſelect straße") = lit "INSERT SELECT STRASSE".
Proof. repeat split; vm_compute; reflexivity. Qed.

Lemma is_valid_question_counts_characters :
  length (lit "años") = 4 /\
  _is_valid_question (lit "años") = false /\
  _is_valid_question (lit "¿sí?") = false /\
  _is_valid_question (lit "abcd" ++ [160%N]) = false /\
  _is_valid_question (lit "¿cuántos años?") = true /\
  _is_valid_question (lit "ınserta un cliente") = false.
Proof. repeat split; vm_compute; reflexivity. Qed.

Lemma Prefix_Substring p s : Prefix p s -> Substring p s.
Proof. intros [r ->]. exists [], r. reflexivity. Qed.

Lemma Substring_cons k c s : Substring k s -> Substring k (c :: s).
Proof. intros [pre [post ->]]. exists (c :: pre), post. reflexivity. Qed.

Lemma Substring_trans a b c : Substring a b -> Substring b c -> Substring a c.
Proof.
  intros [p1 [q1 ->]] [p2 [q2 ->]]. exists (p2 ++ p1), (q1 ++ q2).
  now rewrite <- !app_assoc.
Qed.

Lemma Substring_nil_inv k : Substring k [] -> k = [].
Proof.
  intros [pre [post H]]. symmetry in H.
  apply app_eq_nil in H as [_ H]. now apply app_eq_nil in H as [H _].
Qed.

(** A string that avoids the character [c] and occurs in [a ++ c :: b]
    occurs on one side of [c]. *)
Lemma Substring_app_sep k a c b :
  ~ In c k -> Substring k (a ++ c :: b) -> Substring k a \/ Substring k b.
Proof.
  intros Hc [pre [post H]]. symmetry in H.
  apply app_eq_app in H as [l [[-> H] | [-> H]]].
  - destruct l as [|x l]; simpl in H.
    + destruct k as [|y k]; simpl in H.
      * left. exists a, []. now rewrite app_nil_r.
      * injection H as -> _. exfalso. apply Hc. now left.
    + injection H as _ ->. right. now exists l, post.
  - apply app_eq_app in H as [l2 [[-> H] | [-> H]]].
    + destruct l2 as [|x l2]; simpl in H.
      * left. exists pre, []. now rewrite !app_nil_r.
      * injection H as -> _. exfalso. apply Hc, in_or_app. right. now left.
    + left. exists pre, l2. reflexivity.
Qed.

(** ** White space: [split], [join], [strip] *)

Lemma fields_spacefree s : Forall spacefree (fields s).
Proof.
  induction s as [|c s IH]; simpl.
  - repeat constructor.
  - destruct (isspace c) eqn:E.
    + constructor; [constructor | exact IH].
    + destruct (fields s) as [|w ws].
      * repeat constructor. exact E.
      * inversion IH; subst. constructor; [| assumption].
        constructor; assumption.
Qed.

Lemma fields_head s : exists v vs, fields s = v :: vs /\ Prefix v s.
Proof.
  induction s as [|c s (v & vs & E & [r P])]; simpl.
  - exists [], []. split; [reflexivity | now exists []].
  - destruct (isspace c).
    + exists [], (fields s). split; [reflexivity | now exists (c :: s)].
    + rewrite E. exists (c :: v), vs. split; [reflexivity |].
      exists r. simpl. now rewrite P.
Qed.

Lemma fields_Substring s w : In w (fields s) -> Substring w s.
Proof.
  revert w. induction s as [|c s IH]; intros w; simpl.
  - intros [<- | []]. exists [], []. reflexivity.
  - destruct (isspace c).
    + intros [<- | H].
      * exists [], (c :: s). reflexivity.
      * apply Substring_cons, IH, H.
    + destruct (fields_head s) as (v & vs & E & [r P]). rewrite E.
      intros [<- | H].
      * apply Prefix_Substring. exists r. simpl. now rewrite P.
      * apply Substring_cons, IH. rewrite E. now right.
Qed.

Lemma split_In s w : In w (split s) -> Substring w s.
Proof. unfold split. intros H. apply filter_In in H as [H _]. now apply fields_Substring. Qed.

Lemma split_words s : Forall word (split s).
Proof.
  unfold split. apply Forall_forall. intros w H.
  apply filter_In in H as [H N]. split.
  - destruct w; [discriminate | discriminate].
  - pose proof (fields_spacefree s) as F.
    rewrite Forall_forall in F. now apply F.
Qed.

Lemma fields_word_sep w c s :
  spacefree w -> isspace c = true -> fields (w ++ c :: s) = w :: fields s.
Proof.
  intros Hw Hc. induction Hw as [|x w Hx Hw IH]; simpl.
  - now rewrite Hc.
  - now rewrite Hx, IH.
Qed.

Lemma fields_spacefree_word w : spacefree w -> fields w = [w].
Proof.
  intros Hw. induction Hw as [|x w Hx Hw IH]; simpl; [reflexivity |].
  now rewrite Hx, IH.
Qed.

Lemma join_cons2 sep w v ws : join sep (w :: v :: ws) = w ++ sep ++ join sep (v :: ws).
Proof. reflexivity. Qed.

Lemma split_join ws : Forall word ws -> split (join (lit " ") ws) = ws.
Proof.
  induction 1 as [|w ws [Hn Hw] Hws IH]; [reflexivity |].
  destruct ws as [|v ws].
  - simpl. unfold split. rewrite fields_spacefree_word by assumption.
    simpl. destruct w; [contradiction | reflexivity].
  - rewrite join_cons2. unfold split in *. change (lit " ") with [32%N].
    simpl app at 2. rewrite fields_word_sep by (assumption || reflexivity).
    simpl filter at 1. destruct w as [|x w]; [contradiction |].
    simpl nonempty. cbv iota. f_equal. exact IH.
Qed.

Lemma lstrip_word_app w s : word w -> lstrip (w ++ s) = w ++ s.
Proof.
  intros [Hn Hw]. destruct Hw as [|x w Hx Hw]; [contradiction |].
  simpl. now rewrite Hx.
Qed.

Lemma rstrip_app_keep a b : rstrip b <> [] -> rstrip (a ++ b) = a ++ rstrip b.
Proof.
  intros Hb. induction a as [|x a IH]; simpl; [reflexivity |].
  rewrite IH. destruct (a ++ rstrip b) eqn:E; [| reflexivity].
  apply app_eq_nil in E as [_ E]. contradiction.
Qed.

Lemma rstrip_word w : word w -> rstrip w = w.
Proof.
  intros [Hn Hw]. induction Hw as [|x w Hx Hw IH]; [contradiction |].
  simpl. destruct w as [|y w].
  - simpl. now rewrite Hx.
  - rewrite IH by discriminate. reflexivity.
Qed.

Lemma join_words_not_nil sep w ws : w <> [] -> join sep (w :: ws) <> [].
Proof.
  intros Hw. destruct ws; simpl; [exact Hw |].
  destruct w; [contradiction | discriminate].
Qed.

Lemma rstrip_join ws : Forall word ws -> rstrip (join (lit " ") ws) = join (lit " ") ws.
Proof.
  induction 1 as [|w ws Hw Hws IH]; [reflexivity |].
  destruct ws as [|v ws].
  - simpl. now apply rstrip_word.
  - rewrite join_cons2.
    assert (N : rstrip (join (lit " ") (v :: ws)) <> []).
    { rewrite IH. inversion Hws as [|? ? [Hv _] _]; subst.
      now apply join_words_not_nil. }
    rewrite rstrip_app_keep; rewrite rstrip_app_keep; try assumption.
    + now rewrite IH.
    + intros E. apply app_eq_nil in E as [E _]. discriminate.
Qed.

Lemma strip_join ws : Forall word ws -> strip (join (lit " ") ws) = join (lit " ") ws.
Proof.
  intros H. unfold strip.
  assert (L : lstrip (join (lit " ") ws) = join (lit " ") ws).
  { destruct H as [|w ws Hw Hws]; [reflexivity |].
    destruct ws; [simpl | rewrite join_cons2].
    - rewrite <- (app_nil_r w) at 1 2. rewrite lstrip_word_app by assumption.
      reflexivity.
    - now apply lstrip_word_app. }
  rewrite L. now apply rstrip_join.
Qed.

Lemma Substring_join k ws :
  k <> [] -> ~ In 32%N k -> Substring k (join (lit " ") ws) ->
  exists w, In w ws /\ Substring k w.
Proof.
  intros Hk Hs. induction ws as [|w ws IH]; intros H.
  - apply Substring_nil_inv in H. contradiction.
  - destruct ws as [|v ws].
    + exists w. split; [now left | exact H].
    + rewrite join_cons2 in H. change (lit " ") with [32%N] in H.
      simpl app at 2 in H. apply Substring_app_sep in H as [H | H]; [| | exact Hs].
      * exists w. split; [now left | exact H].
      * destruct (IH H) as [x [Hx Hkx]]. exists x. split; [now right | exact Hkx].
Qed.

(** White-space normalisation, the last two steps of the clean-up. *)
Lemma normalise_keeps_free k s :
  k <> [] -> ~ In 32%N k -> ~ Substring k s ->
  ~ Substring k (strip (join (lit " ") (split s))).
Proof.
  intros Hk Hs Hn H. rewrite strip_join in H by apply split_words.
  apply Substring_join in H as [w [Hw Hkw]]; try assumption.
  apply Hn. eapply Substring_trans; [exact Hkw |]. now apply split_In.
Qed.

Lemma normalise_idempotent s :
  strip (join (lit " ") (split (strip (join (lit " ") (split s))))) =
  strip (join (lit " ") (split s)).
Proof.
  rewrite (strip_join (split s)) by apply split_words.
  rewrite split_join by apply split_words.
  apply strip_join, split_words.
Qed.

(** ** Regular-expression deletion *)

Lemma sub_empty_no_match m s : no_match m s -> sub_empty m 0 s = s.
Proof.
  induction s as [|c s IH]; [reflexivity |].
  intros [E H]. cbn [sub_empty]. rewrite E, IH by assumption. reflexivity.
Qed.

Lemma literal_no_match p s : ~ Substring p s -> no_match (literal_opt_lf p) s.
Proof.
  induction s as [|c s IH]; intros H; [exact I |]. split.
  - unfold literal_opt_lf. destruct (startswith p (c :: s)) eqn:E; [| reflexivity].
    exfalso. apply H, Prefix_Substring, startswith_Prefix, E.
  - apply IH. intros S. apply H. now apply Substring_cons.
Qed.

Lemma comment_no_match s : ~ Substring (lit "--") s -> no_match line_comment s.
Proof.
  induction s as [|c s IH]; intros H; [exact I |]. split.
  - unfold line_comment. destruct (startswith (lit "--") (c :: s)) eqn:E; [| reflexivity].
    exfalso. apply H, Prefix_Substring, startswith_Prefix, E.
  - apply IH. intros S. apply H. now apply Substring_cons.
Qed.

Lemma Substring_longer k k' s : Substring k k' -> ~ Substring k s -> ~ Substring k' s.
Proof. intros H N S. apply N. eapply Substring_trans; eassumption. Qed.

(** On input without fence and without comment marker the three
    substitutions change nothing: the clean-up is the white-space
    normalisation. *)
Lemma clean_on_free s :
  fence_free s -> comment_free s ->
  _clean_sql_response s = strip (join (lit " ") (split s)).
Proof.
  intros F C. unfold _clean_sql_response.
  rewrite (sub_empty_no_match _ s).
  - rewrite (sub_empty_no_match _ s) by now apply literal_no_match.
    rewrite (sub_empty_no_match _ s) by now apply comment_no_match.
    reflexivity.
  - apply literal_no_match. eapply Substring_longer; [| exact F].
    exists [], (lit "sql"). reflexivity.
Qed.

(** *** What the substitutions leave behind *)

Lemma sub_empty_skip m k s : sub_empty m k s = sub_empty m 0 (skipn k s).
Proof.
  revert k. induction s as [|c s IH]; intros k.
  - now destruct k.
  - destruct k as [|k]; [reflexivity |]. cbn [sub_empty skipn]. apply IH.
Qed.

Lemma startswith_run c n s : startswith (repeat c n) s = (n <=? run c s).
Proof.
  revert s. induction n as [|n IH]; intros s; [reflexivity |].
  destruct s as [|x s]; [reflexivity |].
  cbn [repeat startswith run]. rewrite IH.
  destruct (N.eqb c x); reflexivity.
Qed.

Lemma str_in_cons k c s : str_in k (c :: s) = startswith k (c :: s) || str_in k s.
Proof. reflexivity. Qed.

Lemma fence_match s : fence s = None \/ exists k, fence s = Some (S k).
Proof.
  unfold fence, literal_opt_lf. destruct (startswith _ s); [right | now left].
  eexists. cbn [length repeat Nat.add]. reflexivity.
Qed.

Lemma fence_none s : fence s = None <-> run BACKTICK s < 3.
Proof.
  unfold fence, literal_opt_lf. rewrite startswith_run.
  destruct (Nat.leb_spec 3 (run BACKTICK s)); split; intros; try lia;
    try discriminate; reflexivity.
Qed.

(** Deleting fences cannot lengthen a short run of backticks. *)
Lemma fence_run s :
  run BACKTICK s < 3 -> run BACKTICK (sub_empty fence 0 s) <= run BACKTICK s.
Proof.
  induction s as [|c s IH]; intros H; [reflexivity |].
  cbn [sub_empty]. apply fence_none in H as N. rewrite N.
  cbn [run] in *. destruct (N.eqb BACKTICK c); [| lia].
  apply le_n_S, IH. lia.
Qed.

Lemma fence_gone s k : str_in (repeat BACKTICK 3) (sub_empty fence k s) = false.
Proof.
  revert k. induction s as [|c s IH]; intros k; [now destruct k |].
  destruct k as [|k]; cbn [sub_empty]; [| apply IH].
  destruct (fence_match (c :: s)) as [N | [n N]]; rewrite N; [| apply IH].
  rewrite str_in_cons, IH, orb_false_r, startswith_run.
  apply fence_none in N. apply Nat.leb_gt.
  cbn [run] in *. destruct (N.eqb BACKTICK c); [| lia].
  apply -> Nat.succ_lt_mono.
  eapply Nat.le_lt_trans; [apply fence_run |]; lia.
Qed.

Lemma dot_star_rest r :
  skipn (dot_star r) r = [] \/ exists r', skipn (dot_star r) r = LF :: r'.
Proof.
  induction r as [|c r IH]; [now left |].
  cbn [dot_star]. destruct (N.eqb c LF) eqn:E.
  - right. apply N.eqb_eq in E as ->. now exists r.
  - exact IH.
Qed.

Lemma comment_match s :
  (line_comment s = None /\ startswith (repeat DASH 2) s = false) \/
  (exists s', s = DASH :: DASH :: s' /\
              line_comment s = Some (S (S (dot_star s')))).
Proof.
  unfold line_comment. change (lit "--") with (repeat DASH 2).
  destruct (startswith (repeat DASH 2) s) eqn:E; [right | now left].
  destruct s as [|a [|b s']]; cbn [startswith repeat] in E; try discriminate.
  - now rewrite andb_false_r in E.
  - rewrite andb_true_r in E. apply andb_true_iff in E as [A B].
    apply N.eqb_eq in A as <-. apply N.eqb_eq in B as <-.
    exists s'. split; reflexivity.
Qed.

(** What follows a deleted comment starts with no character other than
    the line feed. *)
Lemma after_comment_run c s' :
  c <> LF -> run c (sub_empty line_comment (dot_star s') s') = 0.
Proof.
  intros H. rewrite sub_empty_skip.
  destruct (dot_star_rest s') as [-> | [r ->]]; [reflexivity |].
  cbn [sub_empty]. change (line_comment (LF :: r)) with (@None nat).
  cbn [run]. destruct (N.eqb c LF) eqn:E; [| reflexivity].
  apply N.eqb_eq in E. contradiction.
Qed.

Lemma comment_run c s :
  c <> LF -> run c (sub_empty line_comment 0 s) <= run c s.
Proof.
  intros H. induction s as [|x s IH]; [reflexivity |].
  cbn [sub_empty].
  destruct (comment_match (x :: s)) as [[N _] | [s' [E N]]]; rewrite N.
  - cbn [run]. destruct (N.eqb c x); [| lia]. now apply le_n_S.
  - injection E as -> ->. cbn [sub_empty].
    rewrite after_comment_run by exact H. lia.
Qed.

Lemma comment_keeps_fence_free s k :
  str_in (repeat BACKTICK 3) s = false ->
  str_in (repeat BACKTICK 3) (sub_empty line_comment k s) = false.
Proof.
  revert k. induction s as [|c s IH]; intros k F; [now destruct k |].
  rewrite str_in_cons in F. apply orb_false_iff in F as [F1 F2].
  destruct k as [|k]; cbn [sub_empty]; [| now apply IH].
  destruct (comment_match (c :: s)) as [[N _] | [s' [_ N]]]; rewrite N;
    [| now apply IH].
  rewrite str_in_cons, IH, orb_false_r by exact F2.
  rewrite startswith_run in *. apply Nat.leb_gt in F1. apply Nat.leb_gt.
  cbn [run] in *. destruct (N.eqb BACKTICK c); [| lia].
  assert (L : run BACKTICK (sub_empty line_comment 0 s) <= run BACKTICK s)
    by (apply comment_run; discriminate).
  lia.
Qed.

Lemma comment_gone s k : str_in (repeat DASH 2) (sub_empty line_comment k s) = false.
Proof.
  revert k. induction s as [|c s IH]; intros k; [now destruct k |].
  destruct k as [|k]; cbn [sub_empty]; [| apply IH].
  destruct (comment_match (c :: s)) as [[N S] | [s' [_ N]]]; rewrite N;
    [| apply IH].
  rewrite str_in_cons, IH, orb_false_r, startswith_run.
  rewrite startswith_run in S. apply Nat.leb_gt in S. apply Nat.leb_gt.
  cbn [run] in *. destruct (N.eqb DASH c); [| lia].
  assert (L : run DASH (sub_empty line_comment 0 s) <= run DASH s)
    by (apply comment_run; discriminate).
  lia.
Qed.

Lemma str_in_false k s : str_in k s = false <-> ~ Substring k s.
Proof. rewrite <- str_in_Substring. symmetry. apply not_true_iff_false. Qed.

(** The clean-up leaves neither fence nor comment marker. *)
Lemma clean_is_free s :
  fence_free (_clean_sql_response s) /\ comment_free (_clean_sql_response s).
Proof.
  unfold _clean_sql_response, fence_free, comment_free.
  change (lit "```") with (repeat BACKTICK 3).
  change (lit "--") with (repeat DASH 2).
  split; (apply normalise_keeps_free;
          [discriminate | vm_compute; intuition discriminate |]);
    apply str_in_false.
  - apply comment_keeps_fence_free, fence_gone.
  - apply comment_gone.
Qed.

(** Idempotence holds on every input, clean or not. *)
Lemma clean_idempotent s :
  _clean_sql_response (_clean_sql_response s) = _clean_sql_response s.
Proof.
  destruct (clean_is_free s) as [F C].
  rewrite (clean_on_free _ F C).
  unfold _clean_sql_response. apply normalise_idempotent.
Qed.

(** The end-to-end scenario of the specification: the comment of the
    completion is dropped. *)
Example clean_scenario :
  _clean_sql_response (lit "SELECT * FROM Customers -- all") =
  lit "SELECT * FROM Customers".
Proof. vm_compute. reflexivity. Qed.

(** ** C9: idempotence of the clean-up *)

(** C9. On every single-line SELECT string without code fence and without
    comment marker, cleaning twice gives what cleaning once gives. *)
Theorem clean_idempotent_on_clean (s : str) :
  single_line s -> fence_free s -> comment_free s -> select_statement s ->
  _clean_sql_response (_clean_sql_response s) = _clean_sql_response s.
Proof.
  intros _ F C _. rewrite (clean_on_free s F C). rewrite clean_on_free.
  - apply normalise_idempotent.
  - apply normalise_keeps_free; try assumption; [discriminate |].
    vm_compute. intuition discriminate.
  - apply normalise_keeps_free; try assumption; [discriminate |].
    vm_compute. intuition discriminate.
Qed.

Lemma clean_idempotent_on_clean_witness :
  let s := lit "SELECT  name FROM Customers " in
  (single_line s /\ fence_free s /\ comment_free s /\ select_statement s) /\
  _clean_sql_response (_clean_sql_response s) = _clean_sql_response s.
Proof.
  cbv zeta.
  assert (L : single_line (lit "SELECT  name FROM Customers ")).
  { vm_compute. intuition discriminate. }
  assert (F : fence_free (lit "SELECT  name FROM Customers ")).
  { intros H. apply str_in_Substring in H. vm_compute in H. discriminate. }
  assert (C : comment_free (lit "SELECT  name FROM Customers ")).
  { intros H. apply str_in_Substring in H. vm_compute in H. discriminate. }
  assert (S : select_statement (lit "SELECT  name FROM Customers ")).
  { apply startswith_Prefix. vm_compute. reflexivity. }
  split; [repeat split; assumption |].
  exact (clean_idempotent_on_clean _ L F C S).
Defined.

(** ** Running the bot *)

Ltac run_bot :=
  cbv [process_user_question _generate_sql_query _execute_query _log_interaction
       refresh_schema _load_schema get_complete_schema
       try_except bind ret raise lift emit get_schema_prompt set_schema_prompt];
  cbn [trace schema_prompt].

(** ** C7: the row cap of the executor *)

(** C7. Whatever rows the database returns, [_execute_query] succeeds
    with the first 100 of them: at most 100 rows, exactly 100 when the raw
    result has more (150 raw rows give 100), the raw result itself
    otherwise; truncation is not an error. *)
Theorem execute_query_cap (W : World) (sql : str) (raw : list row) (st : state) :
  read_sql W sql = Return raw ->
  exists rows st',
    _execute_query W sql st = (Return rows, st') /\
    rows = firstn 100 raw /\
    length rows <= 100 /\
    (100 < length raw -> length rows = 100) /\
    (length raw = 150 -> length rows = 100) /\
    (length raw <= 100 -> rows = raw).
Proof.
  intros E. run_bot. rewrite E. unfold MAX_ROWS.
  destruct (Nat.ltb_spec 100 (length raw)) as [L | L].
  - eexists _, _. split; [reflexivity |]. rewrite length_firstn.
    repeat split; lia.
  - eexists _, _. split; [reflexivity |].
    rewrite firstn_all2 by exact L. repeat split; try lia.
Qed.

Lemma execute_query_cap_witness :
  let W := {| introspect := Raise [];
              chat_completion := fun _ _ => Raise [];
              read_sql := fun _ => Return (repeat [(lit "id", VInt 7)] 150);
              utcnow_isoformat := [] |} in
  let st := {| schema_prompt := []; trace := [] |} in
  exists rows st',
    _execute_query W (lit "SELECT id FROM t") st = (Return rows, st') /\
    rows = firstn 100 (repeat [(lit "id", VInt 7)] 150) /\
    length rows <= 100 /\
    (100 < length (repeat [(lit "id", VInt 7)] 150) -> length rows = 100) /\
    (length (repeat [(lit "id", VInt 7)] 150) = 150 -> length rows = 100) /\
    (length (repeat [(lit "id", VInt 7)] 150) <= 100 ->
     rows = repeat [(lit "id", VInt 7)] 150).
Proof.
  cbv zeta.
  exact (execute_query_cap
           {| introspect := Raise [];
              chat_completion := fun _ _ => Raise [];
              read_sql := fun _ => Return (repeat [(lit "id", VInt 7)] 150);
              utcnow_isoformat := [] |}
           (lit "SELECT id FROM t") (repeat [(lit "id", VInt 7)] 150)
           {| schema_prompt := []; trace := [] |} eq_refl).
Defined.

(** ** C4: schema refresh when introspection fails *)

(** When introspection answers, the refresh stores the rendering of the
    new schema, which is never the empty string. *)
Lemma refresh_schema_on_success (W : World) (st : state) (sch : schema) :
  introspect W = Return sch ->
  refresh_schema W st =
    (Return true,
     {| schema_prompt := generate_schema_prompt sch;
        trace := trace st ++
          [Introspect; Log INFO (lit "Schema refreshed successfully")] |}) /\
  generate_schema_prompt sch <> [].
Proof.
  intros E. split; [| discriminate].
  run_bot. rewrite E. cbn [trace schema_prompt].
  rewrite <- !app_assoc. reflexivity.
Qed.

(** C4 (behaviour of the code). When introspection raises, [_load_schema]
    swallows the exception and returns the empty string, so
    [refresh_schema] stores the empty prompt over the previous context,
    logs success and returns [True]; its own handler is not reached. *)
Theorem refresh_schema_on_introspection_failure (W : World) (st : state) (cause : exn) :
  introspect W = Raise cause ->
  refresh_schema W st =
    (Return true,
     {| schema_prompt := [];
        trace := trace st ++
          [Introspect;
           Log ERROR (lit "Error getting schema: " ++ cause);
           Log ERROR (lit "Error loading schema: " ++ cause);
           Log INFO (lit "Schema refreshed successfully")] |}).
Proof.
  intros E. run_bot. rewrite E. cbn [trace schema_prompt].
  rewrite <- !app_assoc. reflexivity.
Qed.

Lemma refresh_schema_on_introspection_failure_witness :
  let W := {| introspect := Raise (lit "connection timed out");
              chat_completion := fun _ _ => Raise [];
              read_sql := fun _ => Raise [];
              utcnow_isoformat := [] |} in
  let st := {| schema_prompt := lit "# Base de Datos - Esquema Completo"; trace := [] |} in
  fst (refresh_schema W st) = Return true /\
  schema_prompt (snd (refresh_schema W st)) = [] /\
  schema_prompt (snd (refresh_schema W st)) <> schema_prompt st.
Proof.
  cbv zeta.
  rewrite (refresh_schema_on_introspection_failure
             {| introspect := Raise (lit "connection timed out");
                chat_completion := fun _ _ => Raise [];
                read_sql := fun _ => Raise [];
                utcnow_isoformat := [] |}
             {| schema_prompt := lit "# Base de Datos - Esquema Completo"; trace := [] |}
             (lit "connection timed out") eq_refl).
  split; [reflexivity |]. split; [reflexivity |]. discriminate.
Defined.

(** ** The exits of the pipeline *)

(** Every run returns an envelope, leaves the schema prompt alone and
    takes exactly one of the seven exits. *)
Lemma process_user_question_exit (W : World) (q : str) (uid : option str) (st : state) :
  exists env new,
    process_user_question W q uid st =
      (Return env, {| schema_prompt := schema_prompt st; trace := trace st ++ new |}) /\
    exit_path W q uid st env new.
Proof.
  run_bot.
  destruct (_is_valid_question q) eqn:EQ; cbn [negb].
  2:{ eexists _, []. split; [| now constructor].
      rewrite app_nil_r. now destruct st. }
  destruct (chat_completion W (schema_prompt st) q) as [content|e] eqn:EC;
    cbn [trace schema_prompt].
  2:{ eexists _, _. split; [| eapply ExitSynthesisError; eassumption].
      rewrite <- !app_assoc. reflexivity. }
  destruct (_clean_sql_response (strip content)) as [|c sql'] eqn:ES.
  { eexists _, _. split; [| eapply ExitEmptyCompletion; eassumption].
    rewrite <- !app_assoc. reflexivity. }
  destruct (_validate_sql (c :: sql')) eqn:EV; cbn [negb].
  2:{ eexists _, _. split;
        [| eapply ExitRejectedSql; try eassumption; discriminate].
      rewrite <- !app_assoc. reflexivity. }
  destruct (read_sql W (c :: sql')) as [raw|e] eqn:ER; cbn [trace schema_prompt].
  2:{ eexists _, _. split;
        [| eapply ExitExecutionError; try eassumption; discriminate].
      rewrite <- !app_assoc. reflexivity. }
  destruct (MAX_ROWS <? length raw) eqn:EL; cbn [trace schema_prompt].
  - destruct (_format_response (firstn MAX_ROWS raw) q (c :: sql')) as [f|e] eqn:EF;
      cbn [trace schema_prompt].
    + eexists _, _. split.
      2:{ eapply ExitSuccess with (raw := raw); try eassumption; try discriminate.
          unfold capped. rewrite EL. exact EF. }
      unfold capped, cap_events. rewrite EL. rewrite <- !app_assoc.
      cbn [app]. destruct (firstn MAX_ROWS raw); reflexivity.
    + eexists _, _. split.
      2:{ eapply ExitFormatError with (raw := raw); try eassumption; try discriminate.
          unfold capped. rewrite EL. exact EF. }
      unfold cap_events. rewrite EL. rewrite <- !app_assoc. reflexivity.
  - destruct (_format_response raw q (c :: sql')) as [f|e] eqn:EF;
      cbn [trace schema_prompt].
    + eexists _, _. split.
      2:{ eapply ExitSuccess with (raw := raw); try eassumption; try discriminate.
          unfold capped. rewrite EL. exact EF. }
      unfold capped, cap_events. rewrite EL. rewrite <- !app_assoc.
      cbn [app]. destruct raw; reflexivity.
    + eexists _, _. split.
      2:{ eapply ExitFormatError with (raw := raw); try eassumption; try discriminate.
          unfold capped. rewrite EL. exact EF. }
      unfold cap_events. rewrite EL. rewrite <- !app_assoc. reflexivity.
Qed.

Lemma count_app p a b : count p (a ++ b) = count p a + count p b.
Proof. unfold count. now rewrite filter_app, length_app. Qed.

Lemma cap_events_no_call raw :
  count is_read_sql (cap_events raw) = 0 /\
  count is_completion (cap_events raw) = 0 /\
  count is_interaction (cap_events raw) = 0 /\
  forall sql, ~ In (ReadSql sql) (cap_events raw).
Proof.
  unfold cap_events. destruct (MAX_ROWS <? length raw); cbn.
  - repeat split; try reflexivity. intros sql [H | []]. discriminate.
  - repeat split; try reflexivity. intros sql [].
Qed.

(** ** C10: the shape of the envelope *)

(** C10. Every run of [process_user_question] returns an envelope of one
    of two shapes: success with no error and a payload, or failure with
    no payload and a message; so success, absence of error and presence
    of data coincide. *)
Theorem envelope_shape (W : World) (q : str) (uid : option str) (st : state) :
  exists env st',
    process_user_question W q uid st = (Return env, st') /\
    ((success env = true /\ error env = None /\
      exists payload, data env = Some payload) \/
     (success env = false /\ data env = None /\
      exists msg, error env = Some msg)).
Proof.
  destruct (process_user_question_exit W q uid st) as (env & new & E & X).
  eexists env, _. split; [exact E |].
  destruct X; cbn; eauto 6.
Qed.

(** ** C2: the executor runs only behind both gates *)

Ltac no_read_exit :=
  split;
  [ intros ? H; cbn in H;
    repeat (destruct H as [H | H]; [discriminate |]); destruct H
  | split;
    [ intros; first [congruence | split; reflexivity]
    | split; [intros; split; reflexivity | split; cbn; lia] ] ].

(** C2. In every run the database is read at most once and the
    completion service is called at most once; a read of [sql] happens
    only when the question passed [_is_valid_question], [sql] is the
    cleaned completion and passed [_validate_sql], and it comes after
    the completion call; a rejected question stops the run before any
    call, a rejected candidate before the database. *)
Theorem executor_only_after_both_gates (W : World) (q : str) (uid : option str)
    (st : state) :
  exists env new,
    process_user_question W q uid st =
      (Return env, {| schema_prompt := schema_prompt st; trace := trace st ++ new |}) /\
    (forall sql, In (ReadSql sql) new ->
       _is_valid_question q = true /\
       _validate_sql sql = true /\
       (exists content,
           chat_completion W (schema_prompt st) q = Return content /\
           sql = _clean_sql_response (strip content)) /\
       (exists rest,
           new = [Completion (schema_prompt st) q;
                  Log INFO (lit "Generated SQL: " ++ sql);
                  ReadSql sql] ++ rest)) /\
    (_is_valid_question q = false -> new = [] /\ success env = false) /\
    (forall content,
        chat_completion W (schema_prompt st) q = Return content ->
        _validate_sql (_clean_sql_response (strip content)) = false ->
        count is_read_sql new = 0 /\ success env = false) /\
    count is_completion new <= 1 /\
    count is_read_sql new <= 1.
Proof.
  destruct (process_user_question_exit W q uid st) as (env & new & E & X).
  exists env, new. split; [exact E |].
  destruct X as [HQ | e HQ HC | content HQ HC HS | content sql HQ HC HS HN HV
                | content sql e HQ HC HS HN HV HR
                | content sql raw e HQ HC HS HN HV HR HF
                | content sql raw f HQ HC HS HN HV HR HF].
  - no_read_exit.
  - no_read_exit.
  - no_read_exit.
  - no_read_exit.
  - split; [| split; [congruence | split; [| cbn; lia]]].
    + intros s [H | [H | [H | [H | [H | []]]]]]; try discriminate.
      injection H as <-. repeat split; try assumption.
      * exists content. now split.
      * eexists. reflexivity.
    + intros c Hc Hv. rewrite HC in Hc. injection Hc as <-.
      rewrite HS in Hv. congruence.
  - destruct (cap_events_no_call raw) as (N1 & N2 & N3 & N4).
    split; [| split; [congruence | split; [| split]]].
    + intros s [H | [H | [H | H]]]; try discriminate.
      * injection H as <-. repeat split; try assumption.
        -- exists content. now split.
        -- eexists. reflexivity.
      * cbn [app] in H. apply in_app_or in H. destruct H as [H | H].
        -- now apply N4 in H.
        -- destruct H as [H | []]. discriminate.
    + intros c Hc Hv. rewrite HC in Hc. injection Hc as <-.
      rewrite HS in Hv. congruence.
    + rewrite !count_app, N2. cbn. lia.
    + rewrite !count_app, N1. cbn. lia.
  - destruct (cap_events_no_call raw) as (N1 & N2 & N3 & N4).
    split; [| split; [congruence | split; [| split]]].
    + intros s [H | [H | [H | H]]]; try discriminate.
      * injection H as <-. repeat split; try assumption.
        -- exists content. now split.
        -- eexists. reflexivity.
      * cbn [app] in H. apply in_app_or in H. destruct H as [H | H].
        -- now apply N4 in H.
        -- destruct H as [H | []]. discriminate.
    + intros c Hc Hv. rewrite HC in Hc. injection Hc as <-.
      rewrite HS in Hv. congruence.
    + rewrite !count_app, N2. cbn. lia.
    + rewrite !count_app, N1. cbn. lia.
Qed.

Lemma executor_only_after_both_gates_witness :
  In (ReadSql (lit "SELECT * FROM Customers"))
     (trace (snd (process_user_question (world_customers 3)
                    (lit "show all customers") None fresh_bot))) /\
  _is_valid_question (lit "show all customers") = true /\
  _validate_sql (lit "SELECT * FROM Customers") = true.
Proof.
  destruct (executor_only_after_both_gates (world_customers 3)
              (lit "show all customers") None fresh_bot)
    as (env & new & E & H & _).
  rewrite E. cbn [snd trace fresh_bot app].
  assert (I : In (ReadSql (lit "SELECT * FROM Customers")) new).
  { apply (f_equal (fun r => trace (snd r))) in E.
    cbn [snd trace fresh_bot app] in E. rewrite <- E.
    vm_compute. right. right. left. reflexivity. }
  split; [exact I |].
  destruct (H _ I) as (HQ & HV & _). split; assumption.
Defined.

(** ** C3: the audit record *)

(** C3 (behaviour of the code). A run writes one interaction record when
    it returns a success envelope and none when it returns a failure
    envelope: the call to [_log_interaction] sits on the success path
    only.  A question of four characters is answered with the failure
    envelope and leaves the trace as it was. *)
Theorem interaction_logged_only_on_success :
  (forall (W : World) (q : str) (uid : option str) (st : state),
      exists env new,
        process_user_question W q uid st =
          (Return env,
           {| schema_prompt := schema_prompt st; trace := trace st ++ new |}) /\
        count is_interaction new = (if success env then 1 else 0)) /\
  process_user_question (world_customers 3) (lit "hola") (Some (lit "U42")) fresh_bot =
    (Return (failure (lit "Pregunta no válida o contiene palabras prohibidas")),
     fresh_bot).
Proof.
  split; [| vm_compute; reflexivity].
  intros W q uid st.
  destruct (process_user_question_exit W q uid st) as (env & new & E & X).
  exists env, new. split; [exact E |].
  destruct X; try reflexivity.
  - destruct (cap_events_no_call raw) as (_ & _ & N & _).
    rewrite !count_app, N. reflexivity.
  - destruct (cap_events_no_call raw) as (_ & _ & N & _).
    rewrite !count_app, N. reflexivity.
Qed.

(** ** C5: what the user sees when execution fails *)

(** C5, as stated, fails: with a database that refuses the login the
    envelope carries the text of the driver's exception. *)
Lemma execution_error_shows_cause :
  exists env st',
    process_user_question world_db_down (lit "show all customers") None fresh_bot =
      (Return env, st') /\
    In (ReadSql (lit "SELECT * FROM Customers")) (trace st') /\
    read_sql world_db_down (lit "SELECT * FROM Customers") = Raise login_failed /\
    error env = Some (lit "Error interno: [28000] Login failed for user 'sa'") /\
    ~ hides_cause login_failed env.
Proof.
  eexists _, _. split; [vm_compute; reflexivity |].
  split; [cbn; auto |]. split; [reflexivity |]. split; [reflexivity |].
  intros H. apply (H _ eq_refl).
  exists (lit "Error interno: "), []. vm_compute. reflexivity.
Qed.

(** C5 (amended). When the question and the candidate pass their gates
    and the database call raises, the envelope is the failure envelope
    whose message is ["Error interno: "] followed by the text of the
    exception; the same text goes to the error log twice, once from the
    executor and once from the orchestrator; no interaction record is
    written. *)
Theorem execution_error_envelope (W : World) (q : str) (uid : option str)
    (st : state) (content sql : str) (cause : exn) :
  _is_valid_question q = true ->
  chat_completion W (schema_prompt st) q = Return content ->
  _clean_sql_response (strip content) = sql ->
  sql <> [] ->
  _validate_sql sql = true ->
  read_sql W sql = Raise cause ->
  process_user_question W q uid st =
    (Return {| success := false;
               error := Some (lit "Error interno: " ++ cause);
               data := None |},
     {| schema_prompt := schema_prompt st;
        trace := trace st ++
          [Completion (schema_prompt st) q;
           Log INFO (lit "Generated SQL: " ++ sql);
           ReadSql sql;
           Log ERROR (lit "Error executing query: " ++ cause);
           Log ERROR (lit "Error processing question: " ++ cause)] |}).
Proof.
  intros HQ HC HS HN HV HR. run_bot.
  rewrite HQ. cbn [negb]. rewrite HC. cbn [trace schema_prompt]. rewrite HS.
  destruct sql as [|c sql']; [contradiction |].
  rewrite HV. cbn [negb]. rewrite HR. cbn [trace schema_prompt].
  rewrite <- !app_assoc. reflexivity.
Qed.

Lemma execution_error_envelope_witness :
  process_user_question world_db_down (lit "show all customers") (Some (lit "U42"))
    fresh_bot =
    (Return (failure (lit "Error interno: " ++ login_failed)),
     {| schema_prompt := schema_prompt fresh_bot;
        trace :=
          [Completion (schema_prompt fresh_bot) (lit "show all customers");
           Log INFO (lit "Generated SQL: SELECT * FROM Customers");
           ReadSql (lit "SELECT * FROM Customers");
           Log ERROR (lit "Error executing query: " ++ login_failed);
           Log ERROR (lit "Error processing question: " ++ login_failed)] |}).
Proof.
  assert (H := execution_error_envelope world_db_down (lit "show all customers")
            (Some (lit "U42")) fresh_bot
            (lit "SELECT * FROM Customers -- all") (lit "SELECT * FROM Customers")
            login_failed).
  vm_compute in H. vm_compute. apply H; [reflexivity .. | discriminate | reflexivity | reflexivity].
Defined.

(** ** C8: the response formatter *)

Lemma str_eqb_refl a : str_eqb a a = true.
Proof. induction a as [|x a IH]; [reflexivity |]. simpl. now rewrite N.eqb_refl. Qed.

Lemma getitem_lookup r col : In col (keys r) -> getitem r col = Return (lookup r col).
Proof.
  intros H. unfold lookup.
  assert (E : exists v, getitem r col = Return v).
  { induction r as [|[k v] r IH]; [destruct H |]. simpl.
    destruct (str_eqb k col) eqn:K; [now exists v |].
    destruct H as [<- | H]; [| now apply IH].
    simpl in K. now rewrite str_eqb_refl in K. }
  destruct E as [v ->]. reflexivity.
Qed.

Lemma In_firstn {A} n (l : list A) x : In x (firstn n l) -> In x l.
Proof.
  intros H. rewrite <- (firstn_skipn n l). apply in_or_app. now left.
Qed.

Lemma digest_cols_ok r cols response :
  (forall col, In col cols -> In col (keys r)) ->
  digest_cols r cols response =
    Return (response ++
            concat (map (fun col => lit "  " ++ col ++ lit ": "
                                      ++ digest_value (lookup r col) ++ [LF]) cols)).
Proof.
  revert response. induction cols as [|col cols IH]; intros response H.
  - cbn [digest_cols map concat]. now rewrite app_nil_r.
  - cbn [digest_cols map concat].
    rewrite getitem_lookup by (apply H; now left).
    rewrite IH by (intros c Hc; apply H; now right).
    now rewrite <- app_assoc.
Qed.

Lemma digest_rows_ok rows i cols response :
  Forall (fun r => forall col, In col cols -> In col (keys r)) rows ->
  digest_rows rows i cols response =
    Return (response ++ concat (map (digest_record cols) (enumerate i rows))).
Proof.
  intros H. revert i response.
  induction H as [|r rows Hr Hrows IH]; intros i response.
  - cbn [digest_rows enumerate map concat]. now rewrite app_nil_r.
  - cbn [digest_rows enumerate map concat].
    rewrite digest_cols_ok by exact Hr. rewrite IH.
    unfold digest_record at 2. cbn [fst snd].
    now rewrite <- !app_assoc.
Qed.

Lemma cells_ok r cols :
  (forall col, In col cols -> In col (keys r)) ->
  cells r cols = Return (map (fun col => table_cell (lookup r col)) cols).
Proof.
  induction cols as [|col cols IH]; intros H; [reflexivity |].
  cbn [cells map]. rewrite getitem_lookup by (apply H; now left).
  rewrite IH by (intros c Hc; apply H; now right). reflexivity.
Qed.

Lemma table_rows_ok rows cols response :
  Forall (fun r => forall col, In col cols -> In col (keys r)) rows ->
  table_rows rows cols response =
    Return (response ++ concat (map (table_line cols) rows)).
Proof.
  intros H. revert response.
  induction H as [|r rows Hr Hrows IH]; intros response.
  - cbn [table_rows map concat]. now rewrite app_nil_r.
  - cbn [table_rows map concat]. rewrite cells_ok by exact Hr.
    rewrite IH. unfold table_line at 2. now rewrite <- !app_assoc.
Qed.



Lemma table_cell_length v : length (table_cell v) <= 15.
Proof.
  destruct v; unfold table_cell, clip; try apply firstn_le_length.
  cbn. lia.
Qed.







(* ===================================================================== *)
(** * Further properties of the code *)
(* ===================================================================== *)

(** ** The clean-up of a completion *)

Lemma In_join c sep ws :
  In c (join sep ws) -> In c sep \/ exists w, In w ws /\ In c w.
Proof.
  induction ws as [|w ws IH]; intros H; [destruct H |].
  destruct ws as [|v ws].
  - right. exists w. split; [now left | exact H].
  - rewrite join_cons2 in H. apply in_app_or in H as [H | H].
    + right. exists w. split; [now left | exact H].
    + apply in_app_or in H as [H | H]; [now left |].
      destruct (IH H) as [L | [x [Hx Hc]]]; [now left |].
      right. exists x. split; [now right | exact Hc].
Qed.

(** X1. Cleaning is idempotent on every input, clean or not: a second
    clean-up of a cleaned completion changes nothing. *)
Theorem clean_idempotent_everywhere (s : str) :
  _clean_sql_response (_clean_sql_response s) = _clean_sql_response s.
Proof.
  destruct (clean_is_free s) as [F C].
  rewrite (clean_on_free _ F C).
  unfold _clean_sql_response. apply normalise_idempotent.
Qed.

(** X2. Whatever the completion service answers, the cleaned candidate
    is a list of non-empty words without white space, joined by single
    spaces: it has no line feed, no leading or trailing white space, no
    code fence and no comment marker. *)
Theorem clean_normal_form (s : str) :
  exists ws,
    _clean_sql_response s = join (lit " ") ws /\
    Forall word ws /\
    single_line (_clean_sql_response s) /\
    strip (_clean_sql_response s) = _clean_sql_response s /\
    fence_free (_clean_sql_response s) /\
    comment_free (_clean_sql_response s).
Proof.
  destruct (clean_is_free s) as [F C].
  remember (_clean_sql_response s) as t eqn:Et.
  unfold _clean_sql_response in Et. cbv zeta in Et.
  rewrite strip_join in Et by apply split_words.
  eexists. split; [exact Et |]. split; [apply split_words |].
  split; [| split; [| split; assumption]].
  - intros H. rewrite Et in H. apply In_join in H as [H | [w [Hw Hc]]].
    + destruct H as [H | []]. discriminate.
    + pose proof (split_words
                    (sub_empty line_comment 0
                       (sub_empty (literal_opt_lf (lit "```")) 0
                          (sub_empty (literal_opt_lf (lit "```sql")) 0 s)))) as W.
      rewrite Forall_forall in W. destruct (W w Hw) as [_ Sw].
      unfold spacefree in Sw. rewrite Forall_forall in Sw.
      specialize (Sw LF Hc). discriminate.
  - rewrite Et. apply strip_join, split_words.
Qed.

(** ** Loading and refreshing the schema *)

(** X3. [_load_schema] never raises and never assigns the prompt; it
    returns the empty string exactly when introspection raised, and the
    rendering of the schema otherwise. *)
Theorem load_schema_total (W : World) (st : state) :
  exists p st',
    _load_schema W st = (Return p, st') /\
    schema_prompt st' = schema_prompt st /\
    (p = [] <-> exists cause, introspect W = Raise cause) /\
    (forall sch, introspect W = Return sch -> p = generate_schema_prompt sch).
Proof.
  run_bot. destruct (introspect W) as [sch | cause] eqn:E; cbn [trace schema_prompt].
  - eexists _, _. split; [reflexivity |]. split; [reflexivity |]. split.
    + split; [discriminate | intros [c Hc]; discriminate].
    + intros s H. now injection H as <-.
  - eexists _, _. split; [reflexivity |]. split; [reflexivity |]. split.
    + split; [intros _; now exists cause | reflexivity].
    + discriminate.
Qed.

(** X4. [refresh_schema] answers [True] in every world and never raises:
    its [except] branch is unreachable.  The prompt it stores is empty
    exactly when introspection raised. *)
Theorem refresh_schema_always_true (W : World) (st : state) :
  exists st',
    refresh_schema W st = (Return true, st') /\
    (schema_prompt st' = [] <-> exists cause, introspect W = Raise cause) /\
    (forall sch, introspect W = Return sch ->
                 schema_prompt st' = generate_schema_prompt sch) /\
    In (Log INFO (lit "Schema refreshed successfully")) (trace st').
Proof.
  run_bot. destruct (introspect W) as [sch | cause] eqn:E; cbn [trace schema_prompt].
  - eexists. split; [reflexivity |]. cbn [schema_prompt trace]. split; [| split].
    + split; [discriminate | intros [c Hc]; discriminate].
    + intros s H. now injection H as <-.
    + apply in_or_app. right. now left.
  - eexists. split; [reflexivity |]. cbn [schema_prompt trace]. split; [| split].
    + split; [intros _; now exists cause | reflexivity].
    + discriminate.
    + apply in_or_app. right. now left.
Qed.

(** ** Synthesis and the pipeline *)

(** X5. [_generate_sql_query] never raises and leaves the schema prompt
    alone.  It returns [None] exactly when the completion call raised;
    otherwise it returns the stripped and cleaned answer, on which a
    second clean-up changes nothing. *)
Theorem generate_sql_query_total (W : World) (q : str) (st : state) :
  exists o st',
    _generate_sql_query W q st = (Return o, st') /\
    schema_prompt st' = schema_prompt st /\
    (o = None <-> exists e, chat_completion W (schema_prompt st) q = Raise e) /\
    (forall content,
        chat_completion W (schema_prompt st) q = Return content ->
        o = Some (_clean_sql_response (strip content))) /\
    (forall sql, o = Some sql -> _clean_sql_response sql = sql).
Proof.
  run_bot.
  destruct (chat_completion W (schema_prompt st) q) as [content | e] eqn:E;
    cbn [trace schema_prompt].
  - eexists _, _. split; [reflexivity |]. split; [reflexivity |].
    split; [| split].
    + split; [discriminate | intros [x Hx]; discriminate].
    + intros c H. now injection H as <-.
    + intros sql H. injection H as <-. apply clean_idempotent.
  - eexists _, _. split; [reflexivity |]. split; [reflexivity |].
    split; [| split]; try discriminate.
    split; [intros _; now exists e | reflexivity].
Qed.

Lemma format_response_fields results q sql payload :
  _format_response results q sql = Return payload ->
  Response.sql_query payload = sql /\
  Response.row_count payload = length results.
Proof.
  destruct results as [|r rs]; cbn [_format_response].
  - intros H. injection H as <-. now split.
  - destruct (_create_slack_table (r :: rs) q); [| discriminate].
    intros H. injection H as <-. now split.
Qed.

Lemma capped_length raw : length (capped raw) = Nat.min 100 (length raw).
Proof.
  unfold capped, MAX_ROWS. destruct (Nat.ltb_spec 100 (length raw)).
  - rewrite length_firstn. reflexivity.
  - lia.
Qed.

Ltac absurd_in H :=
  cbn [app] in H;
  repeat (destruct H as [H | H]; [discriminate |]);
  first
    [ destruct H
    | apply in_app_or in H as [H | H];
      [ unfold cap_events in H; destruct (MAX_ROWS <? length _);
        [destruct H as [H | []]; discriminate | destruct H]
      | destruct H as [H | []]; discriminate ] ].

(** X6. A run never changes the schema prompt and never introspects the
    database; the completion service, when it is called, receives the
    bot's current schema prompt and the question as given. *)
Theorem process_user_question_keeps_schema (W : World) (q : str)
    (uid : option str) (st : state) :
  exists env new,
    process_user_question W q uid st =
      (Return env, {| schema_prompt := schema_prompt st; trace := trace st ++ new |}) /\
    ~ In Introspect new /\
    (forall p q', In (Completion p q') new -> p = schema_prompt st /\ q' = q).
Proof.
  destruct (process_user_question_exit W q uid st) as (env & new & E & X).
  exists env, new. split; [exact E |].
  destruct X as [HQ | e HQ HC | content HQ HC HS | content sql HQ HC HS HN HV
                | content sql e HQ HC HS HN HV HR
                | content sql raw e HQ HC HS HN HV HR HF
                | content sql raw f HQ HC HS HN HV HR HF];
    (split;
     [ intros HI; absurd_in HI
     | intros p q' HI;
       try (destruct HI as [HI | HI]; [injection HI as <- <-; now split |]);
       absurd_in HI ]).
Qed.

(** X7. When a run succeeds, the payload and the audit record agree: the
    SQL of both is the cleaned completion that was executed, the row
    count of both is the number of rows returned, which is the raw count
    capped at 100, and the record is the last event of the run. *)
Theorem success_payload_matches_audit (W : World) (q : str) (uid : option str)
    (st st' : state) (env : envelope) :
  process_user_question W q uid st = (Return env, st') ->
  success env = true ->
  exists payload entry content raw before,
    data env = Some payload /\
    trace st' = trace st ++ before ++ [Interaction entry] /\
    chat_completion W (schema_prompt st) q = Return content /\
    read_sql W (Response.sql_query payload) = Return raw /\
    Response.sql_query payload = _clean_sql_response (strip content) /\
    sql_query entry = Response.sql_query payload /\
    Response.row_count payload = Nat.min 100 (length raw) /\
    result_count entry = Response.row_count payload /\
    question entry = q /\
    user_id entry = uid.
Proof.
  intros E S.
  destruct (process_user_question_exit W q uid st) as (env' & new & E' & X).
  rewrite E in E'. injection E' as <- ->.
  destruct X as [ | | | | | | content sql raw f HQ HC HS HN HV HR HF];
    try (cbn [success failure] in S; discriminate S).
  destruct (format_response_fields _ _ _ _ HF) as [F1 F2].
  exists f,
    {| timestamp := utcnow_isoformat W; user_id := uid; question := q;
       sql_query := sql; result_count := length (capped raw) |},
    content, raw,
    ([Completion (schema_prompt st) q;
      Log INFO (lit "Generated SQL: " ++ sql); ReadSql sql] ++ cap_events raw).
  split; [reflexivity |].
  split; [cbn [trace]; now rewrite <- (app_assoc _ (cap_events raw)) |].
  cbn [sql_query result_count question user_id].
  rewrite F1, F2, HS, capped_length. repeat split; try assumption; reflexivity.
Qed.

Lemma success_payload_matches_audit_witness :
  exists payload entry,
    data (match fst (process_user_question (world_customers 150)
                       (lit "show all customers") (Some (lit "U42")) fresh_bot)
          with Return env => env | Raise _ => failure [] end) = Some payload /\
    Response.row_count payload = 100 /\
    result_count entry = 100 /\
    sql_query entry = lit "SELECT * FROM Customers".
Proof.
  destruct (process_user_question (world_customers 150)
              (lit "show all customers") (Some (lit "U42")) fresh_bot)
    as [[env | e] st'] eqn:E.
  2:{ exfalso. vm_compute in E. discriminate. }
  assert (S : success env = true).
  { vm_compute in E. injection E as <- _. reflexivity. }
  destruct (success_payload_matches_audit _ _ _ _ _ _ E S)
    as (payload & entry & content & raw & before & D & _ & HC & HR & HS & HE & HN & HK & _).
  exists payload, entry. cbn [fst]. split; [exact D |].
  assert (Q : Response.sql_query payload = lit "SELECT * FROM Customers").
  { rewrite HS. cbn [chat_completion world_customers customers_completion] in HC.
    apply Return_inj in HC. subst content. vm_compute. reflexivity. }
  assert (L : length raw = 150).
  { rewrite Q in HR. cbn [read_sql world_customers] in HR.
    apply Return_inj in HR. subst raw. vm_compute. reflexivity. }
  rewrite HK, HE, HN, L, Q. repeat split; reflexivity.
Defined.

(** ** The formatter and the rows it reads *)

Lemma str_eqb_eq a b : str_eqb a b = true <-> a = b.
Proof.
  revert b. induction a as [|x a IH]; intros [|y b]; simpl;
    try (split; [discriminate | discriminate]); [now split |].
  rewrite andb_true_iff, N.eqb_eq, IH. split.
  - now intros [-> ->].
  - intros H. injection H as -> ->. now split.
Qed.

Lemma has_key_In r col : has_key r col = true <-> In col (keys r).
Proof.
  unfold has_key. rewrite existsb_exists. split.
  - intros [k [Hk E]]. apply str_eqb_eq in E. now subst.
  - intros H. exists col. split; [exact H | apply str_eqb_refl].
Qed.

Lemma has_columns_In cols r :
  has_columns cols r = true <-> (forall col, In col cols -> In col (keys r)).
Proof.
  unfold has_columns. rewrite forallb_forall. split; intros H c Hc.
  - now apply has_key_In, H.
  - now apply has_key_In, H.
Qed.

Lemma getitem_missing r col :
  has_key r col = false -> getitem r col = Raise (KeyError col).
Proof.
  unfold has_key, keys. induction r as [|[k v] r IH]; [reflexivity |].
  cbn [map existsb fst getitem]. intros H.
  apply orb_false_iff in H as [H1 H2].
  destruct (str_eqb k col) eqn:E.
  - apply str_eqb_eq in E. subst. now rewrite str_eqb_refl in H1.
  - now apply IH.
Qed.

(** A row that lacks one of the columns stops the comprehension with the
    [KeyError] of a column it lacks. *)
Lemma cells_raise r cols :
  has_columns cols r = false ->
  exists col, In col cols /\ has_key r col = false /\
              cells r cols = Raise (KeyError col).
Proof.
  unfold has_columns. induction cols as [|c cols IH]; [discriminate |].
  cbn [forallb cells]. intros H. destruct (has_key r c) eqn:K.
  - destruct (IH H) as (col & I & M & E). exists col.
    split; [now right |]. split; [exact M |].
    apply has_key_In in K. rewrite (getitem_lookup _ _ K), E. reflexivity.
  - exists c. split; [now left |]. split; [exact K |].
    now rewrite getitem_missing.
Qed.

Lemma digest_cols_raise r cols response :
  has_columns cols r = false ->
  exists col, In col cols /\ has_key r col = false /\
              digest_cols r cols response = Raise (KeyError col).
Proof.
  unfold has_columns. revert response.
  induction cols as [|c cols IH]; intros response; [discriminate |].
  cbn [forallb digest_cols]. intros H. destruct (has_key r c) eqn:K.
  - apply has_key_In in K. rewrite (getitem_lookup _ _ K).
    match goal with
    | |- context [digest_cols r cols ?resp] =>
        destruct (IH resp H) as (col & I & M & E)
    end.
    exists col. split; [now right |]. split; [exact M | exact E].
  - exists c. split; [now left |]. split; [exact K |].
    now rewrite getitem_missing.
Qed.

Lemma forallb_Forall_columns cols rows :
  forallb (has_columns cols) rows = true ->
  Forall (fun r => forall col, In col cols -> In col (keys r)) rows.
Proof.
  intros H. apply Forall_forall. intros r Hr.
  apply has_columns_In. rewrite forallb_forall in H. now apply H.
Qed.

Lemma table_rows_raise rows cols response :
  forallb (has_columns cols) rows = false ->
  exists col, In col cols /\ table_rows rows cols response = Raise (KeyError col).
Proof.
  revert response. induction rows as [|r rows IH]; intros response; [discriminate |].
  cbn [forallb table_rows]. intros H. destruct (has_columns cols r) eqn:K.
  - rewrite (cells_ok _ _ (proj1 (has_columns_In _ _) K)). apply IH, H.
  - destruct (cells_raise _ _ K) as (col & I & _ & E). exists col.
    split; [exact I |]. now rewrite E.
Qed.

Lemma digest_rows_raise rows i cols response :
  forallb (has_columns cols) rows = false ->
  exists col, In col cols /\ digest_rows rows i cols response = Raise (KeyError col).
Proof.
  revert i response. induction rows as [|r rows IH]; intros i response;
    [discriminate |].
  cbn [forallb digest_rows]. intros H. destruct (has_columns cols r) eqn:K.
  - rewrite (digest_cols_ok _ _ _ (proj1 (has_columns_In _ _) K)). apply IH, H.
  - destruct (digest_cols_raise r cols
                (response ++ lit "Registro " ++ str_of_nat (i + 1) ++ lit ":" ++ [LF]) K)
      as (col & I & _ & E).
    exists col. split; [exact I |]. now rewrite E.
Qed.

(** The text of a result whose displayed rows have the displayed
    columns. *)
Lemma create_slack_table_displayed first_row rest question :
  displayed_ok (first_row :: rest) = true ->
  _create_slack_table (first_row :: rest) question =
    Return (title_block question
            ++ (if 5 <? length (keys first_row)
                then digest_render (first_row :: rest) (keys first_row)
                else table_render (first_row :: rest) (keys first_row))
            ++ total_line (length (first_row :: rest))).
Proof.
  unfold displayed_ok, _create_slack_table. cbv zeta.
  destruct (5 <? length (keys first_row)); intros D.
  - rewrite digest_rows_ok by now apply forallb_Forall_columns.
    unfold title_block, digest_render, total_line.
    rewrite <- !app_assoc. reflexivity.
  - rewrite table_rows_ok by now apply forallb_Forall_columns.
    unfold title_block, table_render, table_header, more_note, total_line.
    destruct (10 <? length (first_row :: rest));
        rewrite <- !app_assoc, ?app_nil_l; reflexivity.
Qed.

(** What happens otherwise. *)
Lemma create_slack_table_undisplayed first_row rest question :
  displayed_ok (first_row :: rest) = false ->
  exists col,
    In col (keys first_row) /\
    _create_slack_table (first_row :: rest) question = Raise (KeyError col).
Proof.
  unfold displayed_ok, _create_slack_table. cbv zeta.
  destruct (5 <? length (keys first_row)); intros D.
  - match goal with
    | |- context [digest_rows ?a ?b ?c ?d] =>
        destruct (digest_rows_raise a b c d D) as (col & I & E)
    end.
    exists col. split; [now apply In_firstn in I |]. now rewrite E.
  - match goal with
    | |- context [table_rows ?a ?b ?c] =>
        destruct (table_rows_raise a b c D) as (col & I & E)
    end.
    exists col. split; [exact I |]. now rewrite E.
Qed.

(** X8. [_create_slack_table] returns a text exactly when the rows it
    displays (the first 3 in the digest, the first 10 in the table) have
    the columns it displays (the first 5 of the first row in the digest,
    all of them in the table); otherwise it raises the [KeyError] of a
    column of the first row.  Rows after the displayed ones are never
    looked up. *)
Theorem create_slack_table_returns_iff (results : list row) (question : str) :
  (displayed_ok results = true ->
   exists text, _create_slack_table results question = Return text) /\
  (displayed_ok results = false ->
   exists first_row rest col,
     results = first_row :: rest /\
     In col (keys first_row) /\
     _create_slack_table results question = Raise (KeyError col)).
Proof.
  split; intros D.
  - destruct results as [|first_row rest]; [now eexists |].
    eexists. now apply create_slack_table_displayed.
  - destruct results as [|first_row rest]; [discriminate |].
    destruct (create_slack_table_undisplayed first_row rest question D)
      as (col & I & E).
    now exists first_row, rest, col.
Qed.

Lemma create_slack_table_returns_iff_witness :
  (exists text,
      _create_slack_table (map customer (seq 1 10) ++ [[(lit "other", VNone)]])
        (lit "q") = Return text) /\
  (exists col,
      _create_slack_table (customer 1 :: [[(lit "id", VInt 2)]]) (lit "q") =
        Raise (KeyError col)).
Proof.
  split.
  - apply (proj1 (create_slack_table_returns_iff
                    (map customer (seq 1 10) ++ [[(lit "other", VNone)]]) (lit "q"))).
    vm_compute. reflexivity.
  - destruct (proj2 (create_slack_table_returns_iff
                       (customer 1 :: [[(lit "id", VInt 2)]]) (lit "q")))
      as (f & r & col & _ & _ & E); [vm_compute; reflexivity |].
    exists col. exact E.
Defined.

Lemma join_cells_length parts :
  Forall (fun p => length p <= 15) parts ->
  length (join (lit " | ") parts) <= 18 * length parts - 3.
Proof.
  induction 1 as [|p parts Hp Hparts IH]; [cbn; lia |].
  destruct parts as [|p' parts]; [cbn [join length]; lia |].
  rewrite join_cons2, !length_app.
  change (length (lit " | ")) with 3. cbn [length] in *. unfold str in *. lia.
Qed.

(** X9. In table mode no line is wide: the header has at most 87
    characters, each of the at most 10 data lines at most 88 with its
    line feed, and the dash line is as long as the header. *)
Theorem table_width_bounded (first_row : row) (rest : list row)
    (question text : str) :
  _create_slack_table (first_row :: rest) question = Return text ->
  length (keys first_row) <= 5 ->
  exists header body,
    text = title_block question ++ lit "```" ++ [LF] ++ header ++ [LF]
             ++ repeat_str (lit "-") (length header) ++ [LF]
             ++ concat body ++ more_note (length (first_row :: rest))
             ++ lit "```" ++ total_line (length (first_row :: rest)) /\
    length header <= 87 /\
    length body = Nat.min 10 (length (first_row :: rest)) /\
    Forall (fun l => length l <= 88) body.
Proof.
  intros E L. destruct (displayed_ok (first_row :: rest)) eqn:D.
  2:{ destruct (create_slack_table_undisplayed _ _ question D) as (c & _ & R).
      rewrite R in E. discriminate. }
  rewrite (create_slack_table_displayed _ _ _ D) in E.
  apply Nat.ltb_ge in L as L'. rewrite L' in E. apply Return_inj in E. subst text.
  exists (table_header (keys first_row)),
         (map (table_line (keys first_row)) (firstn 10 (first_row :: rest))).
  split; [unfold table_render; rewrite <- !app_assoc; reflexivity |].
  assert (B : forall parts, Forall (fun p => length p <= 15) parts ->
                            length parts <= 5 ->
                            length (join (lit " | ") parts) <= 87).
  { intros parts F N. pose proof (join_cells_length parts F). lia. }
  split; [| split].
  - apply B; [| now rewrite length_map].
    apply Forall_forall. intros h H. apply in_map_iff in H as [c [<- _]].
    unfold clip. rewrite length_firstn. lia.
  - now rewrite length_map, length_firstn.
  - apply Forall_forall. intros l H. apply in_map_iff in H as [r [<- _]].
    unfold table_line. rewrite length_app. cbn [length].
    assert (length (join (lit " | ")
                      (map (fun col => table_cell (lookup r col)) (keys first_row))) <= 87);
      [| lia].
    apply B; [| now rewrite length_map].
    apply Forall_forall. intros h H. apply in_map_iff in H as [c [<- _]].
    apply table_cell_length.
Qed.

Lemma table_width_bounded_witness :
  exists (text header : str) (body : list str),
    _create_slack_table (map customer (seq 1 12)) (lit "q") = Return text /\
    length header <= 87 /\ length body = 10 /\
    Forall (fun l => length l <= 88) body.
Proof.
  destruct (_create_slack_table (map customer (seq 1 12)) (lit "q"))
    as [text | e] eqn:E; [| vm_compute in E; discriminate].
  destruct (table_width_bounded (customer 1) (map customer (seq 2 11))
              (lit "q") text E) as (header & body & _ & H & B & F).
  - cbn. lia.
  - exists text, header, body. repeat split; assumption.
Defined.

(** ** The schema prompt *)

Lemma Prefix_app_r p r : Prefix p (p ++ r).
Proof. now exists r. Qed.

Lemma line_count_app a b : line_count (a ++ b) = line_count a + line_count b.
Proof. apply count_occ_app. Qed.

Lemma line_count_single_line s : single_line s -> line_count s = 0.
Proof. intros H. now apply count_occ_not_In. Qed.

Lemma line_count_concat_map {A} (f : A -> str) (P : A -> Prop) (l : list A) :
  (forall x, P x -> line_count (f x) = 1) ->
  Forall P l ->
  line_count (concat (map f l)) = length l.
Proof.
  intros H F. induction F as [|x l Hx F IH]; [reflexivity |].
  cbn [map concat length]. now rewrite line_count_app, (H x Hx), IH.
Qed.

Ltac count_lines :=
  rewrite ?line_count_app;
  repeat match goal with
         | H : single_line ?s |- context [line_count ?s] =>
             rewrite (line_count_single_line s H)
         end.

Lemma render_column_one_line c : column_single_line c -> line_count (render_column c) = 1.
Proof.
  intros (N & T & D). unfold render_column. count_lines.
  destruct (is_primary_key c), (is_nullable c), (description c) as [d |];
    count_lines; reflexivity.
Qed.

Lemma render_relationship_one_line r :
  relationship_single_line r -> line_count (render_relationship r) = 1.
Proof.
  intros (A & B & C & D). unfold render_relationship. count_lines. reflexivity.
Qed.

Lemma render_view_one_line v :
  single_line (view_schema v) /\ single_line (view_name v) ->
  line_count (render_view v) = 1.
Proof. intros (A & B). unfold render_view. count_lines. reflexivity. Qed.

Lemma render_table_lines t :
  single_line (fst t) /\ Forall column_single_line (snd t) ->
  line_count (render_table t) = 4 + length (snd t).
Proof.
  intros (K & C). unfold render_table. count_lines.
  rewrite (line_count_concat_map render_column column_single_line);
    [reflexivity | apply render_column_one_line | exact C].
Qed.

Lemma render_tables_lines ts :
  Forall (fun t => single_line (fst t) /\ Forall column_single_line (snd t)) ts ->
  line_count (concat (map render_table ts)) =
    4 * length ts + list_sum (map (fun t => length (snd t)) ts).
Proof.
  intros F. induction F as [|t ts Ht F IH]; [reflexivity |].
  cbn [map concat length].
  rewrite line_count_app, (render_table_lines t Ht), IH.
  unfold list_sum. cbn [fold_right]. lia.
Qed.

(** X10. The prompt has one line per column.  On a schema whose names,
    types and descriptions hold no line feed, every column, every
    relationship and every view is rendered as exactly one line and a
    table as four lines (a blank one, its heading, the two lines of the
    table head) followed by one line per column; the whole prompt has
    the seven lines of its three headings and one line more for each of
    those. *)
Theorem schema_prompt_line_count (sch : schema) :
  schema_single_line sch ->
  (forall t, In t (tables sch) ->
     line_count (render_table t) = 4 + length (snd t) /\
     forall c, In c (snd t) -> line_count (render_column c) = 1) /\
  (forall r, In r (relationships sch) -> line_count (render_relationship r) = 1) /\
  (forall v, In v (views sch) -> line_count (render_view v) = 1) /\
  line_count (generate_schema_prompt sch) =
    7 + 4 * length (tables sch)
      + list_sum (map (fun t => length (snd t)) (tables sch))
      + length (relationships sch) + length (views sch).
Proof.
  intros (T & R & V). split; [| split; [| split]].
  - intros t I. pose proof (proj1 (Forall_forall _ _) T t I) as Ht.
    split; [now apply render_table_lines |].
    intros c J. apply render_column_one_line.
    exact (proj1 (Forall_forall _ _) (proj2 Ht) c J).
  - intros r I. apply render_relationship_one_line.
    exact (proj1 (Forall_forall _ _) R r I).
  - intros v I. apply render_view_one_line.
    exact (proj1 (Forall_forall _ _) V v I).
  - unfold generate_schema_prompt. rewrite !line_count_app.
    rewrite (render_tables_lines _ T).
    rewrite (line_count_concat_map render_relationship relationship_single_line
               _ render_relationship_one_line R).
    rewrite (line_count_concat_map render_view _ _ render_view_one_line V).
    change (line_count (lit "# Base de Datos - Esquema Completo")) with 0.
    change (line_count (lit "## Tablas y Columnas:")) with 0.
    change (line_count (lit "## Relaciones (Foreign Keys):")) with 0.
    change (line_count (lit "## Vistas Disponibles:")) with 0.
    change (line_count [LF; LF]) with 2. change (line_count [LF]) with 1.
    lia.
Qed.

Lemma schema_prompt_line_count_witness :
  schema_single_line shop_schema /\
  line_count (generate_schema_prompt shop_schema) = 20.
Proof.
  assert (S : schema_single_line shop_schema).
  { unfold schema_single_line, column_single_line, relationship_single_line,
      single_line.
    repeat split; repeat constructor; cbn;
      try (intros I; repeat (destruct I as [I | I]; [discriminate I |]); exact I). }
  split; [exact S |].
  destruct (schema_prompt_line_count shop_schema S) as (_ & _ & _ & E).
  rewrite E. reflexivity.
Defined.

(** ** What the SQL validator lets through *)

Lemma upper_app a b : upper (a ++ b) = upper a ++ upper b.
Proof. apply flat_map_app. Qed.

Lemma lstrip_app_keep u v : lstrip u <> [] -> lstrip (u ++ v) = lstrip u ++ v.
Proof.
  induction u as [|c u IH]; intros H; [now contradiction H |].
  cbn [lstrip app] in *. destruct (isspace c); [now apply IH | reflexivity].
Qed.

Lemma rstrip_is_prefix w : Prefix (rstrip w) w.
Proof.
  induction w as [|c w [r IH]]; [now exists [] |].
  cbn [rstrip]. destruct (rstrip w) as [|x t] eqn:E.
  - destruct (isspace c); [now exists (c :: w) | exists w; reflexivity].
  - exists r. cbn [app]. now rewrite IH at 1.
Qed.

Lemma rstrip_cons_keep c w : isspace c = false -> rstrip (c :: w) <> [].
Proof.
  intros H. cbn [rstrip]. destruct (rstrip w); [rewrite H |]; discriminate.
Qed.

Lemma Prefix_trans a b c : Prefix a b -> Prefix b c -> Prefix a c.
Proof. intros [r ->] [r' ->]. exists (r ++ r'). now rewrite app_assoc. Qed.

(** Text that passes the prefix test keeps passing it when something
    that starts with a visible character is appended. *)
Lemma select_prefix_app u c v :
  startswith (lit "SELECT") (strip u) = true ->
  isspace c = false ->
  startswith (lit "SELECT") (strip (u ++ c :: v)) = true.
Proof.
  intros H Hc. apply startswith_Prefix in H. apply startswith_Prefix.
  unfold strip in *.
  assert (N : lstrip u <> []).
  { intros E. rewrite E in H. destruct H as [r H]. discriminate. }
  rewrite lstrip_app_keep by exact N.
  rewrite rstrip_app_keep by now apply rstrip_cons_keep.
  eapply Prefix_trans; [exact H |].
  eapply Prefix_trans; [apply rstrip_is_prefix | apply Prefix_app_r].
Qed.

Lemma hits_any_app_sep words a c b :
  (forall k, In k words -> ~ In c k) ->
  hits_any words a = false ->
  hits_any words b = false ->
  hits_any words (a ++ c :: b) = false.
Proof.
  rewrite !hits_any_none. intros Hc Ha Hb k Hk S.
  apply Substring_app_sep in S as [S | S]; [| | now apply Hc].
  - exact (Ha k Hk S).
  - exact (Hb k Hk S).
Qed.

Lemma keywords_without_semicolon k :
  In k (forbidden_keywords ++ dangerous_functions) -> ~ In 59%N k.
Proof.
  intros H. cbn in H.
  repeat (destruct H as [<- | H];
          [cbn; intros I; repeat (destruct I as [I | I]; [discriminate I |]);
           exact I |]).
  destruct H.
Qed.

(** X11. The validator does not restrict a candidate to one statement:
    when it accepts [s], it also accepts [s] followed by a semicolon and
    any text in which none of its twelve keywords occurs. *)
Theorem validate_sql_accepts_stacked (s t : str) :
  _validate_sql s = true ->
  hits_any forbidden_keywords (upper t) = false ->
  hits_any dangerous_functions (upper t) = false ->
  _validate_sql (s ++ lit ";" ++ t) = true.
Proof.
  unfold _validate_sql. intros V K D.
  destruct (startswith (lit "SELECT") (strip (upper s))) eqn:P;
    cbn [negb] in V; [| discriminate].
  destruct (hits_any forbidden_keywords (upper s)) eqn:K1; [discriminate |].
  destruct (hits_any dangerous_functions (upper s)) eqn:D1; [discriminate |].
  change (s ++ lit ";" ++ t) with (s ++ 59%N :: t).
  rewrite upper_app. change (upper (59%N :: t)) with (59%N :: upper t).
  rewrite select_prefix_app by (exact P || reflexivity). cbn [negb].
  rewrite !hits_any_app_sep; try assumption; try reflexivity.
  - intros k H. apply keywords_without_semicolon, in_or_app. now right.
  - intros k H. apply keywords_without_semicolon, in_or_app. now left.
Qed.

Lemma validate_sql_accepts_stacked_witness :
  _validate_sql (lit "SELECT 1" ++ lit ";" ++ lit " SHUTDOWN WITH NOWAIT") = true.
Proof.
  apply validate_sql_accepts_stacked; vm_compute; reflexivity.
Defined.

(** ** Grouping the introspected columns by table *)

Lemma str_eqb_neq a b : str_eqb a b = false <-> a <> b.
Proof.
  rewrite <- str_eqb_eq. destruct (str_eqb a b); split; congruence.
Qed.

Lemma dict_has_get tables key :
  dict_has tables key = true <-> exists t, dict_get tables key = Some t.
Proof.
  induction tables as [|[k t] rest IH]; cbn [dict_has existsb dict_get fst].
  - split; [discriminate | intros [t H]; discriminate].
  - destruct (str_eqb k key); cbn [orb]; [| exact IH].
    split; [intros _; now exists t | reflexivity].
Qed.

Lemma dict_has_keys tables key :
  dict_has tables key = existsb (fun s => str_eqb s key) (map fst tables).
Proof.
  unfold dict_has. induction tables as [|kv rest IH]; [reflexivity |].
  cbn [existsb map]. now rewrite IH.
Qed.

Lemma dict_get_new tables key v k :
  dict_get (tables ++ [(key, v)]) k =
    match dict_get tables k with
    | Some t => Some t
    | None => if str_eqb key k then Some v else None
    end.
Proof.
  induction tables as [|[k' t] rest IH]; cbn [app dict_get]; [reflexivity |].
  destruct (str_eqb k' k); [reflexivity | exact IH].
Qed.

Lemma dict_get_append_column tables key c k :
  dict_get (dict_append_column tables key c) k =
    if str_eqb key k
    then option_map (fun t => add_columns t [c]) (dict_get tables k)
    else dict_get tables k.
Proof.
  induction tables as [|[k' t] rest IH]; cbn [dict_append_column dict_get].
  - now destruct (str_eqb key k).
  - destruct (str_eqb k' key) eqn:E1.
    + apply str_eqb_eq in E1. subst k'. cbn [dict_get].
      destruct (str_eqb key k); reflexivity.
    + cbn [dict_get]. destruct (str_eqb k' k) eqn:E2.
      * apply str_eqb_eq in E2. subst k'.
        destruct (str_eqb key k) eqn:E3; [| reflexivity].
        apply str_eqb_eq in E3. subst key. now rewrite str_eqb_refl in E1.
      * exact IH.
Qed.

Lemma dict_append_column_keys tables key c :
  map fst (dict_append_column tables key c) = map fst tables.
Proof.
  induction tables as [|[k t] rest IH]; [reflexivity |].
  cbn [dict_append_column]. destruct (str_eqb k key); cbn [map fst];
    [reflexivity | now rewrite IH].
Qed.

(** The entry of a key after the loop, from the entry before it. *)
Lemma tables_loop_get results tables k :
  dict_get (tables_loop results tables) k =
    match dict_get tables k with
    | Some t => Some (add_columns t (map column_info (rows_of k results)))
    | None =>
        match rows_of k results with
        | [] => None
        | row :: _ =>
            Some {| TableInfo.schema := TABLE_SCHEMA row;
                    TableInfo.name := TABLE_NAME row;
                    TableInfo.type := TABLE_TYPE row;
                    TableInfo.columns := map column_info (rows_of k results) |}
        end
    end.
Proof.
  revert tables. induction results as [|row results IH]; intros tables.
  - cbn [tables_loop rows_of filter map]. destruct (dict_get tables k) as [t|];
      [| reflexivity].
    unfold add_columns. rewrite app_nil_r. now destruct t.
  - cbn [tables_loop]. cbv zeta. rewrite IH, dict_get_append_column.
    unfold rows_of. cbn [filter]. fold (rows_of k results).
    destruct (str_eqb (table_key row) k) eqn:E.
    + apply str_eqb_eq in E. subst k.
      destruct (dict_has tables (table_key row)) eqn:H; cbn [negb].
      * apply dict_has_get in H as [t H]. rewrite H. cbn [option_map map].
        unfold add_columns. cbn [TableInfo.schema TableInfo.name TableInfo.type
                                  TableInfo.columns].
        now rewrite <- app_assoc.
      * rewrite dict_get_new, str_eqb_refl.
        destruct (dict_get tables (table_key row)) as [t|] eqn:G.
        -- assert (X : dict_has tables (table_key row) = true)
             by (apply dict_has_get; now exists t).
           congruence.
        -- reflexivity.
    + destruct (dict_has tables (table_key row)); cbn [negb]; [reflexivity |].
      rewrite dict_get_new, E. now destruct (dict_get tables k).
Qed.

(** X12. After [_get_tables_info] the entry of a table key holds the
    schema, name and type of the first fetched row with that key and one
    column per fetched row with that key, in the order fetched; a key no
    row has is absent. *)
Theorem get_tables_info_groups_rows (results : list columns_row) (k : str) :
  dict_get (_get_tables_info results) k =
    match rows_of k results with
    | [] => None
    | row :: _ =>
        Some {| TableInfo.schema := TABLE_SCHEMA row;
                TableInfo.name := TABLE_NAME row;
                TableInfo.type := TABLE_TYPE row;
                TableInfo.columns := map column_info (rows_of k results) |}
    end.
Proof. unfold _get_tables_info. now rewrite tables_loop_get. Qed.

Lemma tables_loop_keys results tables :
  map fst (tables_loop results tables) =
    map fst tables ++ first_seen (map fst tables) (map table_key results).
Proof.
  revert tables. induction results as [|row results IH]; intros tables.
  - cbn. now rewrite app_nil_r.
  - cbn [tables_loop map first_seen]. cbv zeta.
    rewrite IH, dict_append_column_keys, <- dict_has_keys.
    destruct (dict_has tables (table_key row)); cbn [negb]; [reflexivity |].
    rewrite map_app. cbn [map fst]. now rewrite <- app_assoc.
Qed.

Lemma existsb_str_In seen k : existsb (fun s => str_eqb s k) seen = true <-> In k seen.
Proof.
  rewrite existsb_exists. split.
  - intros [s [H E]]. apply str_eqb_eq in E. now subst.
  - intros H. exists k. split; [exact H | apply str_eqb_refl].
Qed.

Lemma first_seen_NoDup seen keys : NoDup seen -> NoDup (seen ++ first_seen seen keys).
Proof.
  revert seen. induction keys as [|k keys IH]; intros seen N.
  - cbn. now rewrite app_nil_r.
  - cbn [first_seen]. destruct (existsb (fun s => str_eqb s k) seen) eqn:E.
    + now apply IH.
    + change (k :: first_seen (seen ++ [k]) keys)
        with ([k] ++ first_seen (seen ++ [k]) keys).
      rewrite app_assoc. apply IH.
      apply NoDup_app; [exact N | repeat constructor; intros [] |].
      intros x Hx [<- | []].
      apply existsb_str_In in Hx. congruence.
Qed.

Lemma first_seen_In seen keys k :
  In k (seen ++ first_seen seen keys) <-> In k seen \/ In k keys.
Proof.
  revert seen. induction keys as [|x keys IH]; intros seen.
  - cbn. rewrite app_nil_r. tauto.
  - cbn [first_seen]. destruct (existsb (fun s => str_eqb s x) seen) eqn:E.
    + rewrite IH. cbn [In]. apply existsb_str_In in E.
      split; [tauto | intros [H | [<- | H]]; tauto].
    + change (x :: first_seen (seen ++ [x]) keys)
        with ([x] ++ first_seen (seen ++ [x]) keys).
      rewrite app_assoc, IH, in_app_iff. cbn [In]. tauto.
Qed.

(** X13. The dict of [_get_tables_info] lists every table key once, in
    the order in which the keys first appear among the fetched rows, and
    has a key exactly for the tables some row belongs to. *)
Theorem get_tables_info_keys (results : list columns_row) :
  NoDup (map fst (_get_tables_info results)) /\
  map fst (_get_tables_info results) = first_seen [] (map table_key results) /\
  (forall k, In k (map fst (_get_tables_info results)) <->
             exists row, In row results /\ table_key row = k).
Proof.
  unfold _get_tables_info. rewrite tables_loop_keys. cbn [map app].
  split; [| split].
  - apply (first_seen_NoDup [] (map table_key results)). constructor.
  - reflexivity.
  - intros k. rewrite (first_seen_In [] (map table_key results) k).
    rewrite in_map_iff. cbn [In]. split.
    + intros [[] | [row [E H]]]. now exists row.
    + intros [row [H E]]. right. now exists row.
Qed.

Lemma column_count_app a b : column_count (a ++ b) = column_count a + column_count b.
Proof. unfold column_count. now rewrite map_app, list_sum_app. Qed.

Lemma column_count_cons k t rest :
  column_count ((k, t) :: rest) = length (TableInfo.columns t) + column_count rest.
Proof. reflexivity. Qed.

Lemma column_count_append tables key c :
  dict_has tables key = true ->
  column_count (dict_append_column tables key c) = S (column_count tables).
Proof.
  unfold dict_has.
  induction tables as [|[k t] rest IH]; [discriminate |].
  cbn [existsb fst dict_append_column]. destruct (str_eqb k key); cbn [orb].
  - intros _. rewrite !column_count_cons. cbn [TableInfo.columns].
    rewrite length_app. cbn [length]. lia.
  - intros H. rewrite !column_count_cons, (IH H). lia.
Qed.

Lemma tables_loop_count results tables :
  column_count (tables_loop results tables) = column_count tables + length results.
Proof.
  revert tables. induction results as [|row results IH]; intros tables.
  - cbn [tables_loop length]. lia.
  - cbn [tables_loop length]. cbv zeta. rewrite IH.
    destruct (dict_has tables (table_key row)) eqn:H; cbn [negb].
    + rewrite column_count_append by exact H. lia.
    + rewrite column_count_append.
      * rewrite column_count_app, column_count_cons.
        cbn [TableInfo.columns length]. change (column_count []) with 0. lia.
      * unfold dict_has. rewrite existsb_app. cbn [existsb fst].
        now rewrite str_eqb_refl, orb_true_r.
Qed.

(** X14. No fetched row is lost or counted twice: the tables of
    [_get_tables_info] have, together, as many columns as rows were
    fetched. *)
Theorem get_tables_info_column_count (results : list columns_row) :
  column_count (_get_tables_info results) = length results.
Proof. unfold _get_tables_info. now rewrite tables_loop_count. Qed.

(** ** One bot per Slack message *)

(** X15. When one of the three environment variables is missing,
    [process_slack_message] raises the [KeyError] of a missing one
    before anything else happens: no client is built, no introspection,
    no completion, no log line. *)
Theorem process_slack_message_missing_variable (AzureOpenAI : client_constructor)
    (W : World) (env : environ) (q uid : str) (st : state) :
  (exists name, In name required_variables /\ env name = None) ->
  exists name,
    In name required_variables /\ env name = None /\
    process_slack_message AzureOpenAI W env q uid st = (Raise (KeyError name), st).
Proof.
  intros [name [I N]].
  unfold process_slack_message, environ_getitem, bind, ret, raise.
  destruct (env (lit "OPENAI_API_KEY")) eqn:E1.
  2:{ exists (lit "OPENAI_API_KEY"). cbn. auto. }
  destruct (env (lit "OPENAI_ENDPOINT")) eqn:E2.
  2:{ exists (lit "OPENAI_ENDPOINT"). cbn. auto. }
  destruct (env (lit "DATABASE_CONNECTION_STRING")) eqn:E3.
  2:{ exists (lit "DATABASE_CONNECTION_STRING"). cbn. auto 6. }
  exfalso. destruct I as [<- | [<- | [<- | []]]]; congruence.
Qed.

Lemma process_slack_message_missing_variable_witness :
  exists name,
    process_slack_message accepts_credentials world_db_down
      (fun k => if str_eqb k (lit "OPENAI_API_KEY") then Some (lit "key") else None)
      (lit "show all customers") (lit "U42") fresh_bot
    = (Raise (KeyError name), fresh_bot).
Proof.
  destruct (process_slack_message_missing_variable accepts_credentials world_db_down
              (fun k => if str_eqb k (lit "OPENAI_API_KEY") then Some (lit "key") else None)
              (lit "show all customers") (lit "U42") fresh_bot)
    as (name & _ & _ & E).
  - exists (lit "OPENAI_ENDPOINT"). split; [cbn; auto | reflexivity].
  - now exists name.
Defined.

(** X16. With the three variables set, every Slack message first builds
    the client from the key and the endpoint.  When that constructor
    raises, its exception leaves [process_slack_message] at once: the
    database is not introspected, nothing is logged and the question is
    never looked at.  When it returns, the database is introspected once
    and the message is then processed as a question by a bot whose
    schema prompt is the result of that load: the rendering of the
    schema, or the empty string when introspection raised. *)
Theorem process_slack_message_loads_then_asks (AzureOpenAI : client_constructor)
    (W : World) (env : environ) (q uid : str) (st : state) :
  (forall name, In name required_variables -> env name <> None) ->
  exists key endpoint,
    env (lit "OPENAI_API_KEY") = Some key /\
    env (lit "OPENAI_ENDPOINT") = Some endpoint /\
    (forall refused,
        AzureOpenAI key (lit "2024-02-15-preview") endpoint = Raise refused ->
        process_slack_message AzureOpenAI W env q uid st = (Raise refused, st)) /\
    (AzureOpenAI key (lit "2024-02-15-preview") endpoint = Return tt ->
     exists p events,
       _load_schema W st =
         (Return p, {| schema_prompt := schema_prompt st; trace := trace st ++ events |}) /\
       count (fun ev => match ev with Introspect => true | _ => false end) events = 1 /\
       (forall cause, introspect W = Raise cause -> p = []) /\
       (forall sch, introspect W = Return sch -> p = generate_schema_prompt sch) /\
       process_slack_message AzureOpenAI W env q uid st =
         process_user_question W q (Some uid)
           {| schema_prompt := p; trace := trace st ++ events |}).
Proof.
  intros H.
  assert (E : forall name, In name required_variables -> exists v, env name = Some v).
  { intros name I. specialize (H name I). destruct (env name); [now eexists | contradiction]. }
  destruct (E (lit "OPENAI_API_KEY")) as [v1 E1]; [cbn; auto |].
  destruct (E (lit "OPENAI_ENDPOINT")) as [v2 E2]; [cbn; auto |].
  destruct (E (lit "DATABASE_CONNECTION_STRING")) as [v3 E3]; [cbn; auto 6 |].
  exists v1, v2. split; [exact E1 |]. split; [exact E2 |].
  unfold process_slack_message, environ_getitem, SQLChatBot__init__.
  rewrite E1, E2, E3.
  unfold _load_schema, get_complete_schema, try_except, bind, ret, raise, lift,
    emit, set_schema_prompt.
  cbn [trace schema_prompt].
  split.
  - intros refused R. rewrite R. reflexivity.
  - intros R. rewrite R.
    destruct (introspect W) as [sch | cause]; cbn [trace schema_prompt].
    + exists (generate_schema_prompt sch), [Introspect].
      split; [reflexivity |]. split; [reflexivity |].
      split; [discriminate |]. split; [| reflexivity].
      intros s J. now injection J as <-.
    + exists [], [Introspect; Log ERROR (lit "Error getting schema: " ++ cause);
                  Log ERROR (lit "Error loading schema: " ++ cause)].
      split; [now rewrite <- !app_assoc |]. split; [reflexivity |].
      split; [reflexivity |]. split; [discriminate |].
      now rewrite <- !app_assoc.
Qed.

Lemma process_slack_message_loads_then_asks_witness :
  (exists env st',
      process_slack_message accepts_credentials world_db_down (fun _ => Some (lit "set"))
        (lit "show all customers") (lit "U42") fresh_bot = (Return env, st') /\
      In (Completion [] (lit "show all customers")) (trace st')) /\
  process_slack_message refuses_credentials world_db_down (fun _ => Some [])
    (lit "show all customers") (lit "U42") fresh_bot =
    (Raise missing_credentials, fresh_bot).
Proof.
  split.
  - destruct (process_slack_message_loads_then_asks accepts_credentials world_db_down
                (fun _ => Some (lit "set")) (lit "show all customers") (lit "U42")
                fresh_bot) as (key & endpoint & _ & _ & _ & L); [discriminate |].
    destruct (L eq_refl) as (p & events & _ & _ & P & _ & E).
    rewrite (P login_failed eq_refl) in E.
    destruct (process_user_question_exit world_db_down (lit "show all customers")
                (Some (lit "U42"))
                {| schema_prompt := []; trace := trace fresh_bot ++ events |})
      as (env & new & R & X).
    rewrite R in E. eexists _, _. split; [exact E |].
    cbn [trace schema_prompt] in *. apply in_or_app. right.
    destruct X as [HQ | | | | | |]; try (now left).
    vm_compute in HQ. discriminate.
  - destruct (process_slack_message_loads_then_asks refuses_credentials world_db_down
                (fun _ => Some []) (lit "show all customers") (lit "U42")
                fresh_bot) as (key & endpoint & K & _ & F & _); [discriminate |].
    apply F. injection K as <-. reflexivity.
Defined.

(** ** The message handler *)

Ltac run_chat :=
  cbv [on_message_activity _refresh_schema _send_sql_response _send_error_response
       tbind tret traise ttry call_bot handler_logger save_changes];
  cbn [bot outbox handler_log saves].

Lemma send_reliable C a ch :
  reliable C ->
  send C a ch =
    (Return tt, {| bot := bot ch; outbox := outbox ch ++ [a];
                   handler_log := handler_log ch; saves := saves ch |}).
Proof. intros R. unfold send. now rewrite R. Qed.

Lemma refresh_schema_returns_true W st : fst (refresh_schema W st) = Return true.
Proof. run_bot. now destruct (introspect W). Qed.

Lemma refresh_schema_failure_prompt W st cause :
  introspect W = Raise cause -> schema_prompt (snd (refresh_schema W st)) = [].
Proof. intros E. run_bot. now rewrite E. Qed.

(** The three command prefixes exclude one another. *)
Lemma dispatch_prefix (m : str) :
  (startswith (lit "/help") (lower m) = true -> dispatch m = Help) /\
  (startswith (lit "/refresh") (lower m) = true -> dispatch m = Refresh) /\
  (startswith (lit "/examples") (lower m) = true -> dispatch m = Examples).
Proof.
  unfold dispatch.
  change (lit "/help") with [47; 104; 101; 108; 112]%N.
  change (lit "/refresh") with [47; 114; 101; 102; 114; 101; 115; 104]%N.
  change (lit "/examples") with [47; 101; 120; 97; 109; 112; 108; 101; 115]%N.
  destruct (lower m) as [|a [|b l]]; cbn [startswith];
    [repeat split; discriminate
    | repeat split; rewrite ?andb_false_r; discriminate |].
  destruct (N.eqb 47 a); cbn [andb]; [| repeat split; discriminate].
  destruct (N.eqb 104 b) eqn:H; destruct (N.eqb 114 b) eqn:R;
    destruct (N.eqb 101 b) eqn:E; cbn [andb];
    try (apply N.eqb_eq in H; subst b; vm_compute in R, E; discriminate);
    try (apply N.eqb_eq in R; subst b; vm_compute in E; discriminate);
    repeat split; intros X; try discriminate; try reflexivity;
    rewrite X; reflexivity.
Qed.

Lemma handler_canned C W act text ch :
  reliable C ->
  activity_text act = Some text ->
  (dispatch (strip text) = Help ->
   on_message_activity C W act ch =
     (Return tt,
      {| bot := bot ch; outbox := outbox ch ++ [Canned HelpText];
         handler_log := handler_log ch ++ [received act text];
         saves := saves ch |})) /\
  (dispatch (strip text) = Examples ->
   on_message_activity C W act ch =
     (Return tt,
      {| bot := bot ch; outbox := outbox ch ++ [Canned ExamplesText];
         handler_log := handler_log ch ++ [received act text];
         saves := saves ch |})).
Proof.
  intros R T.
  split; intros D; run_chat; rewrite T; cbn [bot outbox handler_log saves];
    rewrite D, send_reliable by exact R; reflexivity.
Qed.

Lemma handler_refresh C W act text ch :
  reliable C ->
  activity_text act = Some text ->
  dispatch (strip text) = Refresh ->
  on_message_activity C W act ch =
    (Return tt,
     {| bot := snd (refresh_schema W (bot ch));
        outbox := outbox ch ++ [Message refresh_started; Message refresh_succeeded];
        handler_log := handler_log ch ++ [received act text];
        saves := saves ch |}).
Proof.
  intros R T D. run_chat. rewrite T. cbn [bot outbox handler_log saves].
  rewrite D, send_reliable by exact R. cbn [bot outbox handler_log saves].
  pose proof (refresh_schema_returns_true W (bot ch)) as F.
  destruct (refresh_schema W (bot ch)) as [r st']. cbn [fst snd] in *. subst r.
  rewrite send_reliable by exact R. cbn [bot outbox handler_log saves].
  now rewrite <- app_assoc.
Qed.

Lemma handler_no_text C W act ch :
  reliable C ->
  activity_text act = None ->
  on_message_activity C W act ch =
    (Return tt,
     {| bot := bot ch;
        outbox := outbox ch ++ [Message (error_text generic_error)];
        handler_log := handler_log ch ++
          [(ERROR, lit "Error in on_message_activity: "
                     ++ lit "'NoneType' object has no attribute 'strip'")];
        saves := saves ch ++ [ConversationSaved; UserSaved] |}).
Proof.
  intros R T. run_chat. rewrite T. cbn [bot outbox handler_log saves].
  rewrite send_reliable by exact R. cbn [bot outbox handler_log saves].
  now rewrite <- app_assoc.
Qed.

Lemma handler_question C W act text ch env st' :
  reliable C ->
  activity_text act = Some text ->
  dispatch (strip text) = Question ->
  process_user_question W (strip text) (Some (from_property_id act)) (bot ch) =
    (Return env, st') ->
  exists log,
    on_message_activity C W act ch =
      (Return tt,
       {| bot := st';
          outbox := outbox ch ++ TypingIndicator :: replies env;
          handler_log := log;
          saves := saves ch ++ [ConversationSaved; UserSaved] |}).
Proof.
  intros R T D E. run_chat. rewrite T. cbn [bot outbox handler_log saves].
  rewrite D, send_reliable by exact R. cbn [bot outbox handler_log saves].
  rewrite E. unfold replies.
  destruct (success env); [destruct (data env) |];
    repeat (rewrite send_reliable by exact R; cbn [bot outbox handler_log saves]);
    eexists; rewrite <- ?app_assoc; reflexivity.
Qed.

(** X17. [/help] and [/examples], in any letter case and with anything
    after them, are answered with the fixed text and nothing else: the
    SQL bot is not touched, and the conversation and user state are not
    saved, because the handler returns from inside its [try]. *)
Theorem help_and_examples_bypass_bot (C : Channel) (W : World) (act : incoming)
    (text : str) (ch : chat) :
  reliable C ->
  activity_text act = Some text ->
  (startswith (lit "/help") (lower (strip text)) = true ->
   on_message_activity C W act ch =
     (Return tt,
      {| bot := bot ch;
         outbox := outbox ch ++ [Canned HelpText];
         handler_log := handler_log ch ++
           [(INFO, lit "Received message from " ++ from_property_id act
                     ++ lit ": " ++ strip text)];
         saves := saves ch |})) /\
  (startswith (lit "/examples") (lower (strip text)) = true ->
   on_message_activity C W act ch =
     (Return tt,
      {| bot := bot ch;
         outbox := outbox ch ++ [Canned ExamplesText];
         handler_log := handler_log ch ++
           [(INFO, lit "Received message from " ++ from_property_id act
                     ++ lit ": " ++ strip text)];
         saves := saves ch |})).
Proof.
  intros R T. destruct (dispatch_prefix (strip text)) as (DH & _ & DE).
  destruct (handler_canned C W act text ch R T) as [H E].
  split; intros P; [apply H, DH, P | apply E, DE, P].
Qed.

Lemma help_and_examples_bypass_bot_witness :
  let ch := {| bot := fresh_bot; outbox := []; handler_log := []; saves := [] |} in
  let C := {| send_activity := fun _ _ => Return tt |} in
  exists ch',
    on_message_activity C (world_customers 3)
      {| activity_text := Some (lit "  /HELP me "); from_property_id := lit "U42" |} ch
    = (Return tt, ch') /\
    outbox ch' = [Canned HelpText] /\ bot ch' = fresh_bot /\ saves ch' = [].
Proof.
  cbv zeta.
  destruct (help_and_examples_bypass_bot
              {| send_activity := fun _ _ => Return tt |} (world_customers 3)
              {| activity_text := Some (lit "  /HELP me "); from_property_id := lit "U42" |}
              (lit "  /HELP me ")
              {| bot := fresh_bot; outbox := []; handler_log := []; saves := [] |})
    as [H _]; [intros s a; reflexivity | reflexivity |].
  eexists. split; [apply H; vm_compute; reflexivity |].
  repeat split.
Defined.

(** X18. [/refresh] always ends with the message that the schema was
    updated, also when introspection failed and the bot was left with an
    empty schema prompt; the failure messages of [_refresh_schema] are
    never sent.  The command runs no query and does not save the
    conversation and user state. *)
Theorem refresh_command_always_reports_success (C : Channel) (W : World)
    (act : incoming) (text : str) (ch : chat) :
  reliable C ->
  activity_text act = Some text ->
  startswith (lit "/refresh") (lower (strip text)) = true ->
  exists ch',
    on_message_activity C W act ch = (Return tt, ch') /\
    outbox ch' = outbox ch ++ [Message refresh_started; Message refresh_succeeded] /\
    bot ch' = snd (refresh_schema W (bot ch)) /\
    (forall cause, introspect W = Raise cause -> schema_prompt (bot ch') = []) /\
    saves ch' = saves ch.
Proof.
  intros R T P. destruct (dispatch_prefix (strip text)) as (_ & DR & _).
  eexists. split; [apply (handler_refresh C W act text ch R T (DR P)) |].
  cbn [bot outbox saves]. split; [reflexivity |]. split; [reflexivity |].
  split; [| reflexivity].
  intros cause E. now apply refresh_schema_failure_prompt with (cause := cause).
Qed.

Lemma refresh_command_always_reports_success_witness :
  exists ch',
    on_message_activity {| send_activity := fun _ _ => Return tt |} world_db_down
      {| activity_text := Some (lit "/refresh"); from_property_id := lit "U42" |}
      {| bot := fresh_bot; outbox := []; handler_log := []; saves := [] |}
    = (Return tt, ch') /\
    outbox ch' = [Message refresh_started; Message refresh_succeeded] /\
    schema_prompt (bot ch') = [].
Proof.
  destruct (refresh_command_always_reports_success
              {| send_activity := fun _ _ => Return tt |} world_db_down
              {| activity_text := Some (lit "/refresh"); from_property_id := lit "U42" |}
              (lit "/refresh")
              {| bot := fresh_bot; outbox := []; handler_log := []; saves := [] |})
    as (ch' & E & O & _ & P & _).
  - intros s a. reflexivity.
  - reflexivity.
  - vm_compute. reflexivity.
  - exists ch'. split; [exact E |]. split; [exact O |].
    apply (P login_failed). reflexivity.
Defined.

(** X19. A message that is no command is answered, over a reliable
    channel, with the typing indicator and then either the result text
    and the details message (success) or one error message built from
    the envelope's error (failure); the question given to the SQL bot is
    the stripped text, and both states are saved afterwards. *)
Theorem question_is_answered_from_envelope (C : Channel) (W : World)
    (act : incoming) (text : str) (ch : chat) :
  reliable C ->
  activity_text act = Some text ->
  dispatch (strip text) = Question ->
  exists env st' ch',
    process_user_question W (strip text) (Some (from_property_id act)) (bot ch) =
      (Return env, st') /\
    on_message_activity C W act ch = (Return tt, ch') /\
    bot ch' = st' /\
    saves ch' = saves ch ++ [ConversationSaved; UserSaved] /\
    ((success env = true /\
      exists payload,
        data env = Some payload /\
        outbox ch' = outbox ch ++
          [TypingIndicator; Message (Response.text payload);
           Message (info_text payload)]) \/
     (success env = false /\
      exists msg,
        error env = Some msg /\
        outbox ch' = outbox ch ++ [TypingIndicator; Message (error_text msg)])).
Proof.
  intros R T D.
  destruct (process_user_question_exit W (strip text)
              (Some (from_property_id act)) (bot ch)) as (env & new & E & X).
  destruct (handler_question C W act text ch env _ R T D E) as [log H].
  eexists env, _, _. split; [exact E |]. split; [exact H |].
  cbn [bot outbox saves]. split; [reflexivity |]. split; [reflexivity |].
  unfold replies. destruct X; cbn [success data error failure format_error];
    first [ left; split; [reflexivity |]; eexists; split; reflexivity
          | right; split; [reflexivity |]; eexists; split; reflexivity ].
Qed.

Lemma question_is_answered_from_envelope_witness :
  exists ch',
    on_message_activity {| send_activity := fun _ _ => Return tt |} world_db_down
      {| activity_text := Some (lit " hola "); from_property_id := lit "U42" |}
      {| bot := fresh_bot; outbox := []; handler_log := []; saves := [] |}
    = (Return tt, ch') /\
    saves ch' = [ConversationSaved; UserSaved] /\
    length (outbox ch') = 2.
Proof.
  destruct (question_is_answered_from_envelope
              {| send_activity := fun _ _ => Return tt |} world_db_down
              {| activity_text := Some (lit " hola "); from_property_id := lit "U42" |}
              (lit " hola ")
              {| bot := fresh_bot; outbox := []; handler_log := []; saves := [] |})
    as (env & st' & ch' & E & H & _ & S & O).
  - intros s a. reflexivity.
  - reflexivity.
  - vm_compute. reflexivity.
  - exists ch'. split; [exact H |]. split; [exact S |].
    destruct O as [[Ok _] | [_ (msg & _ & O)]].
    + vm_compute in E. injection E as <- _. discriminate.
    + rewrite O. reflexivity.
Defined.

(** X20. Over a reliable channel the handler never raises and never
    stays silent: every incoming activity, with or without text, is
    answered with at least one activity that is not the typing
    indicator. *)
Theorem every_activity_is_answered (C : Channel) (W : World) (act : incoming)
    (ch : chat) :
  reliable C ->
  exists ch' new a,
    on_message_activity C W act ch = (Return tt, ch') /\
    outbox ch' = outbox ch ++ new /\
    In a new /\ a <> TypingIndicator.
Proof.
  intros R. destruct (activity_text act) as [text |] eqn:T.
  2:{ eexists _, _, _. split; [apply (handler_no_text C W act ch R T) |].
      cbn [outbox]. split; [reflexivity |]. split; [now left | discriminate]. }
  destruct (dispatch (strip text)) eqn:D.
  - eexists _, _, _. split; [apply (proj1 (handler_canned C W act text ch R T) D) |].
    cbn [outbox]. split; [reflexivity |]. split; [now left | discriminate].
  - eexists _, _, _. split; [apply (handler_refresh C W act text ch R T D) |].
    cbn [outbox]. split; [reflexivity |]. split; [now left | discriminate].
  - eexists _, _, _. split; [apply (proj2 (handler_canned C W act text ch R T) D) |].
    cbn [outbox]. split; [reflexivity |]. split; [now left | discriminate].
  - destruct (process_user_question_exit W (strip text)
                (Some (from_property_id act)) (bot ch)) as (env & new & E & _).
    destruct (handler_question C W act text ch env _ R T D E) as [log H].
    assert (N : exists a, In a (replies env) /\ a <> TypingIndicator).
    { unfold replies. destruct (success env); [destruct (data env) |];
        eexists; (split; [now left | discriminate]). }
    destruct N as (a & I & N).
    eexists _, _, a. split; [exact H |].
    cbn [outbox]. split; [reflexivity |]. split; [now right | exact N].
Qed.

Lemma every_activity_is_answered_witness :
  exists ch' new a,
    on_message_activity {| send_activity := fun _ _ => Return tt |} world_db_down
      {| activity_text := None; from_property_id := lit "U42" |}
      {| bot := fresh_bot; outbox := []; handler_log := []; saves := [] |}
    = (Return tt, ch') /\
    outbox ch' = [] ++ new /\ In a new /\ a <> TypingIndicator.
Proof.
  apply (every_activity_is_answered
           {| send_activity := fun _ _ => Return tt |} world_db_down
           {| activity_text := None; from_property_id := lit "U42" |}
           {| bot := fresh_bot; outbox := []; handler_log := []; saves := [] |}).
  intros s a. reflexivity.
Defined.

(** X21. An activity without text is answered with the generic error
    message: the [AttributeError] is caught, the SQL bot is not touched,
    and both states are saved. *)
Theorem activity_without_text (C : Channel) (W : World) (act : incoming) (ch : chat) :
  reliable C ->
  activity_text act = None ->
  exists ch',
    on_message_activity C W act ch = (Return tt, ch') /\
    bot ch' = bot ch /\
    outbox ch' = outbox ch ++ [Message (error_text generic_error)] /\
    saves ch' = saves ch ++ [ConversationSaved; UserSaved].
Proof.
  intros R T. eexists. split; [apply (handler_no_text C W act ch R T) |].
  repeat split.
Qed.

Lemma activity_without_text_witness :
  exists ch',
    on_message_activity {| send_activity := fun _ _ => Return tt |} (world_customers 3)
      {| activity_text := None; from_property_id := lit "U42" |}
      {| bot := fresh_bot; outbox := []; handler_log := []; saves := [] |}
    = (Return tt, ch') /\
    bot ch' = fresh_bot /\
    outbox ch' = [Message (error_text generic_error)] /\
    saves ch' = [ConversationSaved; UserSaved].
Proof.
  apply (activity_without_text
           {| send_activity := fun _ _ => Return tt |} (world_customers 3)
           {| activity_text := None; from_property_id := lit "U42" |}
           {| bot := fresh_bot; outbox := []; handler_log := []; saves := [] |}).
  - intros s a. reflexivity.
  - reflexivity.
Defined.

(** X22. When the typing indicator cannot be delivered, the question is
    never given to the SQL bot.  The handler then tries the generic
    error message: if that is delivered it returns and saves both
    states, if not the exception leaves the handler and nothing is
    saved. *)
Theorem undelivered_typing_skips_bot (C : Channel) (W : World) (act : incoming)
    (text : str) (ch : chat) (e : exn) :
  activity_text act = Some text ->
  dispatch (strip text) = Question ->
  send_activity C (outbox ch) TypingIndicator = Raise e ->
  exists r ch',
    on_message_activity C W act ch = (r, ch') /\
    bot ch' = bot ch /\
    (send_activity C (outbox ch) (Message (error_text generic_error)) = Return tt ->
     r = Return tt /\
     outbox ch' = outbox ch ++ [Message (error_text generic_error)] /\
     saves ch' = saves ch ++ [ConversationSaved; UserSaved]) /\
    (forall e',
        send_activity C (outbox ch) (Message (error_text generic_error)) = Raise e' ->
        r = Raise e' /\ outbox ch' = outbox ch /\ saves ch' = saves ch).
Proof.
  intros T D F. run_chat. rewrite T. cbn [bot outbox handler_log saves].
  rewrite D. unfold send at 1. cbn [bot outbox handler_log saves]. rewrite F.
  unfold send. cbn [bot outbox handler_log saves].
  destruct (send_activity C (outbox ch) (Message (error_text generic_error)))
    as [[] | e'] eqn:G; cbn [bot outbox handler_log saves].
  - eexists _, _. split; [reflexivity |]. cbn [bot outbox saves].
    split; [reflexivity |]. split; [| discriminate].
    intros _. rewrite <- app_assoc. repeat split.
  - eexists _, _. split; [reflexivity |]. cbn [bot outbox saves].
    split; [reflexivity |]. split; [discriminate |].
    intros x X. injection X as <-. repeat split.
Qed.

Lemma undelivered_typing_skips_bot_witness :
  exists r ch',
    on_message_activity
      {| send_activity := fun _ a => match a with
                                     | TypingIndicator => Raise (lit "timeout")
                                     | _ => Return tt
                                     end |}
      (world_customers 3)
      {| activity_text := Some (lit "show all customers"); from_property_id := lit "U42" |}
      {| bot := fresh_bot; outbox := []; handler_log := []; saves := [] |}
    = (r, ch') /\
    bot ch' = fresh_bot /\ r = Return tt.
Proof.
  destruct (undelivered_typing_skips_bot
              {| send_activity := fun _ a => match a with
                                             | TypingIndicator => Raise (lit "timeout")
                                             | _ => Return tt
                                             end |}
              (world_customers 3)
              {| activity_text := Some (lit "show all customers");
                 from_property_id := lit "U42" |}
              (lit "show all customers")
              {| bot := fresh_bot; outbox := []; handler_log := []; saves := [] |}
              (lit "timeout"))
    as (r & ch' & E & B & S & _).
  - reflexivity.
  - vm_compute. reflexivity.
  - reflexivity.
  - exists r, ch'. split; [exact E |]. split; [exact B |].
    apply S. reflexivity.
Defined.

(** X23. The SQL echoed in the details message is the whole SQL when it
    has at most 100 characters, and otherwise its first 100 characters
    followed by three dots: never more than 103 characters. *)
Theorem sql_preview_bounded (sql : str) :
  length (sql_preview sql) <= 103 /\
  Prefix (firstn 100 sql) (sql_preview sql) /\
  (length sql <= 100 -> sql_preview sql = sql) /\
  (100 < length sql ->
   sql_preview sql = firstn 100 sql ++ lit "..." /\ length (sql_preview sql) = 103).
Proof.
  unfold sql_preview, clip.
  destruct (Nat.ltb_spec 100 (length sql)) as [L | L].
  - rewrite length_app, length_firstn. change (length (lit "...")) with 3.
    repeat split; try lia. apply Prefix_app_r.
  - rewrite app_nil_r, firstn_all2 by exact L.
    repeat split; try lia. exists []. now rewrite app_nil_r.
Qed.

(** The preview counts characters: a statement of exactly 100 characters,
    three of them accented, is shown whole. *)
Lemma sql_preview_counts_characters :
  let sql := lit "SELECT á, é, í FROM tabla_con_un_nombre_bastante_largo WHERE columna_uno = 1 AND columna_dos = 22222" in
  length sql = 100 /\ sql_preview sql = sql /\
  sql_preview (sql ++ lit "3") = sql ++ lit "...".
Proof. repeat split; vm_compute; reflexivity. Qed.

Lemma members_added_reliable C members recipient ch :
  reliable C ->
  on_members_added_activity C members recipient ch =
    (Return tt,
     {| bot := bot ch;
        outbox := outbox ch ++
          repeat (Canned WelcomeText)
            (length (filter (fun m => negb (str_eqb m recipient)) members));
        handler_log := handler_log ch;
        saves := saves ch |}).
Proof.
  intros R. revert ch. induction members as [|m members IH]; intros ch.
  - cbn. rewrite app_nil_r. now destruct ch.
  - cbn [on_members_added_activity filter]. unfold tbind.
    destruct (negb (str_eqb m recipient)).
    + rewrite send_reliable by exact R. rewrite IH.
      cbn [bot outbox handler_log saves length repeat].
      now rewrite <- app_assoc.
    + unfold tret. apply IH.
Qed.

(** X24. When members are added, the bot sends one welcome message per
    added member other than itself and none for itself; it touches
    neither the SQL bot nor the saved states. *)
Theorem welcome_per_new_member (C : Channel) (members : list str)
    (recipient : str) (ch : chat) :
  reliable C ->
  exists ch',
    on_members_added_activity C members recipient ch = (Return tt, ch') /\
    outbox ch' = outbox ch ++
      repeat (Canned WelcomeText)
        (length (filter (fun m => negb (str_eqb m recipient)) members)) /\
    (members = [recipient] -> outbox ch' = outbox ch) /\
    bot ch' = bot ch /\ saves ch' = saves ch.
Proof.
  intros R. eexists. split; [now apply members_added_reliable |].
  cbn [bot outbox saves]. repeat split.
  intros ->. cbn [filter]. rewrite str_eqb_refl. cbn. now rewrite app_nil_r.
Qed.

Lemma welcome_per_new_member_witness :
  exists ch',
    on_members_added_activity {| send_activity := fun _ _ => Return tt |}
      [lit "bot"; lit "U1"; lit "U2"] (lit "bot")
      {| bot := fresh_bot; outbox := []; handler_log := []; saves := [] |}
    = (Return tt, ch') /\
    outbox ch' = [Canned WelcomeText; Canned WelcomeText].
Proof.
  destruct (welcome_per_new_member {| send_activity := fun _ _ => Return tt |}
              [lit "bot"; lit "U1"; lit "U2"] (lit "bot")
              {| bot := fresh_bot; outbox := []; handler_log := []; saves := [] |})
    as (ch' & E & O & _).
  - intros s a. reflexivity.
  - exists ch'. split; [exact E |]. rewrite O. reflexivity.
Defined.

(** ** Two more exits *)

(** X25. A query that returns no row is a success, not an error: the
    envelope carries the fixed no-results sentence with row count 0, and
    the audit record is written with result count 0. *)
Theorem empty_result_is_success (W : World) (q : str) (uid : option str)
    (st : state) (content sql : str) :
  _is_valid_question q = true ->
  chat_completion W (schema_prompt st) q = Return content ->
  _clean_sql_response (strip content) = sql ->
  sql <> [] ->
  _validate_sql sql = true ->
  read_sql W sql = Return [] ->
  process_user_question W q uid st =
    (Return {| success := true;
               error := None;
               data := Some {| Response.text :=
                                 lit "No encontré resultados para tu consulta.";
                               Response.sql_query := sql;
                               Response.row_count := 0 |} |},
     {| schema_prompt := schema_prompt st;
        trace := trace st ++
          [Completion (schema_prompt st) q;
           Log INFO (lit "Generated SQL: " ++ sql);
           ReadSql sql;
           Interaction {| timestamp := utcnow_isoformat W;
                          user_id := uid;
                          question := q;
                          sql_query := sql;
                          result_count := 0 |}] |}).
Proof.
  intros HQ HC HS HN HV HR. run_bot.
  rewrite HQ. cbn [negb]. rewrite HC. cbn [trace schema_prompt]. rewrite HS.
  destruct sql as [|c sql']; [contradiction |].
  rewrite HV. cbn [negb]. rewrite HR. cbn [trace schema_prompt length Nat.ltb Nat.leb MAX_ROWS].
  cbn [_format_response trace schema_prompt].
  rewrite <- !app_assoc. reflexivity.
Qed.

Lemma empty_result_is_success_witness :
  exists st',
    process_user_question (world_customers 0) (lit "show all customers") None fresh_bot =
      (Return {| success := true;
                 error := None;
                 data := Some {| Response.text :=
                                   lit "No encontré resultados para tu consulta.";
                                 Response.sql_query := lit "SELECT * FROM Customers";
                                 Response.row_count := 0 |} |}, st').
Proof.
  eexists.
  refine (empty_result_is_success (world_customers 0) (lit "show all customers")
            None fresh_bot (lit "SELECT * FROM Customers -- all")
            (lit "SELECT * FROM Customers") _ _ _ _ _ _).
  - vm_compute; reflexivity.
  - reflexivity.
  - vm_compute; reflexivity.
  - discriminate.
  - vm_compute; reflexivity.
  - reflexivity.
Defined.

(** X26. [get_schema_for_openai] has no [try]: where [_load_schema]
    answers the empty string, it raises the exception of the
    introspection, after the one error line of [get_complete_schema];
    when introspection answers, both return the same prompt. *)
Theorem get_schema_for_openai_propagates (W : World) (st : state) :
  (forall cause,
      introspect W = Raise cause ->
      get_schema_for_openai W st =
        (Raise cause,
         {| schema_prompt := schema_prompt st;
            trace := trace st ++
              [Introspect; Log ERROR (lit "Error getting schema: " ++ cause)] |}) /\
      fst (_load_schema W st) = Return []) /\
  (forall sch,
      introspect W = Return sch ->
      fst (get_schema_for_openai W st) = Return (generate_schema_prompt sch) /\
      fst (_load_schema W st) = Return (generate_schema_prompt sch)).
Proof.
  split; intros x E; unfold get_schema_for_openai; run_bot; rewrite E;
    cbn [trace schema_prompt fst].
  - rewrite <- !app_assoc. now split.
  - now split.
Qed.
